(** * ComparativeHealthData: the pricing consolidation pipeline

    A shallow embedding of [process_data.py] (reference loaders, pricing
    extractor, merge) and [split_data.py] (chunk partitioner), and the
    properties the specification states about them.

    Python values are modelled as the interpreter has them: [int] is [Z],
    [float] is IEEE-754 binary64 ([PrimFloat.float]), [str] is [string]
    (ASCII text), an exception is the [Raise] branch of [result], and a
    [dict] is an association list in insertion order whose keys are unique. *)

From Stdlib Require Import ZArith List String Ascii Bool Lia Floats.
From Stdlib Require Import DecimalString.
From Stdlib Require Uint63.
From Stdlib Require Import Permutation FinFun Arith DecimalNat Sorted.
Import ListNotations.

Local Open Scope string_scope.
Local Open Scope list_scope.
Local Open Scope Z_scope.

(** ** Exceptions *)

Inductive pyerr : Type :=
| ValueError
| OverflowError.

Inductive result (A : Type) : Type :=
| Ok (a : A)
| Raise (e : pyerr).

Arguments Ok {A} a.
Arguments Raise {A} e.

Definition bind {A B : Type} (m : result A) (k : A -> result B) : result B :=
  match m with
  | Ok a => k a
  | Raise e => Raise e
  end.

Notation "x <- m ;; k" := (bind m (fun x => k))
  (at level 61, m at next level, right associativity).

(** ** Python numbers *)

Module Py.

(** The binary64 nearest (ties to even) to [s * n / d], for [0 <= n] and
    [0 < d]; what the interpreter's correctly rounded conversions compute. *)
Definition sf_of_ratio (s : bool) (n d : Z) : spec_float :=
  match n with
  | Z0 => S754_zero s
  | _ =>
      let '(q, e, l) := SFdiv_core_binary prec emax n 0 d 0 in
      binary_round_aux prec emax s q e l
  end.

Definition is_inf (x : spec_float) : bool :=
  match x with
  | S754_infinity _ => true
  | _ => false
  end.

(** [float(z)] for an [int]: OverflowError past the largest double. *)
Definition float_of_int (z : Z) : result float :=
  let x := sf_of_ratio (z <? 0) (Z.abs z) 1 in
  if is_inf x then Raise OverflowError else Ok (SF2Prim x).

(** [a / b] on two [int]s with [b <> 0]. *)
Definition int_truediv (a b : Z) : result float :=
  let x := sf_of_ratio (xorb (a <? 0) (b <? 0)) (Z.abs a) (Z.abs b) in
  if is_inf x then Raise OverflowError else Ok (SF2Prim x).

(** The integer nearest to [n / d], ties to the even one ([0 < d]). *)
Definition div_half_even (n d : Z) : Z :=
  let q := n / d in
  let r := n mod d in
  match 2 * r ?= d with
  | Lt => q
  | Gt => q + 1
  | Eq => if Z.even q then q else q + 1
  end.

(** [round(x, 2)] on a [float]: the exact value is rounded to the nearest
    multiple of 1/100 (ties to even) and that decimal is read back as a
    double; the sign is kept; inf and nan come back unchanged. *)
Definition float_round2 (x : float) : float :=
  match Prim2SF x with
  | S754_finite s m e =>
      let n :=
        match e with
        | Zneg p => div_half_even (Zpos m * 100) (Zpos (Pos.shiftl 1 (Npos p)))
        | _ => Zpos m * 100 * 2 ^ e
        end in
      SF2Prim (sf_of_ratio s n 100)
  | _ => x
  end.

Inductive num : Type :=
| NInt (z : Z)
| NFloat (f : float).

Definition to_float (a : num) : result float :=
  match a with
  | NInt z => float_of_int z
  | NFloat f => Ok f
  end.

(** [a + b] *)
Definition add (a b : num) : result num :=
  match a, b with
  | NInt x, NInt y => Ok (NInt (x + y))
  | _, _ =>
      x <- to_float a ;;
      y <- to_float b ;;
      Ok (NFloat (PrimFloat.add x y))
  end.

(** [a / v] for an [int] [v] with [0 < v]. *)
Definition truediv (a : num) (v : Z) : result float :=
  match a with
  | NInt x => int_truediv x v
  | NFloat x =>
      y <- float_of_int v ;;
      Ok (PrimFloat.div x y)
  end.

(** [round(a, 2)]: an [int] rounds to itself. *)
Definition round2 (a : num) : num :=
  match a with
  | NInt z => NInt z
  | NFloat f => NFloat (float_round2 f)
  end.

(** [a < 0] *)
Definition negative (a : num) : bool :=
  match a with
  | NInt z => z <? 0
  | NFloat f => PrimFloat.ltb f 0%float
  end.

End Py.

(** ** Python strings *)

Module Str.

(** [c.isspace()] on an ASCII character. *)
Definition is_space (c : ascii) : bool :=
  let n := N_of_ascii c in
  (((9 <=? n) && (n <=? 13)) || ((28 <=? n) && (n <=? 32)))%N.

Fixpoint lstrip (s : string) : string :=
  match s with
  | String c s' => if is_space c then lstrip s' else s
  | EmptyString => EmptyString
  end.

Fixpoint rstrip (s : string) : string :=
  match s with
  | String c s' =>
      match rstrip s' with
      | EmptyString => if is_space c then EmptyString else String c EmptyString
      | r => String c r
      end
  | EmptyString => EmptyString
  end.

(** [s.strip()] *)
Definition strip (s : string) : string := rstrip (lstrip s).

Definition upper_char (c : ascii) : ascii :=
  let n := N_of_ascii c in
  if ((97 <=? n) && (n <=? 122))%N then ascii_of_N (n - 32) else c.

(** [s.upper()] *)
Fixpoint upper (s : string) : string :=
  match s with
  | String c s' => String (upper_char c) (upper s')
  | EmptyString => EmptyString
  end.

(** Truth value of a [str]: non-empty. *)
Definition truthy (s : string) : bool :=
  match s with
  | EmptyString => false
  | _ => true
  end.

(** [str(z)] for an [int]. *)
Definition of_int (z : Z) : string := NilZero.string_of_int (Z.to_int z).

End Str.

(** ** Python dictionaries

    Insertion-ordered, with [str] keys: [set] on a key already present
    replaces the value where it stands, on a new key appends. *)

Module Dict.

Section Ops.
Context {V : Type}.

Definition t : Type := list (string * V).

Definition empty : t := [].

(** [d.get(k)] *)
Fixpoint get (k : string) (d : t) : option V :=
  match d with
  | [] => None
  | (k', v) :: d' => if String.eqb k' k then Some v else get k d'
  end.

(** [d[k] = v] *)
Fixpoint set (k : string) (v : V) (d : t) : t :=
  match d with
  | [] => [(k, v)]
  | (k', v') :: d' =>
      if String.eqb k' k then (k', v) :: d' else (k', v') :: set k v d'
  end.

(** [d.get(k, dflt)] *)
Definition get_default (k : string) (dflt : V) (d : t) : V :=
  match get k d with
  | Some v => v
  | None => dflt
  end.

Definition keys (d : t) : list string := map fst d.
Definition values (d : t) : list V := map snd d.
Definition items (d : t) : list (string * V) := d.
Definition len (d : t) : nat := List.length d.

(** [dict(pairs)] *)
Definition of_list (pairs : list (string * V)) : t :=
  fold_left (fun d kv => set (fst kv) (snd kv) d) pairs empty.

(** What holds of every Python [dict]: no key occurs twice. *)
Definition wf (d : t) : Prop := NoDup (keys d).

End Ops.

Arguments t : clear implicits.

End Dict.

(** Left-to-right loop with a state, stopping at the first exception. *)
Fixpoint foldM {A S : Type} (f : S -> A -> result S) (l : list A) (s : S)
  : result S :=
  match l with
  | [] => Ok s
  | a :: l' => s' <- f s a ;; foldM f l' s'
  end.

(** ** What the interpreter supplies

    [int(s)] and [float(s)] on a [str] ([None]: ValueError) and [repr] of a
    finite [float]. The pipeline is stated over any such functions. *)

Class Builtins : Type := {
  int_of_str : string -> option Z;
  float_of_str : string -> option float;
  float_repr : float -> string
}.

(** ** The pricing extractor: [load_hospital_price_data] *)

(** A row as [csv.DictReader] yields it for a line with its six fields:
    the named columns, as text. *)
Module Row.
Record t : Type := {
  provnum : string;
  category : string;
  volume : string;
  TotalCharges : string;
  TotalCost : string;
  TotalPaid : string
}.
End Row.

(** The locals of one loop iteration after lines 29-34. *)
Module Fields.
Record t : Type := {
  provnum : string;
  category : string;
  volume : Z;
  total_charges : Py.num;
  total_cost : Py.num;
  total_paid : Py.num
}.
End Fields.

Module ProcedureStat.
Record t : Type := {
  volume : Z;
  total_charges : Py.num;
  total_cost : Py.num;
  total_paid : Py.num;
  avg_charge : Py.num;
  avg_cost : Py.num;
  avg_paid : Py.num
}.
End ProcedureStat.

(** An entry of the [defaultdict] [hospitals_data]. *)
Module HospitalData.
Record t : Type := {
  procedures : Dict.t ProcedureStat.t;
  total_volume : Z;
  total_charges : Py.num;
  total_cost : Py.num;
  total_paid : Py.num
}.

(** The [defaultdict] factory, lines 17-23. *)
Definition default : t := {|
  procedures := Dict.empty;
  total_volume := 0;
  total_charges := Py.NInt 0;
  total_cost := Py.NInt 0;
  total_paid := Py.NInt 0
|}.
End HospitalData.

Section Extractor.
Context {B : Builtins}.

(** [int(s) if s else 0] *)
Definition int_or_zero (s : string) : result Z :=
  if Str.truthy s then
    match int_of_str s with
    | Some z => Ok z
    | None => Raise ValueError
    end
  else Ok 0.

(** [float(s) if s else 0] *)
Definition float_or_zero (s : string) : result Py.num :=
  if Str.truthy s then
    match float_of_str s with
    | Some f => Ok (Py.NFloat f)
    | None => Raise ValueError
    end
  else Ok (Py.NInt 0).

(** Lines 29-34. *)
Definition parse_row (row : Row.t) : result Fields.t :=
  volume <- int_or_zero (Row.volume row) ;;
  total_charges <- float_or_zero (Row.TotalCharges row) ;;
  total_cost <- float_or_zero (Row.TotalCost row) ;;
  total_paid <- float_or_zero (Row.TotalPaid row) ;;
  Ok {| Fields.provnum := Row.provnum row;
        Fields.category := Row.category row;
        Fields.volume := volume;
        Fields.total_charges := total_charges;
        Fields.total_cost := total_cost;
        Fields.total_paid := total_paid |}.

(** [total / volume if volume > 0 else 0], lines 37-39. *)
Definition average (total : Py.num) (volume : Z) : result Py.num :=
  if volume >? 0 then
    q <- Py.truediv total volume ;; Ok (Py.NFloat q)
  else Ok (Py.NInt 0).

(** Lines 37-50: the averages and the dictionary stored for the row. *)
Definition procedure_stat (f : Fields.t) : result ProcedureStat.t :=
  avg_charge <- average (Fields.total_charges f) (Fields.volume f) ;;
  avg_cost <- average (Fields.total_cost f) (Fields.volume f) ;;
  avg_paid <- average (Fields.total_paid f) (Fields.volume f) ;;
  Ok {| ProcedureStat.volume := Fields.volume f;
        ProcedureStat.total_charges := Py.round2 (Fields.total_charges f);
        ProcedureStat.total_cost := Py.round2 (Fields.total_cost f);
        ProcedureStat.total_paid := Py.round2 (Fields.total_paid f);
        ProcedureStat.avg_charge := Py.round2 avg_charge;
        ProcedureStat.avg_cost := Py.round2 avg_cost;
        ProcedureStat.avg_paid := Py.round2 avg_paid |}.

(** Lines 42-56 on the entry [hospitals_data[provnum]]: the procedure is
    stored under its code, then the four totals grow by the row. *)
Definition accumulate (h : HospitalData.t) (f : Fields.t)
    (st : ProcedureStat.t) : result HospitalData.t :=
  total_charges <- Py.add (HospitalData.total_charges h) (Fields.total_charges f) ;;
  total_cost <- Py.add (HospitalData.total_cost h) (Fields.total_cost f) ;;
  total_paid <- Py.add (HospitalData.total_paid h) (Fields.total_paid f) ;;
  Ok {| HospitalData.procedures :=
          Dict.set (Fields.category f) st (HospitalData.procedures h);
        HospitalData.total_volume :=
          HospitalData.total_volume h + Fields.volume f;
        HospitalData.total_charges := total_charges;
        HospitalData.total_cost := total_cost;
        HospitalData.total_paid := total_paid |}.

(** One iteration of the loop at line 28. An exception leaves the
    function, so the state it interrupts is never observed. *)
Definition row_step (hospitals_data : Dict.t HospitalData.t) (row : Row.t)
  : result (Dict.t HospitalData.t) :=
  f <- parse_row row ;;
  st <- procedure_stat f ;;
  h <- accumulate
         (Dict.get_default (Fields.provnum f) HospitalData.default hospitals_data)
         f st ;;
  Ok (Dict.set (Fields.provnum f) h hospitals_data).

Definition load_hospital_price_data (rows : list Row.t)
  : result (Dict.t HospitalData.t) :=
  foldM row_step rows Dict.empty.

End Extractor.

(** ** The reference loaders *)

(** A spreadsheet cell as pandas hands it over: text, an integer or a float
    (an empty cell is the float nan). [row.get(col)] is [None] when the sheet
    has no such column. *)
Module Cell.

Inductive t : Type :=
| Str (s : string)
| Int (z : Z)
| Float (f : float).

(** [pd.notna(row.get(col))] *)
Definition notna (c : option t) : bool :=
  match c with
  | None => false
  | Some (Float f) => negb (PrimFloat.is_nan f)
  | Some _ => true
  end.

Section WithBuiltins.
Context {B : Builtins}.

(** [str(c)] *)
Definition to_str (c : t) : string :=
  match c with
  | Str s => s
  | Int z => Str.of_int z
  | Float f =>
      if PrimFloat.is_nan f then "nan"
      else if PrimFloat.eqb f infinity then "inf"
      else if PrimFloat.eqb f neg_infinity then "-inf"
      else float_repr f
  end.

(** [str(row.get(col, '')).strip()] *)
Definition text (c : option t) : string :=
  match c with
  | None => ""
  | Some c => Str.strip (to_str c)
  end.

(** [str(row.get(col, '')).strip() if pd.notna(row.get(col)) else ''] *)
Definition text_or_empty (c : option t) : string :=
  if notna c then text c else "".

(** [int(x)] on a [float]: towards zero; nan and inf raise. *)
Definition int_of_float (f : float) : result Z :=
  match Prim2SF f with
  | S754_zero _ => Ok 0
  | S754_finite s m e =>
      let a :=
        match e with
        | Zneg p => Zpos m / Zpos (Pos.shiftl 1 (Npos p))
        | _ => Zpos m * 2 ^ e
        end in
      Ok (if s then - a else a)
  | S754_infinity _ => Raise OverflowError
  | S754_nan => Raise ValueError
  end.

(** [int(c)] *)
Definition to_int (c : t) : result Z :=
  match c with
  | Str s =>
      match int_of_str s with
      | Some z => Ok z
      | None => Raise ValueError
      end
  | Int z => Ok z
  | Float f => int_of_float f
  end.

(** [k == c] for a numeric key [k] of a dictionary literal; an [int]
    key is compared through its double, exact for the keys below. *)
Definition eq_num (k : Py.num) (c : t) : bool :=
  match k, c with
  | _, Str _ => false
  | Py.NInt a, Int b => a =? b
  | Py.NFloat a, Float b => PrimFloat.eqb a b
  | Py.NInt a, Float b =>
      match Py.float_of_int a with
      | Ok a' => PrimFloat.eqb a' b
      | Raise _ => false
      end
  | Py.NFloat a, Int b =>
      match Py.float_of_int b with
      | Ok b' => PrimFloat.eqb a b'
      | Raise _ => false
      end
  end.

End WithBuiltins.

End Cell.

(** Lines 66-81, entry by entry. *)
Definition hospital_type_map : list (Py.num * string) :=
  [ (Py.NInt 1, "Short-Term Acute");
    (Py.NFloat 1, "Short-Term Acute");
    (Py.NInt 2, "Psychiatric");
    (Py.NFloat 2, "Psychiatric");
    (Py.NInt 4, "Rehabilitation");
    (Py.NFloat 4, "Rehabilitation");
    (Py.NInt 5, "Religious Non-Medical");
    (Py.NFloat 5, "Religious Non-Medical");
    (Py.NInt 6, "Childrens");
    (Py.NFloat 6, "Childrens");
    (Py.NInt 7, "Critical Access");
    (Py.NFloat 7, "Critical Access");
    (Py.NInt 11, "Long Term Care");
    (Py.NFloat 11, "Long Term Care") ].

(** Lines 84-105. *)
Definition ownership_map : Dict.t string :=
  [ ("01", "Government, Federal");
    ("02", "Government, State");
    ("03", "Government, Local");
    ("04", "Government, Hospital District");
    ("05", "Government, City/County");
    ("06", "Voluntary Non-Profit, Church");
    ("07", "Voluntary Non-Profit, Private");
    ("08", "Voluntary Non-Profit, Other");
    ("09", "Proprietary, Individual");
    ("10", "Proprietary, Partnership");
    ("11", "Proprietary, Corporation");
    ("12", "Proprietary, Limited Liability Company");
    ("13", "Voluntary Non-Profit, Private");
    ("1A", "Government, Federal");
    ("1B", "Government, State");
    ("1C", "Government, Local");
    ("2A", "Voluntary Non-Profit, Church");
    ("2B", "Voluntary Non-Profit, Other");
    ("2C", "Voluntary Non-Profit, Private");
    ("30", "Government, Other") ].

(** [hospital_type_map.get(code, '')]: in a dictionary literal a later
    entry with an equal key replaces the value of an earlier one. *)
Definition hospital_type_get (code : Cell.t) : string :=
  fold_left
    (fun found kv => if Cell.eq_num (fst kv) code then snd kv else found)
    hospital_type_map "".

Module FacilityRow.
Record t : Type := {
  provnum : option Cell.t;
  facility_name : option Cell.t;
  category_subtype_of_provider : option Cell.t;
  type_of_control : option Cell.t;
  city : option Cell.t;
  state_code : option Cell.t;
  zip_code : option Cell.t;
  beds_total : option Cell.t
}.
End FacilityRow.

Module FacilityInfo.
Record t : Type := {
  name : string;
  city : string;
  state : string;
  zip_code : string;
  beds_total : Z;
  hospital_type : string;
  ownership : string
}.
End FacilityInfo.

Module ProcedureRow.
Record t : Type := {
  HCPCS_Code : option Cell.t;
  Short_Descriptor : option Cell.t
}.
End ProcedureRow.

Module CategoryRow.
Record t : Type := {
  HCPCS_Code : option Cell.t;
  Service_Category : option Cell.t;
  CMS_Shoppable : option Cell.t
}.
End CategoryRow.

Section Loaders.
Context {B : Builtins}.

(** Line 123. *)
Definition hospital_type_label (code : option Cell.t) : string :=
  match code with
  | Some c => if Cell.notna code then hospital_type_get c else ""
  | None => ""
  end.

(** Line 124. *)
Definition ownership_label (code : option Cell.t) : string :=
  match code with
  | Some c =>
      if Cell.notna code
      then Dict.get_default (Str.strip (Cell.to_str c)) "" ownership_map
      else ""
  | None => ""
  end.

(** Line 131. *)
Definition beds (c : option Cell.t) : result Z :=
  match c with
  | Some x => if Cell.notna c then Cell.to_int x else Ok 0
  | None => Ok 0
  end.

(** Line 117. *)
Definition facility_row_kept (provnum facility_name : string) : bool :=
  Str.truthy provnum && Str.truthy facility_name
  && negb (String.eqb facility_name "nan").

(** Lines 114-134: one iteration over the facility sheet. *)
Definition facility_step (facility_map : Dict.t FacilityInfo.t)
    (row : FacilityRow.t) : result (Dict.t FacilityInfo.t) :=
  let provnum := Cell.text (FacilityRow.provnum row) in
  let facility_name := Cell.text (FacilityRow.facility_name row) in
  if facility_row_kept provnum facility_name then
    let hospital_type :=
      hospital_type_label (FacilityRow.category_subtype_of_provider row) in
    let ownership := ownership_label (FacilityRow.type_of_control row) in
    beds_total <- beds (FacilityRow.beds_total row) ;;
    Ok (Dict.set provnum
          {| FacilityInfo.name := facility_name;
             FacilityInfo.city := Cell.text_or_empty (FacilityRow.city row);
             FacilityInfo.state := Cell.text_or_empty (FacilityRow.state_code row);
             FacilityInfo.zip_code := Cell.text_or_empty (FacilityRow.zip_code row);
             FacilityInfo.beds_total := beds_total;
             FacilityInfo.hospital_type := hospital_type;
             FacilityInfo.ownership := ownership |}
          facility_map)
  else Ok facility_map.

(** [load_facility_data]; [df] is what [pd.read_excel] returned, [None]
    when it raised. The [except Exception] of line 138 also covers the
    loop. *)
Definition load_facility_data (df : option (list FacilityRow.t))
  : Dict.t FacilityInfo.t :=
  match df with
  | Some rows =>
      match foldM facility_step rows Dict.empty with
      | Ok facility_map => facility_map
      | Raise _ => Dict.empty
      end
  | None => Dict.empty
  end.

(** Line 157. *)
Definition procedure_row_kept (code description : string) : bool :=
  Str.truthy code && Str.truthy description
  && negb (String.eqb code "nan") && negb (String.eqb description "nan").

(** Lines 154-158. *)
Definition procedure_step (procedure_map : Dict.t string)
    (row : ProcedureRow.t) : Dict.t string :=
  let code := Cell.text (ProcedureRow.HCPCS_Code row) in
  let description := Cell.text (ProcedureRow.Short_Descriptor row) in
  if procedure_row_kept code description
  then Dict.set code description procedure_map
  else procedure_map.

Definition load_procedure_names (df : option (list ProcedureRow.t))
  : Dict.t string :=
  match df with
  | Some rows => fold_left procedure_step rows Dict.empty
  | None => Dict.empty
  end.

End Loaders.

Section ServiceCategories.
Context {B : Builtins}.

(** [s.add(x)] on a [set] kept as a list without repeats. *)
Definition set_add (x : string) (s : list string) : list string :=
  if existsb (String.eqb x) s then s else s ++ [x].

Fixpoint insert_sorted (x : string) (l : list string) : list string :=
  match l with
  | [] => [x]
  | y :: l' => if String.leb x y then x :: l else y :: insert_sorted x l'
  end.

(** [sorted(list(s))] *)
Definition sorted (s : list string) : list string :=
  fold_right insert_sorted [] s.

(** Lines 181-191; the state is [category_map], [shoppable_map] and
    [categories_set]. *)
Definition category_step
    (st : Dict.t string * Dict.t string * list string)
    (row : CategoryRow.t) : Dict.t string * Dict.t string * list string :=
  let '(category_map, shoppable_map, categories_set) := st in
  let code := Cell.text (CategoryRow.HCPCS_Code row) in
  let category := Cell.text (CategoryRow.Service_Category row) in
  let shoppable := Str.upper (Cell.text (CategoryRow.CMS_Shoppable row)) in
  if Str.truthy code && negb (String.eqb code "nan") then
    let '(category_map, categories_set) :=
      if Str.truthy category && negb (String.eqb category "nan")
      then (Dict.set code category category_map, set_add category categories_set)
      else (category_map, categories_set) in
    let shoppable_map :=
      if Str.truthy shoppable && negb (String.eqb shoppable "NAN")
      then Dict.set code shoppable shoppable_map
      else shoppable_map in
    (category_map, shoppable_map, categories_set)
  else st.

Definition load_service_categories (df : option (list CategoryRow.t))
  : Dict.t string * Dict.t string * list string :=
  match df with
  | Some rows =>
      let '(category_map, shoppable_map, categories_set) :=
        fold_left category_step rows (Dict.empty, Dict.empty, []) in
      (category_map, shoppable_map, sorted categories_set)
  | None => (Dict.empty, Dict.empty, [])
  end.

End ServiceCategories.

(** ** The merge: [process_and_export_data] *)

Module Summary.
Record t : Type := {
  total_volume : Z;
  total_charges : Py.num;
  total_cost : Py.num;
  total_paid : Py.num;
  avg_charge_per_case : Py.num
}.
End Summary.

Module Hospital.
Record t : Type := {
  name : string;
  provnum : string;
  city : string;
  state : string;
  zip_code : string;
  beds_total : Z;
  hospital_type : string;
  ownership : string;
  procedures : Dict.t ProcedureStat.t;
  summary : Summary.t
}.
End Hospital.

Module Output.
Record t : Type := {
  hospitals : Dict.t Hospital.t;
  procedure_codes : list string;
  procedure_names : Dict.t string;
  service_categories : list string;
  service_category_map : Dict.t string;
  shoppable_map : Dict.t string
}.
End Output.

Section Merge.
Context {B : Builtins}.

(** [facility_info.get(key, dflt)], where [facility_info] is the entry of
    the facility map or the empty dictionary. *)
Definition info_get {A : Type} (facility_info : option FacilityInfo.t)
    (field : FacilityInfo.t -> A) (dflt : A) : A :=
  match facility_info with
  | Some info => field info
  | None => dflt
  end.

(** Lines 249-258. *)
Definition summarize (data : HospitalData.t) : result Summary.t :=
  avg <- average (HospitalData.total_charges data)
                 (HospitalData.total_volume data) ;;
  Ok {| Summary.total_volume := HospitalData.total_volume data;
        Summary.total_charges := Py.round2 (HospitalData.total_charges data);
        Summary.total_cost := Py.round2 (HospitalData.total_cost data);
        Summary.total_paid := Py.round2 (HospitalData.total_paid data);
        Summary.avg_charge_per_case := Py.round2 avg |}.

(** Lines 237-259: the record built for one facility. *)
Definition hospital_record (facility_data : Dict.t FacilityInfo.t)
    (provnum : string) (data : HospitalData.t) : result Hospital.t :=
  let facility_info := Dict.get provnum facility_data in
  summary <- summarize data ;;
  Ok {| Hospital.name :=
          info_get facility_info FacilityInfo.name ("Hospital " ++ provnum)%string;
        Hospital.provnum := provnum;
        Hospital.city := info_get facility_info FacilityInfo.city "";
        Hospital.state := info_get facility_info FacilityInfo.state "";
        Hospital.zip_code := info_get facility_info FacilityInfo.zip_code "";
        Hospital.beds_total := info_get facility_info FacilityInfo.beds_total 0;
        Hospital.hospital_type :=
          info_get facility_info FacilityInfo.hospital_type "";
        Hospital.ownership := info_get facility_info FacilityInfo.ownership "";
        Hospital.procedures := HospitalData.procedures data;
        Hospital.summary := summary |}.

(** The loop at line 236. *)
Definition format_hospitals (facility_data : Dict.t FacilityInfo.t)
    (hospitals_data : Dict.t HospitalData.t) : result (Dict.t Hospital.t) :=
  foldM
    (fun hospitals kv =>
       h <- hospital_record facility_data (fst kv) (snd kv) ;;
       Ok (Dict.set (fst kv) h hospitals))
    (Dict.items hospitals_data) Dict.empty.

(** Lines 224-228: the distinct codes of all facilities. A Python [set]
    fixes no order; the list here is in order of first occurrence. *)
Definition all_procedure_codes (hospitals_data : Dict.t HospitalData.t)
  : list string :=
  fold_left
    (fun codes code => set_add code codes)
    (flat_map (fun h => Dict.keys (HospitalData.procedures h))
              (Dict.values hospitals_data))
    [].

(** [process_and_export_data] up to the dictionary it writes out. The
    four arguments are the contents of the four input files as the
    readers return them. *)
Definition process_and_export_data
    (pricing : list Row.t)
    (facility_df : option (list FacilityRow.t))
    (procedure_df : option (list ProcedureRow.t))
    (category_df : option (list CategoryRow.t)) : result Output.t :=
  hospitals_data <- load_hospital_price_data pricing ;;
  let facility_data := load_facility_data facility_df in
  let procedure_names := load_procedure_names procedure_df in
  let '(service_category_map, shoppable_map, service_categories) :=
    load_service_categories category_df in
  hospitals <- format_hospitals facility_data hospitals_data ;;
  Ok {| Output.hospitals := hospitals;
        Output.procedure_codes := all_procedure_codes hospitals_data;
        Output.procedure_names := procedure_names;
        Output.service_categories := service_categories;
        Output.service_category_map := service_category_map;
        Output.shoppable_map := shoppable_map |}.

End Merge.

(** ** The chunk partitioner: [split_data.py] *)

Module ChunkInfo.
Record t : Type := {
  file : string;
  hospitals : Z;
  size_mb : Py.num
}.
End ChunkInfo.

Module Index.
Record t : Type := {
  total_hospitals : Z;
  chunk_size : Z;
  chunks : list ChunkInfo.t
}.
End Index.

(** [f'{n:03d}'] *)
Definition format_03d (n : nat) : string :=
  let s := NilZero.string_of_uint (Nat.to_uint n) in
  match String.length s with
  | 1%nat => ("00" ++ s)%string
  | 2%nat => ("0" ++ s)%string
  | _ => s
  end.

(** [range(0, n, step)] for [step > 0]: [k * step] for the
    [ceil(n / step)] first [k]. *)
Definition range_step (n step : nat) : list nat :=
  map (fun k => (k * step)%nat) (seq 0 ((n + step - 1) / step)).

Section Split.
Variable V : Type.

(** [round(os.path.getsize(filepath) / (1024 * 1024), 2)] for the file
    [json.dump] wrote from the chunk. *)
Variable size_mb : Dict.t V -> Py.num.

Definition chunk_size : nat := 1000.

(** Line 40. *)
Definition chunk_at (hospital_items : list (string * V)) (i : nat)
  : Dict.t V :=
  Dict.of_list (firstn chunk_size (skipn i hospital_items)).

(** Line 42. *)
Definition chunk_filename (i : nat) : string :=
  ("hospitals_" ++ format_03d (i / chunk_size) ++ ".json")%string.

(** Lines 38-53: the files written, in order, each with its content. *)
Definition chunk_files (hospitals : Dict.t V)
  : list (string * Dict.t V) :=
  let hospital_items := Dict.items hospitals in
  map (fun i => (chunk_filename i, chunk_at hospital_items i))
      (range_step (List.length hospital_items) chunk_size).

(** Lines 49-53. *)
Definition chunk_info (f : string * Dict.t V) : ChunkInfo.t :=
  {| ChunkInfo.file := fst f;
     ChunkInfo.hospitals := Z.of_nat (Dict.len (snd f));
     ChunkInfo.size_mb := size_mb (snd f) |}.

(** Lines 58-62. *)
Definition index (hospitals : Dict.t V) : Index.t :=
  {| Index.total_hospitals := Z.of_nat (List.length (Dict.items hospitals));
     Index.chunk_size := Z.of_nat chunk_size;
     Index.chunks := map chunk_info (chunk_files hospitals) |}.

End Split.

(** ** Plain decimal literals

    The fragment of [int(s)], [float(s)] and [repr] on which the statements
    below are run: surrounding blanks, a sign, digits, and for a float a
    decimal point; no underscore, exponent, [inf] or [nan]. A string outside
    the fragment that Python accepts is not used anywhere; every string
    Python rejects is rejected here. *)

Module DecimalLiterals.

(** The blanks that [int] and [float] skip around a literal: the space and
    the characters 9 to 13. The separators 28 to 31, which [str.strip]
    removes, are not among them: [int("\x1c12")] raises. *)
Definition is_blank (c : ascii) : bool :=
  let n := N_of_ascii c in
  (((9 <=? n) && (n <=? 13)) || (n =? 32))%N.

Fixpoint ltrim (s : string) : string :=
  match s with
  | String c s' => if is_blank c then ltrim s' else s
  | EmptyString => EmptyString
  end.

Fixpoint rtrim (s : string) : string :=
  match s with
  | String c s' =>
      match rtrim s' with
      | EmptyString => if is_blank c then EmptyString else String c EmptyString
      | r => String c r
      end
  | EmptyString => EmptyString
  end.

Definition trim (s : string) : string := rtrim (ltrim s).

Definition digit (c : ascii) : option Z :=
  let n := N_of_ascii c in
  if ((48 <=? n) && (n <=? 57))%N then Some (Z.of_N (n - 48)) else None.

Fixpoint digits (s : string) (acc : Z) : option Z :=
  match s with
  | EmptyString => Some acc
  | String c s' =>
      match digit c with
      | Some d => digits s' (10 * acc + d)
      | None => None
      end
  end.

Definition unsigned_int (s : string) : option Z :=
  match s with
  | EmptyString => None
  | _ => digits s 0
  end.

Definition signed {A : Type} (body : string -> option A) (neg : A -> A)
    (s : string) : option A :=
  match s with
  | String "-" s' => option_map neg (body s')
  | String "+" s' => body s'
  | _ => body s
  end.

Definition parse_int (s : string) : option Z :=
  signed unsigned_int Z.opp (trim s).

Fixpoint fraction (s : string) (n d : Z) : option (Z * Z) :=
  match s with
  | EmptyString => Some (n, d)
  | String c s' =>
      match digit c with
      | Some x => fraction s' (10 * n + x) (10 * d)
      | None => None
      end
  end.

Fixpoint mantissa (s : string) (acc : Z) (seen : bool) : option (Z * Z) :=
  match s with
  | EmptyString => if seen then Some (acc, 1) else None
  | String "." s' => if seen then fraction s' acc 1 else None
  | String c s' =>
      match digit c with
      | Some x => mantissa s' (10 * acc + x) true
      | None => None
      end
  end.

Definition unsigned_float (s : string) : option float :=
  match mantissa s 0 false with
  | Some (n, d) => Some (SF2Prim (Py.sf_of_ratio false n d))
  | None => None
  end.

Definition parse_float (s : string) : option float :=
  signed unsigned_float PrimFloat.opp (trim s).

(** [repr(f)] where [f] is a whole number below 10^16 in size: its digits
    and ".0"; the empty string stands for every other float. *)
Definition repr (f : float) : string :=
  match Cell.int_of_float f with
  | Ok z =>
      match Py.float_of_int z with
      | Ok g =>
          if PrimFloat.eqb f g && (Z.abs z <? 10 ^ 16) then
            if PrimFloat.ltb f 0 || PrimFloat.eqb (1 / f) neg_infinity
            then ("-" ++ Str.of_int (- z) ++ ".0")%string
            else (Str.of_int z ++ ".0")%string
          else ""
      | Raise _ => ""
      end
  | Raise _ => ""
  end.

Definition builtins : Builtins := {|
  int_of_str := parse_int;
  float_of_str := parse_float;
  float_repr := repr
|}.

End DecimalLiterals.

(** * Properties *)

(** ** Dictionaries *)

Module DictFacts.

Section Facts.
Context {V : Type}.
Implicit Types (d : Dict.t V) (k : string) (v : V).

Lemma get_set_same d k v : Dict.get k (Dict.set k v d) = Some v.
Proof.
  induction d as [|[k' v'] d IH]; simpl.
  - now rewrite String.eqb_refl.
  - destruct (String.eqb k' k) eqn:E; simpl; rewrite E; auto.
Qed.

Lemma get_set_other d k k' v :
  k <> k' -> Dict.get k' (Dict.set k v d) = Dict.get k' d.
Proof.
  intros Hne. induction d as [|[k0 v0] d IH]; simpl.
  - destruct (String.eqb k k') eqn:E; auto.
    apply String.eqb_eq in E. contradiction.
  - destruct (String.eqb k0 k) eqn:E; simpl.
    + apply String.eqb_eq in E. subst k0.
      destruct (String.eqb k k') eqn:E'; auto.
      apply String.eqb_eq in E'. contradiction.
    + now rewrite IH.
Qed.

Lemma get_None d k : Dict.get k d = None <-> ~ In k (Dict.keys d).
Proof.
  induction d as [|[k' v'] d IH]; simpl.
  - tauto.
  - destruct (String.eqb k' k) eqn:E.
    + apply String.eqb_eq in E. split; [discriminate | tauto].
    + apply String.eqb_neq in E. rewrite IH. tauto.
Qed.

(** A new key goes to the end. *)
Lemma set_new d k v :
  ~ In k (Dict.keys d) -> Dict.set k v d = d ++ [(k, v)].
Proof.
  induction d as [|[k' v'] d IH]; simpl; auto.
  intros Hnotin. destruct (String.eqb k' k) eqn:E.
  - apply String.eqb_eq in E. tauto.
  - f_equal. apply IH. tauto.
Qed.

(** A key already there keeps its place. *)
Lemma keys_set_old d k v :
  In k (Dict.keys d) -> Dict.keys (Dict.set k v d) = Dict.keys d.
Proof.
  induction d as [|[k' v'] d IH]; simpl; [tauto|].
  intros Hin. destruct (String.eqb k' k) eqn:E; simpl; auto.
  f_equal. apply IH. destruct Hin as [->|]; auto.
  now rewrite String.eqb_refl in E.
Qed.

Lemma keys_set d k v :
  Dict.keys (Dict.set k v d) =
  if existsb (String.eqb k) (Dict.keys d)
  then Dict.keys d else Dict.keys d ++ [k].
Proof.
  destruct (existsb (String.eqb k) (Dict.keys d)) eqn:E.
  - apply keys_set_old. apply existsb_exists in E.
    destruct E as (x & Hx & Heq). apply String.eqb_eq in Heq. now subst.
  - rewrite set_new.
    + unfold Dict.keys. now rewrite map_app.
    + intros Hin. assert (existsb (String.eqb k) (Dict.keys d) = true).
      { apply existsb_exists. exists k. split; auto. apply String.eqb_refl. }
      congruence.
Qed.

Lemma wf_set d k v : Dict.wf d -> Dict.wf (Dict.set k v d).
Proof.
  unfold Dict.wf. intros Hnd. rewrite keys_set.
  destruct (existsb (String.eqb k) (Dict.keys d)) eqn:E; auto.
  apply NoDup_app; [assumption | repeat constructor; simpl; tauto | ].
  intros x Hx [<-|[]].
  assert (existsb (String.eqb k) (Dict.keys d) = true).
  { apply existsb_exists. exists k. split; auto. apply String.eqb_refl. }
  congruence.
Qed.

Lemma wf_empty : Dict.wf (@Dict.empty V).
Proof. constructor. Qed.

End Facts.

End DictFacts.

(** ** Loops *)

(** [f] over a list, stopping at the first exception. *)
Fixpoint mapM {A C : Type} (f : A -> result C) (l : list A)
  : result (list C) :=
  match l with
  | [] => Ok []
  | a :: l' => b <- f a ;; bs <- mapM f l' ;; Ok (b :: bs)
  end.

Lemma bind_Ok {A C : Type} (m : result A) (k : A -> result C) (c : C) :
  bind m k = Ok c -> exists a, m = Ok a /\ k a = Ok c.
Proof. destruct m as [a|e]; simpl; [eauto | discriminate]. Qed.

Lemma foldM_app {A S : Type} (f : S -> A -> result S) (l1 l2 : list A) (s : S) :
  foldM f (l1 ++ l2) s = (s' <- foldM f l1 s ;; foldM f l2 s').
Proof.
  revert s. induction l1 as [|a l1 IH]; intros s; simpl; auto.
  destruct (f s a); simpl; auto.
Qed.

Lemma foldM_snoc {A S : Type} (f : S -> A -> result S) (l : list A) (a : A) (s : S) :
  foldM f (l ++ [a]) s = (s' <- foldM f l s ;; f s' a).
Proof.
  rewrite foldM_app. destruct (foldM f l s) as [s'|e]; simpl; auto.
  destruct (f s' a); auto.
Qed.

Lemma mapM_snoc {A C : Type} (f : A -> result C) (l : list A) (a : A) :
  mapM f (l ++ [a]) = (bs <- mapM f l ;; b <- f a ;; Ok (bs ++ [b])).
Proof.
  induction l as [|x l IH]; simpl.
  - destruct (f a); auto.
  - destruct (f x) as [y|e]; simpl; auto. rewrite IH.
    destruct (mapM f l); simpl; auto. destruct (f a); auto.
Qed.

(** An element on which the body always raises makes the loop raise. *)
Lemma foldM_raises {A S : Type} (f : S -> A -> result S) (l : list A) (a : A) :
  In a l -> (forall s, exists e, f s a = Raise e) ->
  forall s, exists e, foldM f l s = Raise e.
Proof.
  intros Hin Hbad. induction l as [|x l IH]; [contradiction|].
  intros s. simpl. destruct Hin as [->|Hin].
  - destruct (Hbad s) as [e ->]. now exists e.
  - destruct (f s x) as [s'|e]; simpl; [now apply IH | now exists e].
Qed.

Definition sum_Z (l : list Z) : Z := fold_left Z.add l 0.

(** The running total of a column: additions in row order, from [0]. *)
Definition sum_num (l : list Py.num) : result Py.num :=
  foldM Py.add l (Py.NInt 0).

Lemma sum_Z_snoc l x : sum_Z (l ++ [x]) = sum_Z l + x.
Proof. unfold sum_Z. now rewrite fold_left_app. Qed.

Lemma sum_Z_fold_right l : sum_Z l = fold_right Z.add 0 l.
Proof.
  unfold sum_Z.
  assert (H : forall a, fold_left Z.add l a = a + fold_right Z.add 0 l).
  { induction l as [|x l IH]; intros a; simpl; [lia|]. rewrite IH. lia. }
  now rewrite H.
Qed.

(** ** The pricing extractor *)

Definition same_facility (p : string) (f : Fields.t) : bool :=
  String.eqb (Fields.provnum f) p.

Definition same_procedure (p c : string) (f : Fields.t) : bool :=
  same_facility p f && String.eqb (Fields.category f) c.

(** The rows of facility [p], in file order. *)
Definition of_facility (p : string) (fs : list Fields.t) : list Fields.t :=
  filter (same_facility p) fs.

(** The last row of facility [p] for the code [c]. *)
Definition last_row (p c : string) (fs : list Fields.t) : option Fields.t :=
  find (same_procedure p c) (rev fs).

Definition pair_of (f : Fields.t) : string * string :=
  (Fields.provnum f, Fields.category f).

Definition row_pair (r : Row.t) : string * string :=
  (Row.provnum r, Row.category r).

Definition code_volume (kv : string * ProcedureStat.t) : string * Z :=
  (fst kv, ProcedureStat.volume (snd kv)).

(** The rows of the file that carry the provider number [p], in file
    order. *)
Definition of_provnum (p : string) (rows : list Row.t) : list Row.t :=
  filter (fun r => String.eqb (Row.provnum r) p) rows.

(** The last row of the file that carries the provider number [p] and the
    code [c]. *)
Definition last_of (p c : string) (rows : list Row.t) : option Row.t :=
  find (fun r => String.eqb (Row.provnum r) p && String.eqb (Row.category r) c)
       (rev rows).

Lemma Forall2_rev {A C : Type} (R : A -> C -> Prop) (l : list A) (l' : list C) :
  Forall2 R l l' -> Forall2 R (rev l) (rev l').
Proof.
  induction 1 as [|a b l l' Hab _ IH]; simpl; [constructor|].
  apply Forall2_app; [exact IH | now repeat constructor].
Qed.

Lemma Forall2_filter {A C : Type} (R : A -> C -> Prop) (pa : A -> bool)
    (pc : C -> bool) (l : list A) (l' : list C) :
  (forall a b, R a b -> pa a = pc b) ->
  Forall2 R l l' -> Forall2 R (filter pa l) (filter pc l').
Proof.
  intros Hp. induction 1 as [|a b l l' Hab _ IH]; simpl; [constructor|].
  rewrite (Hp a b Hab). destruct (pc b); [now constructor | exact IH].
Qed.

Lemma Forall2_find {A C : Type} (R : A -> C -> Prop) (pa : A -> bool)
    (pc : C -> bool) (l : list A) (l' : list C) :
  (forall a b, R a b -> pa a = pc b) ->
  Forall2 R l l' ->
  match find pa l, find pc l' with
  | Some a, Some b => R a b
  | None, None => True
  | _, _ => False
  end.
Proof.
  intros Hp. induction 1 as [|a b l l' Hab _ IH]; simpl; [exact I|].
  rewrite (Hp a b Hab). destruct (pc b); [exact Hab | exact IH].
Qed.

Lemma Forall2_In_l {A C : Type} (R : A -> C -> Prop) (l : list A)
    (l' : list C) (a : A) :
  Forall2 R l l' -> In a l -> exists b, In b l' /\ R a b.
Proof.
  induction 1 as [|x y l l' Hxy _ IH]; simpl; [contradiction|].
  intros [<- | Hin].
  - exists y. auto.
  - destruct (IH Hin) as (b & Hb & Hab). exists b. auto.
Qed.

Section ExtractorFacts.
Context {B : Builtins}.

(** What the entry of facility [p] holds once the rows [fs] are read. *)
Record summarises (p : string) (fs : list Fields.t) (h : HospitalData.t)
  : Prop := {
  sum_volume :
    HospitalData.total_volume h = sum_Z (map Fields.volume (of_facility p fs));
  sum_charges :
    sum_num (map Fields.total_charges (of_facility p fs))
    = Ok (HospitalData.total_charges h);
  sum_cost :
    sum_num (map Fields.total_cost (of_facility p fs))
    = Ok (HospitalData.total_cost h);
  sum_paid :
    sum_num (map Fields.total_paid (of_facility p fs))
    = Ok (HospitalData.total_paid h);
  procs_last :
    forall c,
      match last_row p c fs with
      | Some f =>
          exists st, procedure_stat f = Ok st
                     /\ Dict.get c (HospitalData.procedures h) = Some st
      | None => Dict.get c (HospitalData.procedures h) = None
      end;
  procs_nodup :
    NoDup (map pair_of fs) ->
    map code_volume (HospitalData.procedures h)
    = map (fun f => (Fields.category f, Fields.volume f)) (of_facility p fs)
}.

Lemma parse_row_keys r f :
  parse_row r = Ok f ->
  Fields.provnum f = Row.provnum r /\ Fields.category f = Row.category r.
Proof.
  unfold parse_row. intros H.
  repeat (apply bind_Ok in H; destruct H as (? & _ & H)).
  injection H as <-. auto.
Qed.

Lemma procedure_stat_volume f st :
  procedure_stat f = Ok st -> ProcedureStat.volume st = Fields.volume f.
Proof.
  unfold procedure_stat. intros H.
  repeat (apply bind_Ok in H; destruct H as (? & _ & H)).
  injection H as <-. auto.
Qed.

Lemma of_facility_snoc p fs f :
  of_facility p (fs ++ [f]) =
  if same_facility p f then of_facility p fs ++ [f] else of_facility p fs.
Proof.
  unfold of_facility. rewrite filter_app. simpl.
  destruct (same_facility p f); auto using app_nil_r.
Qed.

Lemma last_row_snoc p c fs f :
  last_row p c (fs ++ [f]) =
  if same_procedure p c f then Some f else last_row p c fs.
Proof. unfold last_row. now rewrite rev_unit. Qed.

Lemma summarises_default p : summarises p [] HospitalData.default.
Proof. split; simpl; auto. Qed.

(** A row of another facility leaves the entry as it is. *)
Lemma summarises_other p fs h f :
  Fields.provnum f <> p -> summarises p fs h -> summarises p (fs ++ [f]) h.
Proof.
  intros Hne [Hv Hc Hk Hp Hl Hn].
  assert (E : same_facility p f = false) by now apply String.eqb_neq.
  split; rewrite ?of_facility_snoc, ?E; auto.
  - intros c. rewrite last_row_snoc. unfold same_procedure. rewrite E.
    apply Hl.
  - intros Hnd. apply Hn. rewrite map_app in Hnd.
    now apply NoDup_app_remove_r in Hnd.
Qed.

Lemma sum_num_snoc l x t t' :
  sum_num l = Ok t -> Py.add t x = Ok t' -> sum_num (l ++ [x]) = Ok t'.
Proof. unfold sum_num. intros H1 H2. now rewrite foldM_snoc, H1. Qed.

(** The row's own facility: lines 42-56. *)
Lemma summarises_same fs h f st h' :
  summarises (Fields.provnum f) fs h ->
  procedure_stat f = Ok st ->
  accumulate h f st = Ok h' ->
  summarises (Fields.provnum f) (fs ++ [f]) h'.
Proof.
  intros [Hv Hc Hk Hp Hl Hn] Hst Hacc.
  unfold accumulate in Hacc.
  apply bind_Ok in Hacc. destruct Hacc as (tc & Htc & Hacc).
  apply bind_Ok in Hacc. destruct Hacc as (tk & Htk & Hacc).
  apply bind_Ok in Hacc. destruct Hacc as (tp & Htp & Hacc).
  injection Hacc as <-.
  assert (E : same_facility (Fields.provnum f) f = true)
    by apply String.eqb_refl.
  split; simpl; rewrite ?of_facility_snoc, ?E, ?map_app; simpl.
  - now rewrite sum_Z_snoc, Hv.
  - eapply sum_num_snoc; eauto.
  - eapply sum_num_snoc; eauto.
  - eapply sum_num_snoc; eauto.
  - intros c. rewrite last_row_snoc. unfold same_procedure. rewrite E. simpl.
    destruct (String.eqb (Fields.category f) c) eqn:Ec.
    + apply String.eqb_eq in Ec. subst c. exists st. split; auto.
      apply DictFacts.get_set_same.
    + apply String.eqb_neq in Ec. rewrite DictFacts.get_set_other by auto.
      apply Hl.
  - intros Hnd.
    pose proof (NoDup_app_remove_r _ _ Hnd) as Hnd0.
    specialize (Hn Hnd0).
    rewrite DictFacts.set_new.
    + rewrite map_app, Hn. simpl. unfold code_volume at 1. simpl.
      now rewrite (procedure_stat_volume _ _ Hst).
    + intros Hin.
      assert (Hk' : In (Fields.category f)
                       (map fst (map code_volume (HospitalData.procedures h)))).
      { rewrite map_map. exact Hin. }
      rewrite Hn, map_map in Hk'. simpl in Hk'.
      apply in_map_iff in Hk'. destruct Hk' as (g & Hcat & Hg).
      apply filter_In in Hg. destruct Hg as (Hg & Hsame).
      apply String.eqb_eq in Hsame.
      apply NoDup_remove_2 in Hnd. apply Hnd. rewrite app_nil_r.
      apply in_map_iff. exists g. split; auto.
      unfold pair_of. now rewrite Hcat, Hsame.
Qed.

(** [hospitals_data[p]] as the [defaultdict] answers it. *)
Definition entry (p : string) (hospitals_data : Dict.t HospitalData.t)
  : HospitalData.t :=
  Dict.get_default p HospitalData.default hospitals_data.

Lemma row_step_Ok hd r hd' :
  row_step hd r = Ok hd' ->
  exists f st h,
    parse_row r = Ok f /\ procedure_stat f = Ok st
    /\ accumulate (entry (Fields.provnum f) hd) f st = Ok h
    /\ hd' = Dict.set (Fields.provnum f) h hd.
Proof.
  unfold row_step. intros H.
  apply bind_Ok in H. destruct H as (f & Hf & H).
  apply bind_Ok in H. destruct H as (st & Hst & H).
  apply bind_Ok in H. destruct H as (h & Hh & H).
  injection H as <-. now exists f, st, h.
Qed.

(** The state of the loop at line 28 after any number of rows. *)
Lemma load_inv rows :
  forall hd,
    load_hospital_price_data rows = Ok hd ->
    exists fs,
      mapM parse_row rows = Ok fs
      /\ Dict.wf hd
      /\ forall p,
          summarises p fs (entry p hd)
          /\ (Dict.get p hd = None <-> of_facility p fs = []).
Proof.
  unfold load_hospital_price_data.
  induction rows as [|r rows IH] using rev_ind; intros hd Hload.
  - injection Hload as <-. exists []. split; [reflexivity|].
    split; [apply DictFacts.wf_empty|].
    intros p. split; [apply summarises_default | simpl; tauto].
  - rewrite foldM_snoc in Hload. apply bind_Ok in Hload.
    destruct Hload as (hd0 & Hload0 & Hstep).
    destruct (IH _ Hload0) as (fs0 & Hfs0 & Hwf0 & Hinv0).
    apply row_step_Ok in Hstep.
    destruct Hstep as (f & st & h & Hf & Hst & Hacc & ->).
    exists (fs0 ++ [f]). split; [now rewrite mapM_snoc, Hfs0, Hf|].
    split; [now apply DictFacts.wf_set|].
    intros p. rewrite of_facility_snoc. unfold entry, Dict.get_default.
    destruct (String.eqb (Fields.provnum f) p) eqn:E.
    + apply String.eqb_eq in E. subst p.
      rewrite DictFacts.get_set_same.
      unfold same_facility. rewrite String.eqb_refl. split.
      * eapply summarises_same; eauto. apply Hinv0.
      * split; [discriminate|].
        intros Hnil. now apply app_eq_nil in Hnil.
    + unfold same_facility. rewrite E. apply String.eqb_neq in E.
      rewrite DictFacts.get_set_other by auto. split.
      * apply summarises_other; auto. apply Hinv0.
      * apply Hinv0.
Qed.

End ExtractorFacts.

(** ** Signs of doubles *)

Module FloatSign.

(** [x] carries the sign bit [s], or is nan. *)
Definition signed (s : bool) (x : spec_float) : Prop :=
  match x with
  | S754_nan => True
  | S754_zero s' | S754_infinity s' | S754_finite s' _ _ => s' = s
  end.

(** [x < 0] does not hold. *)
Definition nonneg (x : spec_float) : Prop :=
  match x with
  | S754_infinity true | S754_finite true _ _ => False
  | _ => True
  end.

Lemma signed_nonneg x : signed false x -> nonneg x.
Proof. destruct x as [s|s| |s m e]; simpl; auto; now intros ->. Qed.

Lemma binary_round_aux_signed s m e l :
  signed s (binary_round_aux prec emax s m e l).
Proof.
  unfold binary_round_aux.
  destruct (shr_fexp prec emax m e l) as [mrs' e'].
  destruct (shr_fexp prec emax _ e' loc_Exact) as [mrs'' e''].
  destruct (shr_m mrs''); simpl; auto.
  destruct (Z.leb e'' _); simpl; auto.
Qed.

Lemma binary_round_signed s m e : signed s (binary_round prec emax s m e).
Proof.
  unfold binary_round. destruct (shl_align m e _) as [mz ez].
  apply binary_round_aux_signed.
Qed.

Lemma sf_of_ratio_signed s n d : signed s (Py.sf_of_ratio s n d).
Proof.
  unfold Py.sf_of_ratio.
  destruct n; simpl; auto;
    match goal with
    | |- context [SFdiv_core_binary ?a ?b ?c ?d ?e ?f] =>
        destruct (SFdiv_core_binary a b c d e f) as [[q e'] l]
    end; apply binary_round_aux_signed.
Qed.

Lemma ldexp_signed s x e : signed s x -> signed s (SFldexp prec emax x e).
Proof.
  destruct x as [s'|s'| |s' m e']; simpl; auto.
  intros ->. apply binary_round_signed.
Qed.

Lemma of_uint63_signed n : signed false (Prim2SF (of_uint63 n)).
Proof.
  rewrite of_uint63_spec.
  pose proof (Uint63.to_Z_bounded n) as Hb.
  destruct (Uint63.to_Z n) as [|p|p]; simpl; auto.
  - apply binary_round_signed.
  - lia.
Qed.

(** Reading a sign-free specification back gives no sign either. *)
Lemma SF2Prim_signed x : signed false x -> signed false (Prim2SF (SF2Prim x)).
Proof.
  destruct x as [s|s| |s m e]; simpl.
  - intros ->. vm_compute. reflexivity.
  - intros ->. vm_compute. reflexivity.
  - intros _. vm_compute. exact I.
  - intros ->. rewrite Z_ldexp_spec. apply ldexp_signed, of_uint63_signed.
Qed.

Lemma ltb_zero x :
  PrimFloat.ltb x 0 = false <-> nonneg (Prim2SF x).
Proof.
  rewrite ltb_spec.
  replace (Prim2SF 0) with (S754_zero false) by (vm_compute; reflexivity).
  destruct (Prim2SF x) as [s|[|]| |[|] m e]; simpl; unfold SFltb; simpl;
    intuition discriminate.
Qed.

Lemma div_nonneg x y :
  nonneg (Prim2SF x) -> signed false (Prim2SF y) -> nonneg (Prim2SF (x / y)).
Proof.
  rewrite div_spec. unfold SF64div.
  destruct (Prim2SF x) as [sx|[|]| |[|] mx ex]; simpl; try tauto;
    destruct (Prim2SF y) as [sy|sy| |sy my ey]; simpl; auto;
    try (intros _ ->; simpl; auto).
  match goal with
  | |- context [SFdiv_core_binary ?a ?b ?c ?d ?e ?f] =>
      destruct (SFdiv_core_binary a b c d e f) as [[q e'] l]
  end.
  apply signed_nonneg, binary_round_aux_signed.
Qed.

Lemma float_round2_nonneg x :
  nonneg (Prim2SF x) -> nonneg (Prim2SF (Py.float_round2 x)).
Proof.
  unfold Py.float_round2.
  destruct (Prim2SF x) as [s|s| |s m e] eqn:E; try (now rewrite E).
  destruct s; simpl; [tauto|]. intros _.
  apply signed_nonneg, SF2Prim_signed, sf_of_ratio_signed.
Qed.

End FloatSign.

(** ** Per-unit averages *)

(** [avg] is the stored average for a row total [total] and volume [v]. *)
Definition average_of (total : Py.num) (v : Z) (avg : Py.num) : Prop :=
  (0 < v ->
   exists q, Py.truediv total v = Ok q /\ avg = Py.round2 (Py.NFloat q))
  /\ (v <= 0 -> avg = Py.NInt 0)
  /\ (Py.negative total = false -> Py.negative avg = false).

Lemma truediv_nonneg total v q :
  0 < v -> Py.negative total = false -> Py.truediv total v = Ok q ->
  FloatSign.nonneg (Prim2SF q).
Proof.
  intros Hv Hneg. destruct total as [z|x]; simpl in *.
  - unfold Py.int_truediv.
    replace (v <? 0) with false by (symmetry; apply Z.ltb_ge; lia).
    rewrite Hneg. simpl.
    destruct (Py.is_inf _); [discriminate|]. intros [= <-].
    apply FloatSign.signed_nonneg, FloatSign.SF2Prim_signed,
      FloatSign.sf_of_ratio_signed.
  - unfold Py.float_of_int.
    replace (v <? 0) with false by (symmetry; apply Z.ltb_ge; lia).
    destruct (Py.is_inf _); simpl; [discriminate|]. intros [= <-].
    apply FloatSign.div_nonneg.
    + now apply FloatSign.ltb_zero.
    + apply FloatSign.SF2Prim_signed, FloatSign.sf_of_ratio_signed.
Qed.

Lemma average_spec total v a :
  average total v = Ok a -> average_of total v (Py.round2 a).
Proof.
  unfold average, average_of. destruct (v >? 0) eqn:E.
  - apply Z.gtb_lt in E. intros H. apply bind_Ok in H.
    destruct H as (q & Hq & [= <-]). repeat split.
    + intros _. now exists q.
    + lia.
    + intros Hneg. simpl. apply FloatSign.ltb_zero.
      apply FloatSign.float_round2_nonneg. eapply truediv_nonneg; eauto.
  - intros [= <-]. assert (v <= 0) by (rewrite Z.gtb_ltb in E; apply Z.ltb_ge in E; lia).
    repeat split; auto. lia.
Qed.

(** With no volume the quotient is never formed. *)
Lemma average_no_volume total v : v <= 0 -> average total v = Ok (Py.NInt 0).
Proof.
  intros Hv. unfold average.
  replace (v >? 0) with false; auto.
  symmetry. rewrite Z.gtb_ltb. apply Z.ltb_ge. lia.
Qed.

Section ProcedureStatFacts.
Context {B : Builtins}.

(** The stored dictionary [st] against the parsed row [f], lines 43-49. *)
Definition stat_matches_row (st : ProcedureStat.t) (f : Fields.t) : Prop :=
  ProcedureStat.volume st = Fields.volume f
  /\ ProcedureStat.total_charges st = Py.round2 (Fields.total_charges f)
  /\ ProcedureStat.total_cost st = Py.round2 (Fields.total_cost f)
  /\ ProcedureStat.total_paid st = Py.round2 (Fields.total_paid f)
  /\ average_of (Fields.total_charges f) (Fields.volume f)
                (ProcedureStat.avg_charge st)
  /\ average_of (Fields.total_cost f) (Fields.volume f)
                (ProcedureStat.avg_cost st)
  /\ average_of (Fields.total_paid f) (Fields.volume f)
                (ProcedureStat.avg_paid st).

Lemma procedure_stat_spec f st :
  procedure_stat f = Ok st -> stat_matches_row st f.
Proof.
  unfold procedure_stat, stat_matches_row. intros H.
  apply bind_Ok in H. destruct H as (ac & Hac & H).
  apply bind_Ok in H. destruct H as (ak & Hak & H).
  apply bind_Ok in H. destruct H as (ap & Hap & H).
  injection H as <-. simpl. auto 10 using average_spec.
Qed.

Lemma procedure_stat_no_volume f :
  Fields.volume f <= 0 ->
  exists st,
    procedure_stat f = Ok st
    /\ ProcedureStat.avg_charge st = Py.NInt 0
    /\ ProcedureStat.avg_cost st = Py.NInt 0
    /\ ProcedureStat.avg_paid st = Py.NInt 0.
Proof.
  intros Hv. unfold procedure_stat.
  rewrite !average_no_volume by assumption. simpl. eauto.
Qed.


(** Every stored procedure is the one computed from the last row of its
    facility and code. *)
Lemma stored_procedure rows hd p h c st :
  load_hospital_price_data rows = Ok hd ->
  Dict.get p hd = Some h ->
  Dict.get c (HospitalData.procedures h) = Some st ->
  exists fs f,
    mapM parse_row rows = Ok fs /\ last_row p c fs = Some f
    /\ procedure_stat f = Ok st.
Proof.
  intros Hload Hp Hc.
  destruct (load_inv _ _ Hload) as (fs & Hfs & _ & Hinv).
  destruct (Hinv p) as [[_ _ _ _ Hl _] _].
  unfold entry, Dict.get_default in Hl. rewrite Hp in Hl.
  specialize (Hl c). destruct (last_row p c fs) as [f|] eqn:E.
  - destruct Hl as (st' & Hst & Hget). exists fs, f.
    repeat split; auto. congruence.
  - congruence.
Qed.

End ProcedureStatFacts.

(** ** Sample inputs *)

Module Sample.

Definition row (provnum category volume charges cost paid : string) : Row.t :=
  {| Row.provnum := provnum; Row.category := category; Row.volume := volume;
     Row.TotalCharges := charges; Row.TotalCost := cost; Row.TotalPaid := paid |}.

Definition load (rows : list Row.t) : Dict.t HospitalData.t :=
  match load_hospital_price_data (B := DecimalLiterals.builtins) rows with
  | Ok hd => hd
  | Raise _ => Dict.empty
  end.

(** The row of the specification's example, then the same facility and
    code again with other figures, then a second facility. *)
Definition duplicated : list Row.t :=
  [ row "001" "99213" "10" "1000" "600" "700";
    row "001" "99213" "5" "200" "100" "150";
    row "002" "99214" "" "" "" "" ].

Definition duplicated_data : Dict.t HospitalData.t :=
  Eval vm_compute in load duplicated.

(** One row per facility and code. *)
Definition distinct : list Row.t :=
  [ row "001" "99213" "10" "1000" "600" "700";
    row "001" "99214" "3" "1" "1" "1";
    row "002" "99213" "7" "70.5" "0" "" ].

Definition distinct_data : Dict.t HospitalData.t :=
  Eval vm_compute in load distinct.

(** A negative amount, and a total that three does not divide. *)
Definition negative : list Row.t :=
  [ row "001" "99213" "2" "-100" "0" "0";
    row "001" "99214" "3" "1" "1" "1" ].

Definition negative_data : Dict.t HospitalData.t :=
Eval vm_compute in load negative.

(** The second row has a volume that is no number. *)
Definition malformed : list Row.t :=
  [ row "001" "99213" "10" "1000" "600" "700";
    row "001" "99214" "ten" "1" "1" "1" ].

End Sample.

(** ** The claims on the pricing extractor *)

Section ExtractorClaims.
Context {B : Builtins}.

(** What a field of a row says, in the words of lines 31-34: a blank
    volume counts 0 and any other volume is the integer that [int] reads; a
    blank amount is the integer 0 and any other amount the float that
    [float] reads. *)
Definition reads_count (s : string) (v : Z) : Prop :=
  (s = "" /\ v = 0) \/ (s <> "" /\ int_of_str s = Some v).

Definition reads_amount (s : string) (a : Py.num) : Prop :=
  (s = "" /\ a = Py.NInt 0)
  \/ (s <> "" /\ exists x, float_of_str s = Some x /\ a = Py.NFloat x).

(** [f] holds the values of the row [r]. *)
Definition row_reads (r : Row.t) (f : Fields.t) : Prop :=
  Fields.provnum f = Row.provnum r
  /\ Fields.category f = Row.category r
  /\ reads_count (Row.volume r) (Fields.volume f)
  /\ reads_amount (Row.TotalCharges r) (Fields.total_charges f)
  /\ reads_amount (Row.TotalCost r) (Fields.total_cost f)
  /\ reads_amount (Row.TotalPaid r) (Fields.total_paid f).

(** The breakdown of facility [p] shows, for each code, the values of the
    last row of the file with that provider number and code, and nothing
    for a code none of its rows carries. *)
Definition breakdown_is_last_row (p : string) (rows : list Row.t)
    (h : HospitalData.t) : Prop :=
  forall c,
    match last_of p c rows with
    | Some r =>
        exists f st,
          row_reads r f
          /\ Dict.get c (HospitalData.procedures h) = Some st
          /\ stat_matches_row st f
    | None => Dict.get c (HospitalData.procedures h) = None
    end.

(** The totals of facility [p] add up the values of every row of the file
    with that provider number, in file order. *)
Definition totals_add_every_row (p : string) (rows : list Row.t)
    (h : HospitalData.t) : Prop :=
  exists fs,
    Forall2 row_reads (of_provnum p rows) fs
    /\ HospitalData.total_volume h = sum_Z (map Fields.volume fs)
    /\ sum_num (map Fields.total_charges fs)
       = Ok (HospitalData.total_charges h)
    /\ sum_num (map Fields.total_cost fs) = Ok (HospitalData.total_cost h)
    /\ sum_num (map Fields.total_paid fs) = Ok (HospitalData.total_paid h).

Lemma truthy_nonempty s : Str.truthy s = true <-> s <> "".
Proof. destruct s; simpl; split; congruence. Qed.

Lemma int_or_zero_reads s v : int_or_zero s = Ok v -> reads_count s v.
Proof.
  unfold int_or_zero, reads_count. destruct s as [|c s]; simpl.
  - intros [= <-]. now left.
  - destruct (int_of_str (String c s)) as [z|]; [|discriminate].
    intros [= <-]. right. split; [discriminate | reflexivity].
Qed.

Lemma float_or_zero_reads s a : float_or_zero s = Ok a -> reads_amount s a.
Proof.
  unfold float_or_zero, reads_amount. destruct s as [|c s]; simpl.
  - intros [= <-]. now left.
  - destruct (float_of_str (String c s)) as [x|]; [|discriminate].
    intros [= <-]. right. split; [discriminate | eauto].
Qed.

Lemma parse_row_reads r f : parse_row r = Ok f -> row_reads r f.
Proof.
  unfold parse_row. intros H.
  apply bind_Ok in H. destruct H as (v & Hv & H).
  apply bind_Ok in H. destruct H as (a & Ha & H).
  apply bind_Ok in H. destruct H as (b & Hb & H).
  apply bind_Ok in H. destruct H as (c & Hc & H).
  injection H as <-. unfold row_reads. simpl.
  auto 10 using int_or_zero_reads, float_or_zero_reads.
Qed.

Lemma mapM_Forall2 {A C : Type} (f : A -> result C) (l : list A) :
  forall l', mapM f l = Ok l' -> Forall2 (fun a b => f a = Ok b) l l'.
Proof.
  induction l as [|a l IH]; intros l' H; simpl in H.
  - injection H as <-. constructor.
  - apply bind_Ok in H. destruct H as (b & Hb & H).
    apply bind_Ok in H. destruct H as (bs & Hbs & [= <-]).
    constructor; auto.
Qed.

Lemma rows_read rows fs :
  mapM parse_row rows = Ok fs -> Forall2 row_reads rows fs.
Proof.
  intros H. apply mapM_Forall2 in H.
  eapply Forall2_impl; [|exact H]. intros r f. apply parse_row_reads.
Qed.

(** C1: when the extract repeats a (facility_id, procedure_code) pair, the
    breakdown stored for the pair holds the values of the last such row of
    the file (its volume, its three amounts rounded, and the averages
    formed from them), while the facility's total_volume, total_charges,
    total_cost and total_paid add up the values of every row of the file
    with that facility_id, repeated ones included. The values of a row are
    what [int] and [float] read in its fields, a blank field being 0; every
    facility with a row has an entry. *)
Theorem duplicate_rows_last_wins_totals_add
    (rows : list Row.t) (hd : Dict.t HospitalData.t) :
  load_hospital_price_data rows = Ok hd ->
  (forall r, In r rows -> Dict.get (Row.provnum r) hd <> None)
  /\ forall p h,
      Dict.get p hd = Some h ->
      breakdown_is_last_row p rows h /\ totals_add_every_row p rows h.
Proof.
  intros Hload. destruct (load_inv _ _ Hload) as (fs & Hfs & _ & Hinv).
  pose proof (rows_read _ _ Hfs) as Hread.
  split.
  - intros r Hr Hnone.
    destruct (Forall2_In_l _ _ _ _ Hread Hr) as (f & Hf & Hrf).
    destruct Hrf as (Hp & _). rewrite <- Hp in Hnone.
    apply (Hinv (Fields.provnum f)) in Hnone.
    assert (Hin : In f (of_facility (Fields.provnum f) fs)).
    { apply filter_In. split; auto. apply String.eqb_refl. }
    rewrite Hnone in Hin. contradiction.
  - intros p h Hp. destruct (Hinv p) as [[Hv Hc Hk Hpd Hl _] _].
    unfold entry, Dict.get_default in *. rewrite Hp in *. split.
    + intros c. specialize (Hl c).
      pose proof (Forall2_find row_reads
                    (fun r => String.eqb (Row.provnum r) p
                              && String.eqb (Row.category r) c)
                    (same_procedure p c) (rev rows) (rev fs)) as Hfind.
      unfold last_row in Hl. unfold last_of.
      destruct (find _ (rev rows)) as [r|];
        destruct (find (same_procedure p c) (rev fs)) as [f|];
        try (exfalso; apply Hfind;
             [intros a b (E1 & E2 & _); unfold same_procedure, same_facility;
              now rewrite E1, E2
             | now apply Forall2_rev]).
      * destruct Hl as (st & Hst & Hget). exists f, st.
        split; [|split; [assumption | now apply procedure_stat_spec]].
        apply Hfind; [|now apply Forall2_rev].
        intros a b (E1 & E2 & _). unfold same_procedure, same_facility.
        now rewrite E1, E2.
      * exact Hl.
    + exists (of_facility p fs). split; [|auto].
      apply Forall2_filter; [|assumption].
      intros a b (E1 & _). unfold same_facility. now rewrite E1.
Qed.

(** C2, as the code has it: every stored ProcedureStat comes from the last
    row of its facility and code ([stat_matches_row]); each of its averages
    is round(total / volume, 2) of that row's unrounded total when
    volume > 0 and is 0 when volume <= 0, where no division takes place and
    nothing is raised; an average is not negative whenever the row's total
    is not negative ([average_of]). The stored totals are the row's totals
    rounded to two places. *)
Theorem averages_are_rounded_quotients
    (rows : list Row.t) (hd : Dict.t HospitalData.t) :
  load_hospital_price_data rows = Ok hd ->
  (forall p h c st,
      Dict.get p hd = Some h ->
      Dict.get c (HospitalData.procedures h) = Some st ->
      exists fs f,
        mapM parse_row rows = Ok fs /\ last_row p c fs = Some f
        /\ stat_matches_row st f)
  /\ (forall f,
        Fields.volume f <= 0 ->
        exists st,
          procedure_stat f = Ok st
          /\ ProcedureStat.avg_charge st = Py.NInt 0
          /\ ProcedureStat.avg_cost st = Py.NInt 0
          /\ ProcedureStat.avg_paid st = Py.NInt 0).
Proof.
  intros Hload. split.
  - intros p h c st Hp Hc.
    destruct (stored_procedure _ _ _ _ _ _ Hload Hp Hc)
      as (fs & f & Hfs & Hlast & Hst).
    exists fs, f. split; [assumption|]. split; [assumption|].
    now apply procedure_stat_spec.
  - apply procedure_stat_no_volume.
Qed.

(** The field is there and Python's conversion rejects it. *)
Definition not_numeric (r : Row.t) : Prop :=
  (Str.truthy (Row.volume r) = true /\ int_of_str (Row.volume r) = None)
  \/ (Str.truthy (Row.TotalCharges r) = true
      /\ float_of_str (Row.TotalCharges r) = None)
  \/ (Str.truthy (Row.TotalCost r) = true
      /\ float_of_str (Row.TotalCost r) = None)
  \/ (Str.truthy (Row.TotalPaid r) = true
      /\ float_of_str (Row.TotalPaid r) = None).

Lemma parse_row_raises r : not_numeric r -> exists e, parse_row r = Raise e.
Proof.
  unfold not_numeric, parse_row, int_or_zero, float_or_zero.
  intros [[-> ->]|[[-> ->]|[[-> ->]|[-> ->]]]]; simpl;
    repeat match goal with
      | |- context [if ?b then _ else _] => destruct b; simpl
      | |- context [match ?o with Some _ => _ | None => _ end] =>
          destruct o; simpl
      end; eauto.
Qed.

(** C6: a pricing row whose volume is non-blank and not an integer, or
    whose TotalCharges, TotalCost or TotalPaid is non-blank and not a
    number, makes the whole run fail: the extractor raises and returns no
    data, wherever the row stands in the file. *)
Theorem malformed_row_stops_the_run (rows : list Row.t) (r : Row.t) :
  In r rows -> not_numeric r ->
  exists e, load_hospital_price_data rows = Raise e.
Proof.
  intros Hin Hbad. unfold load_hospital_price_data.
  apply foldM_raises with (a := r); auto.
  intros hd. unfold row_step.
  destruct (parse_row_raises r Hbad) as [e ->]. now exists e.
Qed.

End ExtractorClaims.

(** C1 on [Sample.duplicated]. *)
Lemma duplicate_rows_witness :
  (forall r, In r Sample.duplicated ->
             Dict.get (Row.provnum r) Sample.duplicated_data <> None)
  /\ forall p h,
      Dict.get p Sample.duplicated_data = Some h ->
      breakdown_is_last_row (B := DecimalLiterals.builtins)
        p Sample.duplicated h
      /\ totals_add_every_row (B := DecimalLiterals.builtins)
           p Sample.duplicated h.
Proof.
  apply (duplicate_rows_last_wins_totals_add (B := DecimalLiterals.builtins)
           Sample.duplicated Sample.duplicated_data).
  vm_compute. reflexivity.
Defined.

(** What the extractor holds after [Sample.duplicated]: the breakdown of
    99213 is the second row, the totals are those of both rows. *)
Example duplicated_entry :
  Dict.get "001" Sample.duplicated_data
  = Some {|
      HospitalData.procedures :=
        [("99213",
          {| ProcedureStat.volume := 5;
             ProcedureStat.total_charges := Py.NFloat 200;
             ProcedureStat.total_cost := Py.NFloat 100;
             ProcedureStat.total_paid := Py.NFloat 150;
             ProcedureStat.avg_charge := Py.NFloat 40;
             ProcedureStat.avg_cost := Py.NFloat 20;
             ProcedureStat.avg_paid := Py.NFloat 30 |})];
      HospitalData.total_volume := 15;
      HospitalData.total_charges := Py.NFloat 1200;
      HospitalData.total_cost := Py.NFloat 700;
      HospitalData.total_paid := Py.NFloat 850 |}.
Proof. vm_compute. reflexivity. Qed.

(** C2 on the second procedure of [Sample.distinct]. *)
Lemma averages_witness :
  exists fs f,
    mapM (parse_row (B := DecimalLiterals.builtins)) Sample.distinct = Ok fs
    /\ last_row "001" "99214" fs = Some f
    /\ stat_matches_row
         {| ProcedureStat.volume := 3;
            ProcedureStat.total_charges := Py.NFloat 1;
            ProcedureStat.total_cost := Py.NFloat 1;
            ProcedureStat.total_paid := Py.NFloat 1;
            ProcedureStat.avg_charge := Py.NFloat 0x1.51eb851eb851fp-2;
            ProcedureStat.avg_cost := Py.NFloat 0x1.51eb851eb851fp-2;
            ProcedureStat.avg_paid := Py.NFloat 0x1.51eb851eb851fp-2 |} f.
Proof.
  apply (proj1 (averages_are_rounded_quotients (B := DecimalLiterals.builtins)
                  Sample.distinct Sample.distinct_data
                  ltac:(vm_compute; reflexivity))
           "001" (entry "001" Sample.distinct_data) "99214");
    vm_compute; reflexivity.
Defined.

(** C2 as stated fails twice on [Sample.negative]: the amount -100 over a
    volume of 2 is stored with the average -50.0, which is negative; and the
    total 1.0 over a volume of 3 is stored with the average 0.33
    ([0x1.51eb851eb851fp-2]), which is not the stored total divided by the
    volume, 0.3333333333333333 ([0x1.5555555555555p-2]). *)
Lemma average_negative_and_rounded :
  exists h,
    load_hospital_price_data (B := DecimalLiterals.builtins) Sample.negative
    = Ok Sample.negative_data
    /\ Dict.get "001" Sample.negative_data = Some h
    /\ Dict.get "99213" (HospitalData.procedures h)
       = Some {| ProcedureStat.volume := 2;
                 ProcedureStat.total_charges := Py.NFloat (-100);
                 ProcedureStat.total_cost := Py.NFloat 0;
                 ProcedureStat.total_paid := Py.NFloat 0;
                 ProcedureStat.avg_charge := Py.NFloat (-50);
                 ProcedureStat.avg_cost := Py.NFloat 0;
                 ProcedureStat.avg_paid := Py.NFloat 0 |}
    /\ Py.negative (Py.NFloat (-50)) = true
    /\ Dict.get "99214" (HospitalData.procedures h)
       = Some {| ProcedureStat.volume := 3;
                 ProcedureStat.total_charges := Py.NFloat 1;
                 ProcedureStat.total_cost := Py.NFloat 1;
                 ProcedureStat.total_paid := Py.NFloat 1;
                 ProcedureStat.avg_charge := Py.NFloat 0x1.51eb851eb851fp-2;
                 ProcedureStat.avg_cost := Py.NFloat 0x1.51eb851eb851fp-2;
                 ProcedureStat.avg_paid := Py.NFloat 0x1.51eb851eb851fp-2 |}
    /\ Py.truediv (Py.NFloat 1) 3 = Ok 0x1.5555555555555p-2%float
    /\ PrimFloat.eqb 0x1.51eb851eb851fp-2 0x1.5555555555555p-2 = false.
Proof.
  exists (entry "001" Sample.negative_data).
  repeat split; vm_compute; reflexivity.
Qed.

(** C6 on [Sample.malformed]: the volume "ten". *)
Lemma malformed_row_witness :
  exists e,
    load_hospital_price_data (B := DecimalLiterals.builtins) Sample.malformed = Raise e.
Proof.
  apply (malformed_row_stops_the_run (B := DecimalLiterals.builtins) Sample.malformed
           (Sample.row "001" "99214" "ten" "1" "1" "1")).
  - simpl. auto.
  - left. split; reflexivity.
Defined.

(** ** The merge *)

Definition is_ok {A : Type} (m : result A) : bool :=
  match m with
  | Ok _ => true
  | Raise _ => false
  end.

Lemma get_snoc {V : Type} (d : Dict.t V) (k k' : string) (v : V) :
  ~ In k (Dict.keys d) ->
  Dict.get k' (d ++ [(k, v)]) = if String.eqb k k' then Some v else Dict.get k' d.
Proof.
  intros Hnew. induction d as [|[k0 v0] d IH]; simpl.
  - reflexivity.
  - simpl in Hnew. destruct (String.eqb k0 k') eqn:E0.
    + apply String.eqb_eq in E0. subst k0.
      destruct (String.eqb k k') eqn:E; auto.
      apply String.eqb_eq in E. subst k. exfalso. apply Hnew. now left.
    + apply IH. tauto.
Qed.

Lemma wf_snoc {V : Type} (d : Dict.t V) (k : string) (v : V) :
  Dict.wf (d ++ [(k, v)]) -> Dict.wf d /\ ~ In k (Dict.keys d).
Proof.
  unfold Dict.wf, Dict.keys. rewrite map_app. simpl. intros H. split.
  - now apply NoDup_app_remove_r in H.
  - apply NoDup_remove_2 in H. now rewrite app_nil_r in H.
Qed.

Section MergeFacts.
Context {B : Builtins}.

Lemma hospital_record_Ok fd p data u :
  hospital_record fd p data = Ok u ->
  exists s,
    summarize data = Ok s
    /\ u = {| Hospital.name :=
                info_get (Dict.get p fd) FacilityInfo.name ("Hospital " ++ p)%string;
              Hospital.provnum := p;
              Hospital.city := info_get (Dict.get p fd) FacilityInfo.city "";
              Hospital.state := info_get (Dict.get p fd) FacilityInfo.state "";
              Hospital.zip_code := info_get (Dict.get p fd) FacilityInfo.zip_code "";
              Hospital.beds_total := info_get (Dict.get p fd) FacilityInfo.beds_total 0;
              Hospital.hospital_type :=
                info_get (Dict.get p fd) FacilityInfo.hospital_type "";
              Hospital.ownership := info_get (Dict.get p fd) FacilityInfo.ownership "";
              Hospital.procedures := HospitalData.procedures data;
              Hospital.summary := s |}.
Proof.
  unfold hospital_record. intros H. apply bind_Ok in H.
  destruct H as (s & Hs & [= <-]). now exists s.
Qed.

Lemma summarize_total_volume data s :
  summarize data = Ok s ->
  Summary.total_volume s = HospitalData.total_volume data.
Proof.
  unfold summarize. intros H. apply bind_Ok in H.
  destruct H as (a & _ & [= <-]). reflexivity.
Qed.

(** The loop at line 236 keeps every facility: its output has exactly the
    keys of [hospitals_data], each with the record built for it. *)
Lemma format_hospitals_spec fd hd :
  forall hs,
    Dict.wf hd ->
    format_hospitals fd hd = Ok hs ->
    forall p,
      match Dict.get p hd with
      | Some data => exists u, hospital_record fd p data = Ok u
                               /\ Dict.get p hs = Some u
      | None => Dict.get p hs = None
      end.
Proof.
  unfold format_hospitals, Dict.items.
  induction hd as [|[k data] hd IH] using rev_ind; intros hs Hwf Hfmt p.
  - injection Hfmt as <-. reflexivity.
  - apply wf_snoc in Hwf. destruct Hwf as [Hwf Hnew].
    rewrite foldM_snoc in Hfmt. apply bind_Ok in Hfmt.
    destruct Hfmt as (hs0 & Hfmt0 & Hstep). simpl in Hstep.
    apply bind_Ok in Hstep. destruct Hstep as (u & Hu & [= <-]).
    specialize (IH hs0 Hwf Hfmt0 p). rewrite get_snoc by assumption.
    destruct (String.eqb k p) eqn:E.
    + apply String.eqb_eq in E. subst p. exists u. split; auto.
      apply DictFacts.get_set_same.
    + apply String.eqb_neq in E. rewrite DictFacts.get_set_other by auto.
      exact IH.
Qed.

(** It raises only where a summary does. *)
Lemma format_hospitals_returns fd hd :
  forallb (fun kv => is_ok (summarize (snd kv))) hd = true ->
  exists hs, format_hospitals fd hd = Ok hs.
Proof.
  unfold format_hospitals, Dict.items. generalize (@Dict.empty Hospital.t).
  induction hd as [|[k data] hd IH]; intros acc Hall; simpl.
  - now exists acc.
  - simpl in Hall. apply andb_true_iff in Hall. destruct Hall as [Hs Hall].
    unfold hospital_record. destruct (summarize data) as [s|e]; [|discriminate].
    simpl. now apply IH.
Qed.

Lemma process_Ok pricing fdf pdf cdf out :
  process_and_export_data pricing fdf pdf cdf = Ok out ->
  exists hd,
    load_hospital_price_data pricing = Ok hd
    /\ format_hospitals (load_facility_data fdf) hd = Ok (Output.hospitals out)
    /\ Output.procedure_codes out = all_procedure_codes hd
    /\ Output.procedure_names out = load_procedure_names pdf.
Proof.
  unfold process_and_export_data. intros H. apply bind_Ok in H.
  destruct H as (hd & Hhd & H). exists hd. split; [assumption|].
  destruct (load_service_categories cdf) as [[scm sm] sc].
  apply bind_Ok in H. destruct H as (hs & Hhs & [= <-]). simpl. auto.
Qed.

Lemma process_returns pricing fdf pdf cdf hd :
  load_hospital_price_data pricing = Ok hd ->
  forallb (fun kv => is_ok (summarize (snd kv))) hd = true ->
  exists out, process_and_export_data pricing fdf pdf cdf = Ok out.
Proof.
  intros Hhd Hall. unfold process_and_export_data. rewrite Hhd. simpl.
  destruct (load_service_categories cdf) as [[scm sm] sc].
  destruct (format_hospitals_returns (load_facility_data fdf) hd Hall)
    as [hs ->].
  simpl. eauto.
Qed.

Lemma load_wf rows hd : load_hospital_price_data rows = Ok hd -> Dict.wf hd.
Proof.
  intros H. destruct (load_inv _ _ H) as (fs & _ & Hwf & _). exact Hwf.
Qed.

End MergeFacts.

Module SampleSheets.

Definition facility (provnum name : option Cell.t)
    (type_code control : option Cell.t) (beds : option Cell.t)
  : FacilityRow.t :=
  {| FacilityRow.provnum := provnum;
     FacilityRow.facility_name := name;
     FacilityRow.category_subtype_of_provider := type_code;
     FacilityRow.type_of_control := control;
     FacilityRow.city := Some (Cell.Str " Springfield ");
     FacilityRow.state_code := Some (Cell.Str "IL");
     FacilityRow.zip_code := Some (Cell.Str "62701");
     FacilityRow.beds_total := beds |}.

(** Facility 001 is described; 002 has a row, but its name cell is empty;
    the last row has no provider number. *)
Definition facilities : list FacilityRow.t :=
  [ facility (Some (Cell.Str "001")) (Some (Cell.Str "General Hospital"))
      (Some (Cell.Float 1)) (Some (Cell.Str "01")) (Some (Cell.Float 120));
    facility (Some (Cell.Str "002")) (Some (Cell.Float nan))
      (Some (Cell.Int 2)) (Some (Cell.Str "2A")) (Some (Cell.Int 40));
    facility (Some (Cell.Str "  ")) (Some (Cell.Str "Nameless"))
      None None None ].

(** The bed count of the second row is no number. *)
Definition broken_facilities : list FacilityRow.t :=
  [ facility (Some (Cell.Str "001")) (Some (Cell.Str "General Hospital"))
      (Some (Cell.Float 1)) (Some (Cell.Str "01")) (Some (Cell.Float 120));
    facility (Some (Cell.Str "003")) (Some (Cell.Str "Mercy"))
      (Some (Cell.Int 2)) (Some (Cell.Str "2A")) (Some (Cell.Str "unknown")) ].

Definition procedures : list ProcedureRow.t :=
  [ {| ProcedureRow.HCPCS_Code := Some (Cell.Str "99213");
       ProcedureRow.Short_Descriptor := Some (Cell.Str "Office visit") |};
    {| ProcedureRow.HCPCS_Code := Some (Cell.Str "99214");
       ProcedureRow.Short_Descriptor := Some (Cell.Float nan) |} ].

Definition run (pricing : list Row.t) : result Output.t :=
  process_and_export_data (B := DecimalLiterals.builtins)
    pricing (Some facilities) (Some procedures) None.

Definition no_output : Output.t :=
  {| Output.hospitals := Dict.empty;
     Output.procedure_codes := [];
     Output.procedure_names := Dict.empty;
     Output.service_categories := [];
     Output.service_category_map := Dict.empty;
     Output.shoppable_map := Dict.empty |}.

(** The unified artifact for [Sample.distinct]. *)
Definition merged : Output.t :=
  Eval vm_compute in
    match run Sample.distinct with
    | Ok out => out
    | Raise _ => no_output
    end.

End SampleSheets.

Section MergeClaims.
Context {B : Builtins}.

(** The metadata of a facility the facility map has no entry for. *)
Definition default_metadata (p : string) (u : Hospital.t) : Prop :=
  Hospital.name u = ("Hospital " ++ p)%string
  /\ Hospital.provnum u = p
  /\ Hospital.city u = ""
  /\ Hospital.state u = ""
  /\ Hospital.zip_code u = ""
  /\ Hospital.beds_total u = 0
  /\ Hospital.hospital_type u = ""
  /\ Hospital.ownership u = "".

Lemma hospital_record_default fd p data u :
  Dict.get p fd = None -> hospital_record fd p data = Ok u ->
  default_metadata p u /\ Hospital.procedures u = HospitalData.procedures data.
Proof.
  intros Hnone Hu. apply hospital_record_Ok in Hu.
  destruct Hu as (s & _ & ->). rewrite Hnone. simpl.
  unfold default_metadata. simpl. auto 10.
Qed.

(** C4, as the code has it: when the summary of every facility of the
    extractor's output [hd] can be computed (line 255 divides the
    accumulated charges by the accumulated volume, which raises when the
    charges are a float and the volume is past the largest double), the
    merge returns, its hospitals hold an entry for every facility of [hd],
    and the entry of a facility that the facility map lacks has the name
    "Hospital {provnum}", empty city, state and zip, beds_total 0 and empty
    hospital_type and ownership, with its procedures attached. *)
Theorem missing_metadata_gets_defaults
    (pricing : list Row.t) (fdf : option (list FacilityRow.t))
    (pdf : option (list ProcedureRow.t)) (cdf : option (list CategoryRow.t))
    (hd : Dict.t HospitalData.t) (p : string) (data : HospitalData.t) :
  load_hospital_price_data pricing = Ok hd ->
  forallb (fun kv => is_ok (summarize (snd kv))) hd = true ->
  Dict.get p hd = Some data ->
  Dict.get p (load_facility_data fdf) = None ->
  exists out u,
    process_and_export_data pricing fdf pdf cdf = Ok out
    /\ (forall q, Dict.get q hd <> None ->
                  Dict.get q (Output.hospitals out) <> None)
    /\ Dict.get p (Output.hospitals out) = Some u
    /\ default_metadata p u
    /\ Hospital.procedures u = HospitalData.procedures data.
Proof.
  intros Hhd Hall Hp Hnone.
  destruct (process_returns pricing fdf pdf cdf hd Hhd Hall) as [out Hout].
  destruct (process_Ok _ _ _ _ _ Hout) as (hd' & Hhd' & Hfmt & _).
  assert (hd' = hd) by congruence. subst hd'.
  pose proof (format_hospitals_spec _ _ _ (load_wf _ _ Hhd) Hfmt) as Hspec.
  pose proof (Hspec p) as Hpp. rewrite Hp in Hpp.
  destruct Hpp as (u & Hu & Hget).
  exists out, u. split; [assumption|]. split.
  - intros q Hq. specialize (Hspec q).
    destruct (Dict.get q hd); [|congruence].
    destruct Hspec as (u' & _ & ->). discriminate.
  - split; [assumption|]. eapply hospital_record_default; eauto.
Qed.

Lemma mapM_parse_pairs rows :
  forall fs, mapM parse_row rows = Ok fs -> map pair_of fs = map row_pair rows.
Proof.
  induction rows as [|r rows IH]; intros fs H; simpl in H.
  - now injection H as <-.
  - apply bind_Ok in H. destruct H as (f & Hf & H).
    apply bind_Ok in H. destruct H as (fs' & Hfs' & [= <-]).
    simpl. rewrite (IH _ Hfs'). f_equal.
    unfold pair_of, row_pair. destruct (parse_row_keys _ _ Hf) as [-> ->].
    reflexivity.
Qed.

(** In the extractor's output already, without repeated pairs. *)
Lemma extractor_volume_sum rows hd p h :
  load_hospital_price_data rows = Ok hd ->
  NoDup (map row_pair rows) ->
  Dict.get p hd = Some h ->
  HospitalData.total_volume h
  = sum_Z (map ProcedureStat.volume (Dict.values (HospitalData.procedures h))).
Proof.
  intros Hload Hnd Hp.
  destruct (load_inv _ _ Hload) as (fs & Hfs & _ & Hinv).
  destruct (Hinv p) as [[Hv _ _ _ _ Hn] _].
  unfold entry, Dict.get_default in *. rewrite Hp in *.
  rewrite <- (mapM_parse_pairs _ _ Hfs) in Hnd. specialize (Hn Hnd).
  rewrite Hv. f_equal.
  assert (E : map snd (map code_volume (HospitalData.procedures h))
              = map snd (map (fun f => (Fields.category f, Fields.volume f))
                             (of_facility p fs))) by now rewrite Hn.
  rewrite !map_map in E. simpl in E. unfold Dict.values.
  rewrite map_map. symmetry. exact E.
Qed.

(** C5: when no (facility_id, procedure_code) pair occurs twice in the
    extract, the summary's total_volume of every facility of the unified
    output is the sum of the volumes of its procedures. *)
Theorem total_volume_sums_procedures
    (pricing : list Row.t) (fdf : option (list FacilityRow.t))
    (pdf : option (list ProcedureRow.t)) (cdf : option (list CategoryRow.t))
    (out : Output.t) :
  process_and_export_data pricing fdf pdf cdf = Ok out ->
  NoDup (map row_pair pricing) ->
  forall p u,
    Dict.get p (Output.hospitals out) = Some u ->
    Summary.total_volume (Hospital.summary u)
    = sum_Z (map ProcedureStat.volume (Dict.values (Hospital.procedures u))).
Proof.
  intros Hout Hnd p u Hu.
  destruct (process_Ok _ _ _ _ _ Hout) as (hd & Hhd & Hfmt & _).
  pose proof (format_hospitals_spec _ _ _ (load_wf _ _ Hhd) Hfmt p) as Hspec.
  destruct (Dict.get p hd) as [data|] eqn:Hp; [|congruence].
  destruct Hspec as (u' & Hrec & Hget).
  assert (u' = u) by congruence. subst u'.
  apply hospital_record_Ok in Hrec. destruct Hrec as (s & Hs & ->). simpl.
  rewrite (summarize_total_volume _ _ Hs).
  eapply extractor_volume_sum; eauto.
Qed.

End MergeClaims.

Ltac run_model := vm_compute; reflexivity.

Ltac distinct_entries :=
  repeat (constructor; [simpl; intuition discriminate|]); constructor.

(** C4 on facility 002 of [Sample.distinct], whose row in the facility
    sheet has no name. *)
Lemma missing_metadata_witness :
  exists out u,
    process_and_export_data (B := DecimalLiterals.builtins) Sample.distinct
      (Some SampleSheets.facilities) (Some SampleSheets.procedures) None
    = Ok out
    /\ (forall q, Dict.get q Sample.distinct_data <> None ->
                  Dict.get q (Output.hospitals out) <> None)
    /\ Dict.get "002" (Output.hospitals out) = Some u
    /\ default_metadata "002" u
    /\ Hospital.procedures u
       = HospitalData.procedures (entry "002" Sample.distinct_data).
Proof.
  apply (missing_metadata_gets_defaults (B := DecimalLiterals.builtins)
           Sample.distinct (Some SampleSheets.facilities)
           (Some SampleSheets.procedures) None
           Sample.distinct_data "002" (entry "002" Sample.distinct_data));
    run_model.
Defined.

Module SampleHuge.

(** A volume of 401 digits, an integer past the largest double. *)
Definition volume_of_401_digits : string :=
  String "1" (string_of_list_ascii (repeat "0"%char 400)).

(** Facility 009, which [SampleSheets.facilities] does not name: a first
    row with that volume and blank amounts, then a row with amounts. *)
Definition rows : list Row.t :=
  [ Sample.row "009" "99213" volume_of_401_digits "" "" "";
    Sample.row "009" "99214" "1" "1" "1" "1" ].

End SampleHuge.

(** C4 as stated fails on [SampleHuge.rows]: the extractor returns, with
    an entry for facility 009 alone; the facility map has no entry for
    009; and the merge raises the OverflowError of line 255, where the
    accumulated charges 1.0 are divided by a volume that no double holds,
    so no record is emitted for the facility, nor anything else. *)
Lemma unsummarised_facility_has_no_record :
  is_ok (load_hospital_price_data (B := DecimalLiterals.builtins)
           SampleHuge.rows) = true
  /\ Dict.keys (Sample.load SampleHuge.rows) = ["009"]
  /\ Dict.get "009"
       (load_facility_data (B := DecimalLiterals.builtins)
          (Some SampleSheets.facilities)) = None
  /\ process_and_export_data (B := DecimalLiterals.builtins) SampleHuge.rows
       (Some SampleSheets.facilities) (Some SampleSheets.procedures) None
     = Raise OverflowError.
Proof. repeat split; vm_compute; reflexivity. Qed.

(** C5 on both facilities of [Sample.distinct]. *)
Lemma total_volume_witness :
  Forall
    (fun u =>
       Summary.total_volume (Hospital.summary u)
       = sum_Z (map ProcedureStat.volume (Dict.values (Hospital.procedures u))))
    (Dict.values (Output.hospitals SampleSheets.merged)).
Proof.
  assert (Hrun : process_and_export_data (B := DecimalLiterals.builtins)
                   Sample.distinct (Some SampleSheets.facilities)
                   (Some SampleSheets.procedures) None
                 = Ok SampleSheets.merged) by run_model.
  assert (Hnd : NoDup (map row_pair Sample.distinct)) by distinct_entries.
  constructor; [|constructor; [|constructor]].
  - apply (total_volume_sums_procedures (B := DecimalLiterals.builtins)
             _ _ _ _ _ Hrun Hnd "001"). run_model.
  - apply (total_volume_sums_procedures (B := DecimalLiterals.builtins)
             _ _ _ _ _ Hrun Hnd "002"). run_model.
Defined.

Example merged_volumes :
  map (fun u => Summary.total_volume (Hospital.summary u))
      (Dict.values (Output.hospitals SampleSheets.merged))
  = [13; 7].
Proof. reflexivity. Qed.

(** ** The reference loaders *)

(** The codes of [hospital_type_map], each as an [int] and as a [float]. *)
Definition hospital_type_codes : list (Z * float) :=
  [ (1, 1%float); (2, 2%float); (4, 4%float); (5, 5%float); (6, 6%float);
    (7, 7%float); (11, 11%float) ].

Section LoaderClaims.
Context {B : Builtins}.

Lemma hospital_type_get_unknown (c : Cell.t) :
  (forall k v, In (k, v) hospital_type_map -> Cell.eq_num k c = false) ->
  hospital_type_get c = "".
Proof.
  unfold hospital_type_get. generalize hospital_type_map.
  intros l. induction l as [|[k v] l IH] using rev_ind; intros H; simpl; auto.
  rewrite fold_left_app. simpl.
  rewrite (H k v) by (apply in_or_app; right; now left).
  apply IH. intros k' v' Hin. apply (H k' v'). apply in_or_app. now left.
Qed.

(** C8, as the code has it: both lookups always return a label. For
    hospital types every code of the table gives the same non-empty label
    as an integer and as a float; a code no key equals, a code held as
    text, an empty cell and a missing column give the empty label. For
    ownership the label depends on the trimmed text of the code alone: it is
    the table's entry for that text, and the empty label when the table has
    none. *)
Theorem code_labels_total_by_table :
  Forall
    (fun zf =>
       Py.float_of_int (fst zf) = Ok (snd zf)
       /\ hospital_type_label (Some (Cell.Int (fst zf)))
          = hospital_type_label (Some (Cell.Float (snd zf)))
       /\ Str.truthy (hospital_type_label (Some (Cell.Int (fst zf)))) = true)
    hospital_type_codes
  /\ (forall c,
        (forall k v, In (k, v) hospital_type_map -> Cell.eq_num k c = false) ->
        hospital_type_label (Some c) = "")
  /\ (forall s, hospital_type_label (Some (Cell.Str s)) = "")
  /\ hospital_type_label (Some (Cell.Float nan)) = ""
  /\ hospital_type_label None = ""
  /\ (forall c,
        Cell.notna (Some c) = true ->
        ownership_label (Some c)
        = Dict.get_default (Str.strip (Cell.to_str c)) "" ownership_map)
  /\ (forall c,
        Dict.get (Str.strip (Cell.to_str c)) ownership_map = None ->
        ownership_label (Some c) = "")
  /\ (forall c c',
        Cell.notna (Some c) = true -> Cell.notna (Some c') = true ->
        Str.strip (Cell.to_str c) = Str.strip (Cell.to_str c') ->
        ownership_label (Some c) = ownership_label (Some c'))
  /\ ownership_label (Some (Cell.Float nan)) = ""
  /\ ownership_label None = "".
Proof.
  split.
  { unfold hospital_type_codes.
    repeat (apply Forall_cons; [repeat split; vm_compute; reflexivity|]).
    apply Forall_nil. }
  split.
  { intros c H. unfold hospital_type_label.
    destruct (Cell.notna (Some c)); auto using hospital_type_get_unknown. }
  split.
  { intros s. apply hospital_type_get_unknown. intros k v _.
    now destruct k. }
  split; [vm_compute; reflexivity|].
  split; [reflexivity|].
  split.
  { intros c Hc. unfold ownership_label. now rewrite Hc. }
  split.
  { intros c Hc. unfold ownership_label, Dict.get_default. rewrite Hc.
    now destruct (Cell.notna (Some c)). }
  split.
  { intros c c' Hc Hc' E. unfold ownership_label. now rewrite Hc, Hc', E. }
  split; [|reflexivity].
  unfold ownership_label.
  replace (Cell.notna (Some (Cell.Float nan))) with false
    by (vm_compute; reflexivity).
  reflexivity.
Qed.

End LoaderClaims.

Section NamesAndFacilities.
Context {B : Builtins}.

Lemma procedure_row_kept_true code description :
  procedure_row_kept code description = true ->
  code <> "" /\ description <> "" /\ code <> "nan" /\ description <> "nan".
Proof.
  unfold procedure_row_kept. rewrite !andb_true_iff, !negb_true_iff.
  intros [[[Hc Hd] Hcn] Hdn]. apply String.eqb_neq in Hcn, Hdn.
  repeat split; auto; intros ->; discriminate.
Qed.

(** Where an entry of the procedure-name map comes from. *)
Lemma procedure_names_entry rows :
  forall acc code d,
    Dict.get code (fold_left procedure_step rows acc) = Some d ->
    Dict.get code acc = Some d
    \/ exists row,
        In row rows
        /\ Cell.text (ProcedureRow.HCPCS_Code row) = code
        /\ Cell.text (ProcedureRow.Short_Descriptor row) = d
        /\ procedure_row_kept code d = true.
Proof.
  induction rows as [|r rows IH]; intros acc code d H; simpl in *; auto.
  apply IH in H. destruct H as [H | (row & Hin & H)];
    [|right; exists row; tauto].
  unfold procedure_step in H.
  destruct (procedure_row_kept _ _) eqn:Hk; auto.
  destruct (String.eqb (Cell.text (ProcedureRow.HCPCS_Code r)) code) eqn:E.
  - apply String.eqb_eq in E. subst code.
    rewrite DictFacts.get_set_same in H. injection H as <-.
    right. exists r. auto.
  - apply String.eqb_neq in E. rewrite DictFacts.get_set_other in H; auto.
Qed.

Lemma procedure_names_absent rows :
  forall acc code,
    (forall row,
        In row rows ->
        Cell.text (ProcedureRow.HCPCS_Code row) = code ->
        procedure_row_kept code
          (Cell.text (ProcedureRow.Short_Descriptor row)) = false) ->
    Dict.get code (fold_left procedure_step rows acc) = Dict.get code acc.
Proof.
  induction rows as [|r rows IH]; intros acc code H; simpl; auto.
  rewrite IH by (intros; apply H; simpl; auto).
  unfold procedure_step.
  destruct (procedure_row_kept _ _) eqn:Hk; auto.
  destruct (String.eqb (Cell.text (ProcedureRow.HCPCS_Code r)) code) eqn:E.
  - apply String.eqb_eq in E.
    specialize (H r (or_introl eq_refl) E). rewrite E in Hk. congruence.
  - apply String.eqb_neq in E. now apply DictFacts.get_set_other.
Qed.

(** C9, as the code has it: procedure_names is the map the procedure-name
    loader returned, whatever the procedure_codes are. A code has an entry
    only when the sheet has a row with that code, trimmed, and a
    description that is neither empty nor "nan", and the entry is that
    description; a code with no such row, as every code when the sheet
    could not be read, has no entry at all. No entry is the empty string. *)
Theorem procedure_names_only_described_codes
    (pricing : list Row.t) (fdf : option (list FacilityRow.t))
    (pdf : option (list ProcedureRow.t)) (cdf : option (list CategoryRow.t))
    (out : Output.t) :
  process_and_export_data pricing fdf pdf cdf = Ok out ->
  Output.procedure_names out = load_procedure_names pdf
  /\ forall code,
      (forall d,
          Dict.get code (Output.procedure_names out) = Some d ->
          d <> "" /\ d <> "nan"
          /\ exists rows row,
              pdf = Some rows /\ In row rows
              /\ Cell.text (ProcedureRow.HCPCS_Code row) = code
              /\ Cell.text (ProcedureRow.Short_Descriptor row) = d)
      /\ ((forall rows row,
              pdf = Some rows -> In row rows ->
              Cell.text (ProcedureRow.HCPCS_Code row) = code ->
              procedure_row_kept code
                (Cell.text (ProcedureRow.Short_Descriptor row)) = false) ->
          Dict.get code (Output.procedure_names out) = None).
Proof.
  intros Hout. destruct (process_Ok _ _ _ _ _ Hout) as (hd & _ & _ & _ & ->).
  split; [reflexivity|]. intros code. split.
  - intros d Hd. destruct pdf as [rows|]; simpl in Hd; [|discriminate].
    apply procedure_names_entry in Hd.
    destruct Hd as [Hd | (row & Hin & Hc & Hdesc & Hk)]; [discriminate|].
    apply procedure_row_kept_true in Hk. destruct Hk as (_ & Hne & _ & Hnan).
    repeat split; auto. now exists rows, row.
  - intros H. destruct pdf as [rows|]; simpl; [|reflexivity].
    rewrite procedure_names_absent; [reflexivity|].
    intros row Hin Hc. now apply (H rows row).
Qed.

(** The row fails the test of line 117: the trimmed text of its provnum
    cell is empty, or that of its name cell is empty or "nan". An empty
    name cell is read as nan and has the text "nan"; so has an empty
    provnum cell, which the test lets pass. *)
Definition skipped_row (row : FacilityRow.t) : Prop :=
  Cell.text (FacilityRow.provnum row) = ""
  \/ Cell.text (FacilityRow.facility_name row) = ""
  \/ Cell.text (FacilityRow.facility_name row) = "nan".

Lemma skipped_row_not_kept row :
  skipped_row row ->
  facility_row_kept (Cell.text (FacilityRow.provnum row))
                    (Cell.text (FacilityRow.facility_name row)) = false.
Proof.
  unfold skipped_row, facility_row_kept.
  intros [-> | [-> | ->]]; simpl; auto;
    now destruct (Str.truthy (Cell.text (FacilityRow.provnum row))).
Qed.

Lemma facility_step_dropped facility_map row :
  skipped_row row -> facility_step facility_map row = Ok facility_map.
Proof.
  intros H. unfold facility_step. now rewrite skipped_row_not_kept.
Qed.

(** Rows that are dropped or belong to other facilities leave the entry
    of facility [p] as it was. *)
Lemma facility_rows_dropped rows p :
  (forall row,
      In row rows -> Cell.text (FacilityRow.provnum row) = p ->
      skipped_row row) ->
  forall acc facility_map,
    foldM facility_step rows acc = Ok facility_map ->
    Dict.get p facility_map = Dict.get p acc.
Proof.
  induction rows as [|r rows IH]; intros H acc m Hm; simpl in Hm.
  - now injection Hm as <-.
  - apply bind_Ok in Hm. destruct Hm as (acc' & Hstep & Hm).
    rewrite (IH (fun row Hin => H row (or_intror Hin)) _ _ Hm).
    unfold facility_step in Hstep.
    destruct (facility_row_kept _ _) eqn:Hk; [|now injection Hstep as <-].
    apply bind_Ok in Hstep. destruct Hstep as (b & _ & [= <-]).
    apply DictFacts.get_set_other. intros E.
    rewrite (skipped_row_not_kept r (H r (or_introl eq_refl) E)) in Hk.
    discriminate.
Qed.

Lemma facility_absent fdf p :
  (forall rows row,
      fdf = Some rows -> In row rows ->
      Cell.text (FacilityRow.provnum row) = p -> skipped_row row) ->
  Dict.get p (load_facility_data fdf) = None.
Proof.
  intros H. destruct fdf as [rows|]; simpl; [|reflexivity].
  destruct (foldM facility_step rows Dict.empty) as [m|e] eqn:E;
    [|reflexivity].
  rewrite (facility_rows_dropped rows p (fun row => H rows row eq_refl) _ _ E).
  reflexivity.
Qed.

(** What line 117 drops: a row that fails its test leaves the facility
    map as it was, whatever else the row carries; nothing is ever stored
    under the empty key; a facility all of whose rows fail the test has no
    entry in the facility map, and in the unified output its record has
    the name "Hospital {provnum}" and the empty and zero defaults. *)
Theorem unnamed_facility_rows_are_dropped :
  (forall facility_map row,
      skipped_row row -> facility_step facility_map row = Ok facility_map)
  /\ (forall fdf, Dict.get "" (load_facility_data fdf) = None)
  /\ (forall fdf p,
        (forall rows row,
            fdf = Some rows -> In row rows ->
            Cell.text (FacilityRow.provnum row) = p -> skipped_row row) ->
        Dict.get p (load_facility_data fdf) = None
        /\ forall pricing pdf cdf out u,
            process_and_export_data pricing fdf pdf cdf = Ok out ->
            Dict.get p (Output.hospitals out) = Some u ->
            default_metadata p u).
Proof.
  split; [apply facility_step_dropped|].
  split; [intros fdf; apply facility_absent; intros rows row _ _ E; now left|].
  intros fdf p H. pose proof (facility_absent fdf p H) as Hnone.
  split; [assumption|].
  intros pricing pdf cdf out u Hout Hu.
  destruct (process_Ok _ _ _ _ _ Hout) as (hd & Hhd & Hfmt & _).
  pose proof (format_hospitals_spec _ _ _ (load_wf _ _ Hhd) Hfmt p) as Hspec.
  destruct (Dict.get p hd) as [data|]; [|congruence].
  destruct Hspec as (u' & Hrec & Hget).
  assert (u' = u) by congruence. subst u'.
  now apply (hospital_record_default _ _ _ _ Hnone Hrec).
Qed.

End NamesAndFacilities.

(** C8 as stated fails for both tables: the hospital-type code 1 has its
    label as a number and none as the text "1", and the ownership code
    "01" has its label as text and none as the number 1, whose text is
    "1". *)
Lemma text_and_number_codes_differ :
  hospital_type_label (Some (Cell.Int 1)) = "Short-Term Acute"
  /\ hospital_type_label (Some (Cell.Float 1)) = "Short-Term Acute"
  /\ hospital_type_label (Some (Cell.Str "1")) = ""
  /\ ownership_label (B := DecimalLiterals.builtins) (Some (Cell.Str "01"))
     = "Government, Federal"
  /\ ownership_label (B := DecimalLiterals.builtins) (Some (Cell.Int 1)) = ""
  /\ ownership_label (B := DecimalLiterals.builtins) (Some (Cell.Float 1)) = "".
Proof. repeat split; vm_compute; reflexivity. Qed.

(** C8 on the ownership code 10, as a number and as padded text. *)
Lemma code_labels_witness :
  ownership_label (B := DecimalLiterals.builtins) (Some (Cell.Int 10))
  = ownership_label (B := DecimalLiterals.builtins) (Some (Cell.Str " 10 ")).
Proof.
  apply (proj1 (proj2 (proj2 (proj2 (proj2 (proj2 (proj2 (proj2
           (code_labels_total_by_table (B := DecimalLiterals.builtins)))))))))
           (Cell.Int 10) (Cell.Str " 10 "));
    reflexivity.
Defined.

Example ownership_of_ten :
  ownership_label (B := DecimalLiterals.builtins) (Some (Cell.Int 10))
  = "Proprietary, Partnership".
Proof. vm_compute. reflexivity. Qed.

(** C9 as stated fails on [Sample.distinct]: the code 99214 is among the
    procedure_codes, the sheet gives it no description, and procedure_names
    has no entry for it. *)
Lemma code_without_description_has_no_name :
  process_and_export_data (B := DecimalLiterals.builtins) Sample.distinct
    (Some SampleSheets.facilities) (Some SampleSheets.procedures) None
  = Ok SampleSheets.merged
  /\ In "99214" (Output.procedure_codes SampleSheets.merged)
  /\ Dict.get "99214" (Output.procedure_names SampleSheets.merged) = None.
Proof.
  split; [run_model|]. split; [simpl; auto | reflexivity].
Qed.

(** C9 on the same run. *)
Lemma procedure_names_witness :
  Output.procedure_names SampleSheets.merged
  = load_procedure_names (B := DecimalLiterals.builtins) (Some SampleSheets.procedures)
  /\ forall code,
      (forall d,
          Dict.get code (Output.procedure_names SampleSheets.merged) = Some d ->
          d <> "" /\ d <> "nan"
          /\ exists rows row,
              Some SampleSheets.procedures = Some rows /\ In row rows
              /\ Cell.text (B := DecimalLiterals.builtins)
                   (ProcedureRow.HCPCS_Code row) = code
              /\ Cell.text (B := DecimalLiterals.builtins)
                   (ProcedureRow.Short_Descriptor row) = d)
      /\ ((forall rows row,
              Some SampleSheets.procedures = Some rows -> In row rows ->
              Cell.text (B := DecimalLiterals.builtins)
                (ProcedureRow.HCPCS_Code row) = code ->
              procedure_row_kept code
                (Cell.text (B := DecimalLiterals.builtins)
                   (ProcedureRow.Short_Descriptor row)) = false) ->
          Dict.get code (Output.procedure_names SampleSheets.merged) = None).
Proof.
  apply (procedure_names_only_described_codes (B := DecimalLiterals.builtins)
           Sample.distinct (Some SampleSheets.facilities)
           (Some SampleSheets.procedures) None SampleSheets.merged).
  run_model.
Defined.

Example described_code :
  Dict.get "99213" (Output.procedure_names SampleSheets.merged)
  = Some "Office visit".
Proof. reflexivity. Qed.

(** Facility 002 of [SampleSheets.facilities], whose only row has an empty
    name cell next to a city, a state, a zip and a bed count. *)
Lemma unnamed_facility_witness :
  Dict.get "002"
    (load_facility_data (B := DecimalLiterals.builtins) (Some SampleSheets.facilities))
  = None
  /\ forall pricing pdf cdf out u,
      process_and_export_data (B := DecimalLiterals.builtins) pricing
        (Some SampleSheets.facilities) pdf cdf = Ok out ->
      Dict.get "002" (Output.hospitals out) = Some u ->
      default_metadata "002" u.
Proof.
  apply (proj2 (proj2 (unnamed_facility_rows_are_dropped
                         (B := DecimalLiterals.builtins)))
           (Some SampleSheets.facilities) "002").
  intros rows row [= <-] Hin Hp.
  destruct Hin as [<- | [<- | [<- | []]]].
  - vm_compute in Hp. discriminate.
  - right. right. vm_compute. reflexivity.
  - vm_compute in Hp. discriminate.
Defined.

Example facility_002_in_output :
  option_map Hospital.name (Dict.get "002" (Output.hospitals SampleSheets.merged))
  = Some "Hospital 002".
Proof. reflexivity. Qed.

(** ** The chunk partitioner *)

Section Slices.
Context {A : Type}.
Local Open Scope nat_scope.

Lemma firstn_add (a b : nat) (l : list A) :
  firstn (a + b) l = firstn a l ++ firstn b (skipn a l).
Proof.
  revert l. induction a as [|a IH]; intros l; simpl; auto.
  destruct l as [|x l]; simpl.
  - now rewrite firstn_nil.
  - now rewrite IH.
Qed.

(** Consecutive slices of width [c] rebuild the prefix they cover. *)
Lemma concat_slices (c m : nat) (l : list A) :
  List.concat (map (fun k => firstn c (skipn (k * c) l)) (seq 0 m))
  = firstn (m * c) l.
Proof.
  induction m as [|m IH]; [reflexivity|].
  rewrite seq_S, map_app, concat_app, IH, Nat.mul_succ_l, firstn_add.
  simpl. now rewrite app_nil_r.
Qed.

Lemma slice_length (c i : nat) (l : list A) :
  List.length (firstn c (skipn i l)) = Nat.min c (List.length l - i).
Proof. now rewrite length_firstn, length_skipn. Qed.

End Slices.

Lemma ceil_covers (n c : nat) : (0 < c -> n <= (n + c - 1) / c * c)%nat.
Proof.
  intros Hc.
  pose proof (Nat.div_mod_eq (n + c - 1) c) as E.
  pose proof (Nat.mod_upper_bound (n + c - 1) c) as Hlt.
  nia.
Qed.

Lemma of_list_from {V : Type} (l : list (string * V)) :
  forall acc,
    NoDup (map fst (acc ++ l)) ->
    fold_left (fun d kv => Dict.set (fst kv) (snd kv) d) l acc = acc ++ l.
Proof.
  induction l as [|[k v] l IH]; intros acc Hnd; simpl.
  - now rewrite app_nil_r.
  - assert (Hnew : ~ In k (Dict.keys acc)).
    { unfold Dict.keys. rewrite map_app in Hnd. simpl in Hnd.
      apply NoDup_remove_2 in Hnd. intros Hin. apply Hnd.
      apply in_or_app. now left. }
    rewrite (DictFacts.set_new acc k v Hnew).
    rewrite IH; rewrite <- app_assoc; auto.
Qed.

(** [dict(pairs)] keeps a list whose keys are distinct as it is. *)
Lemma of_list_distinct {V : Type} (l : list (string * V)) :
  NoDup (map fst l) -> Dict.of_list l = l.
Proof. intros H. unfold Dict.of_list. now rewrite of_list_from. Qed.

Lemma slice_distinct {V : Type} (c i : nat) (l : list (string * V)) :
  NoDup (map fst l) -> NoDup (map fst (firstn c (skipn i l))).
Proof.
  intros H. rewrite <- (firstn_skipn i l), map_app in H.
  apply NoDup_app_remove_l in H.
  rewrite <- (firstn_skipn c (skipn i l)), map_app in H.
  now apply NoDup_app_remove_r in H.
Qed.

Lemma sum_Z_lengths {A : Type} (ls : list (list A)) :
  sum_Z (map (fun l => Z.of_nat (List.length l)) ls)
  = Z.of_nat (List.length (List.concat ls)).
Proof.
  rewrite sum_Z_fold_right.
  induction ls as [|l ls IH]; simpl; auto.
  rewrite length_app, IH. lia.
Qed.

(** *** File names *)

(** Reading the digits of [format_03d n] gives [n] back. *)
Definition read_digits (s : string) : option nat :=
  option_map Nat.of_uint (NilEmpty.uint_of_string s).

Lemma read_string_of_uint (d : Decimal.uint) :
  read_digits (NilZero.string_of_uint d) = Some (Nat.of_uint d).
Proof.
  unfold read_digits, NilZero.string_of_uint.
  destruct d; try reflexivity; now rewrite NilEmpty.usu.
Qed.

Lemma read_leading_zero (s : string) :
  read_digits (String "0" s) = read_digits s.
Proof.
  unfold read_digits. simpl.
  destruct (NilEmpty.uint_of_string s); reflexivity.
Qed.

Lemma read_format_03d (n : nat) : read_digits (format_03d n) = Some n.
Proof.
  unfold format_03d.
  pose proof (read_string_of_uint (Nat.to_uint n)) as R.
  rewrite Unsigned.of_to in R.
  destruct (String.length (NilZero.string_of_uint (Nat.to_uint n)))
    as [|[|[|k]]]; auto; simpl; now rewrite !read_leading_zero.
Qed.

Lemma format_03d_inj : Injective format_03d.
Proof.
  intros n m E. apply (f_equal read_digits) in E.
  rewrite !read_format_03d in E. now injection E.
Qed.

Lemma append_length (s t : string) :
  String.length (s ++ t) = (String.length s + String.length t)%nat.
Proof. induction s as [|c s IH]; simpl; auto. Qed.

Lemma append_inj_l (s1 s2 t : string) :
  (s1 ++ t = s2 ++ t)%string -> s1 = s2.
Proof.
  revert s2. induction s1 as [|c s1 IH]; intros [|c' s2] E; simpl in E; auto.
  - apply (f_equal String.length) in E. simpl in E.
    rewrite append_length in E. lia.
  - apply (f_equal String.length) in E. simpl in E.
    rewrite append_length in E. lia.
  - injection E as -> E. f_equal. now apply IH.
Qed.

Arguments chunk_at {V} hospital_items i.
Arguments chunk_files {V} hospitals.
Arguments chunk_info {V} size_mb f.
Arguments index {V} size_mb hospitals.

Section SplitFacts.
Context {V : Type}.
Variable size_mb : Dict.t V -> Py.num.
Implicit Types hospitals : Dict.t V.

Lemma chunk_at_slice hospitals (i : nat) :
  Dict.wf hospitals ->
  chunk_at hospitals i = firstn chunk_size (skipn i hospitals).
Proof.
  intros Hwf. unfold chunk_at. apply of_list_distinct.
  now apply slice_distinct.
Qed.

Lemma chunk_contents hospitals :
  Dict.wf hospitals ->
  map snd (chunk_files hospitals)
  = map (fun k => firstn chunk_size (skipn (k * chunk_size) hospitals))
        (seq 0 ((List.length hospitals + chunk_size - 1) / chunk_size)).
Proof.
  intros Hwf. unfold chunk_files, range_step, Dict.items.
  rewrite !map_map. apply map_ext. intros k. simpl.
  now apply chunk_at_slice.
Qed.

(** The chunks, one after the other, are the hospitals. *)
Lemma chunks_concat hospitals :
  Dict.wf hospitals ->
  List.concat (map snd (chunk_files hospitals)) = hospitals.
Proof.
  intros Hwf. rewrite chunk_contents, concat_slices by assumption.
  apply firstn_all2. apply ceil_covers. unfold chunk_size. lia.
Qed.

Lemma chunk_keys_concat hospitals :
  Dict.wf hospitals ->
  List.concat (map (fun f => Dict.keys (snd f)) (chunk_files hospitals))
  = Dict.keys hospitals.
Proof.
  intros Hwf. unfold Dict.keys.
  rewrite <- (chunks_concat hospitals Hwf) at 2.
  now rewrite concat_map, map_map.
Qed.

Lemma chunk_names hospitals :
  map fst (chunk_files hospitals)
  = map (fun k => ("hospitals_" ++ format_03d k ++ ".json")%string)
        (seq 0 ((List.length hospitals + chunk_size - 1) / chunk_size)).
Proof.
  unfold chunk_files, range_step, Dict.items.
  rewrite !map_map. apply map_ext. intros k. simpl.
  unfold chunk_filename. rewrite Nat.div_mul; [reflexivity|].
  unfold chunk_size. lia.
Qed.

(** No two chunks are written to the same file. *)
Lemma chunk_names_distinct hospitals : NoDup (map fst (chunk_files hospitals)).
Proof.
  rewrite chunk_names. apply Injective_map_NoDup; [|apply seq_NoDup].
  intros n m E. simpl in E. injection E as E.
  apply append_inj_l in E. now apply format_03d_inj.
Qed.

Lemma chunk_sizes hospitals :
  Dict.wf hospitals ->
  map (fun f => Dict.len (snd f)) (chunk_files hospitals)
  = map (fun i => Nat.min chunk_size (List.length hospitals - i))
        (range_step (List.length hospitals) chunk_size).
Proof.
  intros Hwf. unfold chunk_files, Dict.items, Dict.len.
  rewrite map_map. apply map_ext. intros i. cbn [snd].
  rewrite chunk_at_slice by assumption. apply slice_length.
Qed.

Lemma index_counts hospitals :
  map ChunkInfo.hospitals (Index.chunks (index size_mb hospitals))
  = map (fun f => Z.of_nat (Dict.len (snd f))) (chunk_files hospitals).
Proof. unfold index. simpl. now rewrite map_map. Qed.

Lemma index_files hospitals :
  map ChunkInfo.file (Index.chunks (index size_mb hospitals))
  = map fst (chunk_files hospitals).
Proof. unfold index. simpl. now rewrite map_map. Qed.

Lemma counts_sum hospitals :
  Dict.wf hospitals ->
  sum_Z (map (fun f => Z.of_nat (Dict.len (snd f))) (chunk_files hospitals))
  = Z.of_nat (List.length hospitals).
Proof.
  intros Hwf.
  replace (map (fun f => Z.of_nat (Dict.len (snd f))) (chunk_files hospitals))
    with (map (fun l => Z.of_nat (List.length l))
              (map snd (chunk_files hospitals)))
    by (now rewrite map_map).
  now rewrite sum_Z_lengths, chunks_concat.
Qed.

(** C3: for a hospitals mapping (a dictionary, so no key twice), the keys
    of the chunk files taken in the order of their numbers are the keys of
    the mapping, in its order, none twice and none missing; every chunk has
    a file name of its own, so in whatever order the files are read their
    keys are the keys of the mapping rearranged; the index's
    total_hospitals is the number of keys, its entries list the files with
    their counts, and the counts add up to total_hospitals. With 2500
    facilities there are the three files hospitals_000.json,
    hospitals_001.json and hospitals_002.json, holding 1000, 1000 and 500
    facilities. *)
Theorem chunks_partition_the_hospitals hospitals :
  Dict.wf hospitals ->
  let files := chunk_files hospitals in
  let idx := index size_mb hospitals in
  let keys_of := fun f : string * Dict.t V => Dict.keys (snd f) in
  List.concat (map keys_of files) = Dict.keys hospitals
  /\ NoDup (List.concat (map keys_of files))
  /\ NoDup (map fst files)
  /\ (forall files',
        Permutation files' files ->
        Permutation (List.concat (map keys_of files')) (Dict.keys hospitals))
  /\ Index.total_hospitals idx = Z.of_nat (List.length (Dict.keys hospitals))
  /\ map ChunkInfo.file (Index.chunks idx) = map fst files
  /\ map ChunkInfo.hospitals (Index.chunks idx)
     = map (fun f => Z.of_nat (Dict.len (snd f))) files
  /\ sum_Z (map ChunkInfo.hospitals (Index.chunks idx))
     = Index.total_hospitals idx
  /\ (Dict.len hospitals = 2500%nat ->
      map fst files
      = ["hospitals_000.json"; "hospitals_001.json"; "hospitals_002.json"]
      /\ map (fun f => Dict.len (snd f)) files = [1000; 1000; 500]%nat
      /\ map ChunkInfo.hospitals (Index.chunks idx) = [1000; 1000; 500]).
Proof.
  intros Hwf files idx keys_of. subst files idx keys_of.
  pose proof (chunk_keys_concat hospitals Hwf) as Hkeys.
  split; [exact Hkeys|].
  split; [rewrite Hkeys; exact Hwf|].
  split; [apply chunk_names_distinct|].
  split.
  { intros files' Hperm. rewrite <- Hkeys, <- !flat_map_concat_map.
    now apply Permutation_flat_map. }
  split.
  { simpl. unfold Dict.keys, Dict.items. now rewrite length_map. }
  split; [apply index_files|].
  split; [apply index_counts|].
  split.
  { rewrite index_counts. now apply counts_sum. }
  intros Hlen. unfold Dict.len in Hlen.
  split; [rewrite chunk_names, Hlen; reflexivity|].
  assert (Hsizes : map (fun f => Dict.len (snd f)) (chunk_files hospitals)
                   = [1000; 1000; 500]%nat).
  { rewrite chunk_sizes, Hlen by assumption. vm_compute. reflexivity. }
  split; [exact Hsizes|].
  rewrite index_counts.
  rewrite <- (map_map (fun f => Dict.len (snd f)) Z.of_nat), Hsizes.
  reflexivity.
Qed.

End SplitFacts.

Module SampleChunks.

(** 2500 facilities, keyed "000", "001", ..., "2499". *)
Definition hospitals : Dict.t unit :=
  map (fun n => (format_03d n, tt)) (seq 0 2500).

Lemma hospitals_wf : Dict.wf hospitals.
Proof.
  unfold Dict.wf, Dict.keys, hospitals. rewrite map_map. cbn [fst].
  apply Injective_map_NoDup; [apply format_03d_inj | apply seq_NoDup].
Qed.

Lemma hospitals_len : Dict.len hospitals = 2500%nat.
Proof. unfold Dict.len, hospitals. now rewrite length_map, length_seq. Qed.

(** Stands for the size of the file on disk. *)
Definition size_mb (chunk : Dict.t unit) : Py.num := Py.NFloat 0.5.

End SampleChunks.

(** C3 on [SampleChunks.hospitals]. *)
Lemma chunks_witness :
  map fst (chunk_files SampleChunks.hospitals)
  = ["hospitals_000.json"; "hospitals_001.json"; "hospitals_002.json"]
  /\ map (fun f => Dict.len (snd f)) (chunk_files SampleChunks.hospitals)
     = [1000; 1000; 500]%nat
  /\ map ChunkInfo.hospitals
       (Index.chunks (index SampleChunks.size_mb SampleChunks.hospitals))
     = [1000; 1000; 500].
Proof.
  pose proof (chunks_partition_the_hospitals SampleChunks.size_mb
                SampleChunks.hospitals SampleChunks.hospitals_wf) as H.
  cbv zeta in H. apply H. exact SampleChunks.hospitals_len.
Defined.

Example two_thousand_facilities :
  map chunk_filename (range_step 2000 chunk_size)
  = ["hospitals_000.json"; "hospitals_001.json"].
Proof. vm_compute. reflexivity. Qed.

Example no_facility : @chunk_files unit Dict.empty = [].
Proof. reflexivity. Qed.

(** ** Further runs of the model *)

(** The row of the specification's example and the ProcedureStat it
    announces. *)
Example specification_row :
  load_hospital_price_data (B := DecimalLiterals.builtins)
    [Sample.row "001" "99213" "10" "1000" "600" "700"]
  = Ok [("001",
         {| HospitalData.procedures :=
              [("99213",
                {| ProcedureStat.volume := 10;
                   ProcedureStat.total_charges := Py.NFloat 1000;
                   ProcedureStat.total_cost := Py.NFloat 600;
                   ProcedureStat.total_paid := Py.NFloat 700;
                   ProcedureStat.avg_charge := Py.NFloat 100;
                   ProcedureStat.avg_cost := Py.NFloat 60;
                   ProcedureStat.avg_paid := Py.NFloat 70 |})];
            HospitalData.total_volume := 10;
            HospitalData.total_charges := Py.NFloat 1000;
            HospitalData.total_cost := Py.NFloat 600;
            HospitalData.total_paid := Py.NFloat 700 |})].
Proof. vm_compute. reflexivity. Qed.

(** A row with no volume: the averages are the integer 0 and nothing is
    raised. *)
Example blank_volume :
  load_hospital_price_data (B := DecimalLiterals.builtins)
    [Sample.row "001" "99213" "" "12.5" "" ""]
  = Ok [("001",
         {| HospitalData.procedures :=
              [("99213",
                {| ProcedureStat.volume := 0;
                   ProcedureStat.total_charges := Py.NFloat 12.5;
                   ProcedureStat.total_cost := Py.NInt 0;
                   ProcedureStat.total_paid := Py.NInt 0;
                   ProcedureStat.avg_charge := Py.NInt 0;
                   ProcedureStat.avg_cost := Py.NInt 0;
                   ProcedureStat.avg_paid := Py.NInt 0 |})];
            HospitalData.total_volume := 0;
            HospitalData.total_charges := Py.NFloat 12.5;
            HospitalData.total_cost := Py.NInt 0;
            HospitalData.total_paid := Py.NInt 0 |})].
Proof. vm_compute. reflexivity. Qed.

(** [round(x, 2)] rounds the exact binary value: 0.125 is a tie and goes to
    the even 0.12 ([0x1.eb851eb851eb8p-4]); the double written 2.675
    ([0x1.5666666666666p+1]) lies below the tie and goes to 2.67
    ([0x1.55c28f5c28f5cp+1]). *)
Example round_half_even :
  Py.float_round2 0.125 = 0x1.eb851eb851eb8p-4%float
  /\ Py.float_round2 0x1.5666666666666p+1 = 0x1.55c28f5c28f5cp+1%float.
Proof. split; vm_compute; reflexivity. Qed.

(** A volume past the largest double cannot divide a float. *)
Example huge_volume :
  Py.truediv (Py.NFloat 5) (10 ^ 400) = Raise OverflowError
  /\ Py.truediv (Py.NInt 0) (10 ^ 400) = Ok 0%float.
Proof. split; vm_compute; reflexivity. Qed.

(** A blank cell, as a sheet has it: an empty cell, which the reader
    gives as nan (or the column is missing), or a text of blanks only. *)
Definition blank_cell {B : Builtins} (c : option Cell.t) : Prop :=
  Cell.notna c = false \/ Cell.text c = "".

Module SampleBlank.

(** A row without provider number: the provnum cell is empty, the others
    are filled. *)
Definition row : FacilityRow.t :=
  SampleSheets.facility (Some (Cell.Float nan)) (Some (Cell.Str "Mercy"))
    (Some (Cell.Int 2)) (Some (Cell.Str "2A")) (Some (Cell.Int 40)).

Definition stored : FacilityInfo.t :=
  {| FacilityInfo.name := "Mercy";
     FacilityInfo.city := "Springfield";
     FacilityInfo.state := "IL";
     FacilityInfo.zip_code := "62701";
     FacilityInfo.beds_total := 40;
     FacilityInfo.hospital_type := "Psychiatric";
     FacilityInfo.ownership := "Voluntary Non-Profit, Church" |}.

End SampleBlank.

(** C10 fails on a row whose provnum cell is empty and whose name is
    given: the text of the empty cell is "nan", which line 117 tests the
    name against and not the provnum, so the row passes the test and is
    stored, with its name, city, state, zip and bed count, under the key
    "nan", alone or after other rows. *)
Theorem empty_provnum_cell_is_kept :
  blank_cell (B := DecimalLiterals.builtins)
    (FacilityRow.provnum SampleBlank.row)
  /\ Cell.text (B := DecimalLiterals.builtins)
       (FacilityRow.provnum SampleBlank.row) = "nan"
  /\ facility_step (B := DecimalLiterals.builtins) Dict.empty SampleBlank.row
     = Ok [("nan", SampleBlank.stored)]
  /\ Dict.get "nan"
       (load_facility_data (B := DecimalLiterals.builtins)
          (Some (SampleSheets.facilities ++ [SampleBlank.row])))
     = Some SampleBlank.stored.
Proof.
  split; [left; reflexivity|]. repeat split; vm_compute; reflexivity.
Qed.

(** * Further properties *)

(** ** Order of first occurrence *)

(** The distinct elements of a list, each at its first occurrence. *)
Definition first_seen (l : list string) : list string :=
  fold_left (fun s x => set_add x s) l [].

Lemma set_add_In x y s : In y (set_add x s) <-> y = x \/ In y s.
Proof.
  unfold set_add. destruct (existsb (String.eqb x) s) eqn:E.
  - apply existsb_exists in E. destruct E as (z & Hz & Hxz).
    apply String.eqb_eq in Hxz. subst z. intuition (subst; auto).
  - rewrite in_app_iff. simpl. intuition.
Qed.

Lemma set_add_NoDup x s : NoDup s -> NoDup (set_add x s).
Proof.
  intros Hs. unfold set_add. destruct (existsb (String.eqb x) s) eqn:E; auto.
  apply NoDup_app; [assumption | repeat constructor; simpl; tauto |].
  intros y Hy [<- | []].
  assert (existsb (String.eqb x) s = true).
  { apply existsb_exists. exists x. split; auto. apply String.eqb_refl. }
  congruence.
Qed.

Lemma fold_set_add_In l :
  forall s y, In y (fold_left (fun s x => set_add x s) l s) <-> In y l \/ In y s.
Proof.
  induction l as [|x l IH]; intros s y; simpl; [tauto|].
  rewrite IH, set_add_In. intuition.
Qed.

Lemma fold_set_add_NoDup l :
  forall s, NoDup s -> NoDup (fold_left (fun s x => set_add x s) l s).
Proof.
  induction l as [|x l IH]; intros s Hs; simpl; auto using set_add_NoDup.
Qed.

Lemma first_seen_In l y : In y (first_seen l) <-> In y l.
Proof. unfold first_seen. rewrite fold_set_add_In. simpl. tauto. Qed.

Lemma first_seen_NoDup l : NoDup (first_seen l).
Proof. apply fold_set_add_NoDup. constructor. Qed.

Lemma first_seen_snoc l x : first_seen (l ++ [x]) = set_add x (first_seen l).
Proof. unfold first_seen. now rewrite fold_left_app. Qed.

Lemma keys_set_add {V : Type} (d : Dict.t V) k v :
  Dict.keys (Dict.set k v d) = set_add k (Dict.keys d).
Proof. apply DictFacts.keys_set. Qed.

Example first_seen_example :
  first_seen ["b"; "a"; "b"; "c"; "a"] = ["b"; "a"; "c"].
Proof. reflexivity. Qed.

(** ** The pricing extractor, row by row *)

(** A money total as the extractor holds it: the integer 0 of a blank
    field, or a float. *)
Definition money (a : Py.num) : Prop := a = Py.NInt 0 \/ exists x, a = Py.NFloat x.

Lemma add_money a b :
  money a -> money b -> exists c, Py.add a b = Ok c /\ money c.
Proof.
  intros [-> | [x ->]] [-> | [y ->]].
  - exists (Py.NInt 0). split; [reflexivity | now left].
  - exists (Py.NFloat (0 + y)). split; [vm_compute; reflexivity|].
    right. eauto.
  - exists (Py.NFloat (x + 0)). split; [vm_compute; reflexivity|].
    right. eauto.
  - exists (Py.NFloat (x + y)). split; [reflexivity|]. right. eauto.
Qed.

Section ExtractorRows.
Context {B : Builtins}.

(** What one row asks for on its own: the conversions of lines 31-34 and
    the divisions of lines 37-39. *)
Definition row_check (r : Row.t) : result (Fields.t * ProcedureStat.t) :=
  f <- parse_row r ;;
  st <- procedure_stat f ;;
  Ok (f, st).

Lemma float_or_zero_money s a : float_or_zero s = Ok a -> money a.
Proof.
  unfold float_or_zero. destruct (Str.truthy s).
  - destruct (float_of_str s); [|discriminate]. intros [= <-]. right. eauto.
  - intros [= <-]. now left.
Qed.

Lemma parse_row_money r f :
  parse_row r = Ok f ->
  money (Fields.total_charges f) /\ money (Fields.total_cost f)
  /\ money (Fields.total_paid f).
Proof.
  unfold parse_row. intros H.
  apply bind_Ok in H. destruct H as (v & _ & H).
  apply bind_Ok in H. destruct H as (a & Ha & H).
  apply bind_Ok in H. destruct H as (b & Hb & H).
  apply bind_Ok in H. destruct H as (c & Hc & H).
  injection H as <-. simpl. repeat split; eauto using float_or_zero_money.
Qed.

Definition money_totals (h : HospitalData.t) : Prop :=
  money (HospitalData.total_charges h) /\ money (HospitalData.total_cost h)
  /\ money (HospitalData.total_paid h).

(** The additions of lines 54-56 never raise. *)
Lemma accumulate_returns h f st :
  money_totals h ->
  money (Fields.total_charges f) /\ money (Fields.total_cost f)
  /\ money (Fields.total_paid f) ->
  exists h', accumulate h f st = Ok h' /\ money_totals h'.
Proof.
  intros (Ha & Hb & Hc) (Fa & Fb & Fc). unfold accumulate.
  destruct (add_money _ _ Ha Fa) as (a & -> & Ma).
  destruct (add_money _ _ Hb Fb) as (b & -> & Mb).
  destruct (add_money _ _ Hc Fc) as (c & -> & Mc).
  simpl. eexists. split; [reflexivity|]. repeat split; assumption.
Qed.

Definition all_money (hd : Dict.t HospitalData.t) : Prop :=
  forall p h, Dict.get p hd = Some h -> money_totals h.

Lemma entry_money hd p : all_money hd -> money_totals (entry p hd).
Proof.
  intros H. unfold entry, Dict.get_default.
  destruct (Dict.get p hd) as [h|] eqn:E; [eauto|].
  repeat split; now left.
Qed.

Lemma row_step_check hd r :
  all_money hd ->
  match row_check r with
  | Ok _ => exists hd', row_step hd r = Ok hd' /\ all_money hd'
  | Raise e => row_step hd r = Raise e
  end.
Proof.
  intros Hm. unfold row_check, row_step.
  destruct (parse_row r) as [f|e] eqn:Hf; simpl; [|reflexivity].
  destruct (procedure_stat f) as [st|e] eqn:Hst; simpl; [|reflexivity].
  destruct (accumulate_returns (entry (Fields.provnum f) hd) f st
              (entry_money hd _ Hm) (parse_row_money _ _ Hf))
    as (h' & Hacc & Mh').
  unfold entry in Hacc. rewrite Hacc. simpl. eexists. split; [reflexivity|].
  intros p h Hp.
  destruct (String.eqb (Fields.provnum f) p) eqn:E.
  - apply String.eqb_eq in E. subst p.
    rewrite DictFacts.get_set_same in Hp. now injection Hp as <-.
  - apply String.eqb_neq in E. rewrite DictFacts.get_set_other in Hp; eauto.
Qed.

Lemma foldM_rows_check rows :
  forall hd,
    all_money hd ->
    is_ok (foldM row_step rows hd)
    = forallb (fun r => is_ok (row_check r)) rows.
Proof.
  induction rows as [|r rows IH]; intros hd Hm; simpl; auto.
  pose proof (row_step_check hd r Hm) as H.
  destruct (row_check r) as [fs|e]; simpl.
  - destruct H as (hd' & -> & Hm'). simpl. now apply IH.
  - now rewrite H.
Qed.

Lemma all_money_empty : all_money Dict.empty.
Proof. intros p h H. discriminate. Qed.

(** X1: the extraction returns exactly when every row, taken alone, converts
    and divides without raising: accumulating never raises, and no row's
    success depends on the rows before it. *)
Theorem extraction_returns_iff_each_row_does (rows : list Row.t) :
  is_ok (load_hospital_price_data rows)
  = forallb (fun r => is_ok (row_check r)) rows.
Proof. apply foldM_rows_check, all_money_empty. Qed.

Lemma foldM_first_raise rows :
  forall hd good bad rest e,
    all_money hd ->
    rows = good ++ bad :: rest ->
    forallb (fun r => is_ok (row_check r)) good = true ->
    row_check bad = Raise e ->
    foldM row_step rows hd = Raise e.
Proof.
  intros hd good. revert hd rows.
  induction good as [|g good IH]; intros hd rows bad rest e Hm -> Hgood Hbad;
    simpl.
  - pose proof (row_step_check hd bad Hm) as H. rewrite Hbad in H.
    now rewrite H.
  - simpl in Hgood. apply andb_true_iff in Hgood. destruct Hgood as [Hg Hgood].
    pose proof (row_step_check hd g Hm) as H.
    destruct (row_check g); [|discriminate].
    destruct H as (hd' & -> & Hm'). simpl. eapply IH; eauto.
Qed.

(** X2: the exception that leaves the extractor is that of the first row that
    fails, whatever follows it. *)
Theorem extraction_raises_first_failure
    (good : list Row.t) (bad : Row.t) (rest : list Row.t) (e : pyerr) :
  forallb (fun r => is_ok (row_check r)) good = true ->
  row_check bad = Raise e ->
  load_hospital_price_data (good ++ bad :: rest) = Raise e.
Proof.
  intros Hgood Hbad. unfold load_hospital_price_data.
  eapply foldM_first_raise; eauto using all_money_empty.
Qed.

End ExtractorRows.

Section ExtractorOrder.
Context {B : Builtins}.

Lemma row_step_elsewhere hd s r hd' :
  row_step hd r = Ok hd' ->
  entry (Row.provnum r) s = entry (Row.provnum r) hd ->
  exists h,
    hd' = Dict.set (Row.provnum r) h hd
    /\ row_step s r = Ok (Dict.set (Row.provnum r) h s).
Proof.
  intros Hstep Hentry. apply row_step_Ok in Hstep.
  destruct Hstep as (f & st & h & Hf & Hst & Hacc & ->).
  destruct (parse_row_keys _ _ Hf) as [Hp _]. rewrite Hp in *.
  exists h. split; [reflexivity|].
  unfold row_step. rewrite Hf. simpl. rewrite Hst. simpl. rewrite Hp.
  fold (entry (Row.provnum r) s). now rewrite Hentry, Hacc.
Qed.

Definition alone (p : string) (h : option HospitalData.t)
  : Dict.t HospitalData.t :=
  match h with
  | Some h => [(p, h)]
  | None => Dict.empty
  end.

Lemma entry_alone p h : entry p (alone p h) = match h with
                                              | Some h => h
                                              | None => HospitalData.default
                                              end.
Proof.
  destruct h; unfold entry, Dict.get_default; simpl; auto.
  now rewrite String.eqb_refl.
Qed.

Lemma of_provnum_snoc p rows r :
  of_provnum p (rows ++ [r])
  = if String.eqb (Row.provnum r) p
    then of_provnum p rows ++ [r] else of_provnum p rows.
Proof.
  unfold of_provnum. rewrite filter_app. simpl.
  destruct (String.eqb (Row.provnum r) p); auto using app_nil_r.
Qed.

Lemma load_alone rows :
  forall hd p,
    load_hospital_price_data rows = Ok hd ->
    load_hospital_price_data (of_provnum p rows) = Ok (alone p (Dict.get p hd)).
Proof.
  unfold load_hospital_price_data.
  induction rows as [|r rows IH] using rev_ind; intros hd p Hload.
  - now injection Hload as <-.
  - rewrite foldM_snoc in Hload. apply bind_Ok in Hload.
    destruct Hload as (hd0 & Hload0 & Hstep).
    specialize (IH hd0 p Hload0). rewrite of_provnum_snoc.
    destruct (String.eqb (Row.provnum r) p) eqn:E.
    + apply String.eqb_eq in E. subst p.
      rewrite foldM_snoc, IH. simpl.
      destruct (row_step_elsewhere hd0 (alone (Row.provnum r)
                                          (Dict.get (Row.provnum r) hd0)) r hd Hstep)
        as (h & -> & Hs).
      { rewrite entry_alone. unfold entry, Dict.get_default.
        now destruct (Dict.get (Row.provnum r) hd0). }
      rewrite Hs, DictFacts.get_set_same. f_equal.
      destruct (Dict.get (Row.provnum r) hd0); simpl; auto.
      now rewrite String.eqb_refl.
    + apply String.eqb_neq in E. rewrite IH.
      apply row_step_Ok in Hstep.
      destruct Hstep as (f & st & h & Hf & _ & _ & ->).
      destruct (parse_row_keys _ _ Hf) as [Hp _]. rewrite Hp.
      now rewrite DictFacts.get_set_other.
Qed.

(** X3: the facilities do not influence each other: the entry of a facility is
    what the extractor returns for the rows of that facility alone. *)
Theorem facility_entry_from_its_rows_alone
    (rows : list Row.t) (hd : Dict.t HospitalData.t) (p : string)
    (h : HospitalData.t) :
  load_hospital_price_data rows = Ok hd ->
  Dict.get p hd = Some h ->
  load_hospital_price_data (of_provnum p rows) = Ok [(p, h)].
Proof.
  intros Hload Hp. rewrite (load_alone rows hd p Hload), Hp. reflexivity.
Qed.

Lemma load_keys rows :
  forall hd,
    load_hospital_price_data rows = Ok hd ->
    Dict.keys hd = first_seen (map Row.provnum rows).
Proof.
  unfold load_hospital_price_data.
  induction rows as [|r rows IH] using rev_ind; intros hd Hload.
  - now injection Hload as <-.
  - rewrite foldM_snoc in Hload. apply bind_Ok in Hload.
    destruct Hload as (hd0 & Hload0 & Hstep).
    apply row_step_Ok in Hstep.
    destruct Hstep as (f & st & h & Hf & _ & _ & ->).
    destruct (parse_row_keys _ _ Hf) as [-> _].
    rewrite keys_set_add, map_app. cbn [map].
    now rewrite first_seen_snoc, (IH _ Hload0).
Qed.

Lemma accumulate_procedures h f st h' :
  accumulate h f st = Ok h' ->
  HospitalData.procedures h'
  = Dict.set (Fields.category f) st (HospitalData.procedures h).
Proof.
  unfold accumulate. intros H.
  repeat (apply bind_Ok in H; destruct H as (? & _ & H)).
  now injection H as <-.
Qed.

Lemma load_procedure_keys rows :
  forall hd p,
    load_hospital_price_data rows = Ok hd ->
    Dict.keys (HospitalData.procedures (entry p hd))
    = first_seen (map Row.category (of_provnum p rows)).
Proof.
  unfold load_hospital_price_data.
  induction rows as [|r rows IH] using rev_ind; intros hd p Hload.
  - now injection Hload as <-.
  - rewrite foldM_snoc in Hload. apply bind_Ok in Hload.
    destruct Hload as (hd0 & Hload0 & Hstep).
    specialize (IH hd0 p Hload0).
    apply row_step_Ok in Hstep.
    destruct Hstep as (f & st & h & Hf & _ & Hacc & ->).
    destruct (parse_row_keys _ _ Hf) as [Hp Hc]. rewrite Hp in *.
    rewrite of_provnum_snoc. unfold entry, Dict.get_default.
    destruct (String.eqb (Row.provnum r) p) eqn:E.
    + apply String.eqb_eq in E. subst p.
      rewrite DictFacts.get_set_same.
      rewrite (accumulate_procedures _ _ _ _ Hacc), keys_set_add.
      rewrite map_app. cbn [map]. now rewrite first_seen_snoc, <- IH, Hc.
    + apply String.eqb_neq in E.
      now rewrite DictFacts.get_set_other.
Qed.

(** X4: the facilities come out in the order in which the file first names
    them, and the procedures of each facility in the order in which its
    rows first name their codes; a repeated row takes no new place. *)
Theorem extraction_keeps_first_seen_order
    (rows : list Row.t) (hd : Dict.t HospitalData.t) :
  load_hospital_price_data rows = Ok hd ->
  Dict.keys hd = first_seen (map Row.provnum rows)
  /\ forall p h,
      Dict.get p hd = Some h ->
      Dict.keys (HospitalData.procedures h)
      = first_seen (map Row.category (of_provnum p rows)).
Proof.
  intros Hload. split; [now apply load_keys|].
  intros p h Hp. rewrite <- (load_procedure_keys rows hd p Hload).
  unfold entry, Dict.get_default. now rewrite Hp.
Qed.

End ExtractorOrder.

(** ** More on dictionaries *)

Module DictMore.

Section Facts.
Context {V : Type}.
Implicit Types (d : Dict.t V) (k : string) (v : V).

Lemma get_In d k v : Dict.get k d = Some v -> In (k, v) d.
Proof.
  induction d as [|[k' v'] d IH]; simpl; [discriminate|].
  destruct (String.eqb k' k) eqn:E; auto.
  apply String.eqb_eq in E. intros [= ->]. subst. now left.
Qed.

Lemma In_get d k v : Dict.wf d -> In (k, v) d -> Dict.get k d = Some v.
Proof.
  unfold Dict.wf. induction d as [|[k' v'] d IH]; simpl; [tauto|].
  intros Hnd [Heq | Hin].
  - injection Heq as -> ->. now rewrite String.eqb_refl.
  - inversion Hnd as [|? ? Hnotin Hnd']; subst.
    destruct (String.eqb k' k) eqn:E; auto.
    apply String.eqb_eq in E. subst k'. exfalso. apply Hnotin.
    change (In (fst (k, v)) (map fst d)). now apply in_map.
Qed.

Lemma get_keys d k : Dict.get k d <> None <-> In k (Dict.keys d).
Proof.
  rewrite DictFacts.get_None. split; [|tauto].
  intros H. destruct (in_dec string_dec k (Dict.keys d)); tauto.
Qed.

End Facts.

End DictMore.

(** ** The merge, facility by facility *)

Section MergeMore.
Context {B : Builtins}.

Lemma format_hospitals_keys fd hd :
  forall hs,
    Dict.wf hd ->
    format_hospitals fd hd = Ok hs ->
    Dict.keys hs = Dict.keys hd.
Proof.
  unfold format_hospitals, Dict.items.
  induction hd as [|[k data] hd IH] using rev_ind; intros hs Hwf Hfmt.
  - now injection Hfmt as <-.
  - apply wf_snoc in Hwf. destruct Hwf as [Hwf Hnew].
    rewrite foldM_snoc in Hfmt. apply bind_Ok in Hfmt.
    destruct Hfmt as (hs0 & Hfmt0 & Hstep). simpl in Hstep.
    apply bind_Ok in Hstep. destruct Hstep as (u & _ & [= <-]).
    specialize (IH hs0 Hwf Hfmt0).
    rewrite DictFacts.set_new by now rewrite IH.
    unfold Dict.keys in *. now rewrite !map_app, IH.
Qed.

(** X5: the unified hospitals are the facilities of the pricing extract and no
    others, in the order in which the extract first names them; a facility
    that only the facility sheet knows has no record. *)
Theorem unified_hospitals_follow_the_extract
    (pricing : list Row.t) (fdf : option (list FacilityRow.t))
    (pdf : option (list ProcedureRow.t)) (cdf : option (list CategoryRow.t))
    (out : Output.t) :
  process_and_export_data pricing fdf pdf cdf = Ok out ->
  Dict.keys (Output.hospitals out) = first_seen (map Row.provnum pricing)
  /\ Dict.wf (Output.hospitals out)
  /\ forall p,
      ~ In p (map Row.provnum pricing) ->
      Dict.get p (Output.hospitals out) = None.
Proof.
  intros Hout. destruct (process_Ok _ _ _ _ _ Hout) as (hd & Hhd & Hfmt & _).
  pose proof (format_hospitals_keys _ _ _ (load_wf _ _ Hhd) Hfmt) as Hkeys.
  rewrite (load_keys _ _ Hhd) in Hkeys.
  split; [assumption|]. split.
  - unfold Dict.wf. rewrite Hkeys. apply first_seen_NoDup.
  - intros p Hp. apply DictFacts.get_None. rewrite Hkeys, first_seen_In.
    exact Hp.
Qed.

(** A facility the facility map knows: the left side of the join. *)
Definition metadata_of (info : FacilityInfo.t) (u : Hospital.t) : Prop :=
  Hospital.name u = FacilityInfo.name info
  /\ Hospital.city u = FacilityInfo.city info
  /\ Hospital.state u = FacilityInfo.state info
  /\ Hospital.zip_code u = FacilityInfo.zip_code info
  /\ Hospital.beds_total u = FacilityInfo.beds_total info
  /\ Hospital.hospital_type u = FacilityInfo.hospital_type info
  /\ Hospital.ownership u = FacilityInfo.ownership info.

Lemma unified_record pricing fdf pdf cdf out hd p :
  process_and_export_data pricing fdf pdf cdf = Ok out ->
  load_hospital_price_data pricing = Ok hd ->
  match Dict.get p hd with
  | Some data =>
      exists u, hospital_record (load_facility_data fdf) p data = Ok u
                /\ Dict.get p (Output.hospitals out) = Some u
  | None => Dict.get p (Output.hospitals out) = None
  end.
Proof.
  intros Hout Hhd.
  destruct (process_Ok _ _ _ _ _ Hout) as (hd' & Hhd' & Hfmt & _).
  assert (hd' = hd) by congruence. subst hd'.
  exact (format_hospitals_spec _ _ _ (load_wf _ _ Hhd) Hfmt p).
Qed.

(** X6: a record carries its own key, and for a facility of the facility map
    the name, city, state, zip, bed count and labels of its entry there. *)
Theorem known_facility_gets_its_metadata
    (pricing : list Row.t) (fdf : option (list FacilityRow.t))
    (pdf : option (list ProcedureRow.t)) (cdf : option (list CategoryRow.t))
    (out : Output.t) (p : string) (u : Hospital.t) (info : FacilityInfo.t) :
  process_and_export_data pricing fdf pdf cdf = Ok out ->
  Dict.get p (Output.hospitals out) = Some u ->
  Dict.get p (load_facility_data fdf) = Some info ->
  Hospital.provnum u = p /\ metadata_of info u.
Proof.
  intros Hout Hu Hinfo.
  destruct (process_Ok _ _ _ _ _ Hout) as (hd & Hhd & _).
  pose proof (unified_record _ _ _ _ _ _ p Hout Hhd) as H.
  destruct (Dict.get p hd) as [data|]; [|congruence].
  destruct H as (u' & Hrec & Hget).
  assert (u' = u) by congruence. subst u'.
  apply hospital_record_Ok in Hrec. destruct Hrec as (s & _ & ->).
  rewrite Hinfo. unfold metadata_of. simpl. auto 10.
Qed.

Lemma summarize_spec data s :
  summarize data = Ok s ->
  Summary.total_volume s = HospitalData.total_volume data
  /\ Summary.total_charges s = Py.round2 (HospitalData.total_charges data)
  /\ Summary.total_cost s = Py.round2 (HospitalData.total_cost data)
  /\ Summary.total_paid s = Py.round2 (HospitalData.total_paid data)
  /\ average_of (HospitalData.total_charges data)
                (HospitalData.total_volume data)
                (Summary.avg_charge_per_case s).
Proof.
  unfold summarize. intros H. apply bind_Ok in H.
  destruct H as (a & Ha & [= <-]). simpl.
  do 4 (split; [reflexivity|]). now apply average_spec.
Qed.

(** X7: the summary of a facility is computed from what the extractor
    accumulated for it: its volume, its three totals rounded to two
    places, and as charge per case round(total_charges / total_volume, 2)
    when the volume is positive and 0 otherwise, not negative unless the
    accumulated charges are; the procedures are handed on as they are. *)
Theorem summary_from_accumulated_totals
    (pricing : list Row.t) (fdf : option (list FacilityRow.t))
    (pdf : option (list ProcedureRow.t)) (cdf : option (list CategoryRow.t))
    (out : Output.t) (hd : Dict.t HospitalData.t) (p : string)
    (data : HospitalData.t) :
  process_and_export_data pricing fdf pdf cdf = Ok out ->
  load_hospital_price_data pricing = Ok hd ->
  Dict.get p hd = Some data ->
  exists u,
    Dict.get p (Output.hospitals out) = Some u
    /\ Hospital.procedures u = HospitalData.procedures data
    /\ Summary.total_volume (Hospital.summary u)
       = HospitalData.total_volume data
    /\ Summary.total_charges (Hospital.summary u)
       = Py.round2 (HospitalData.total_charges data)
    /\ Summary.total_cost (Hospital.summary u)
       = Py.round2 (HospitalData.total_cost data)
    /\ Summary.total_paid (Hospital.summary u)
       = Py.round2 (HospitalData.total_paid data)
    /\ average_of (HospitalData.total_charges data)
                  (HospitalData.total_volume data)
                  (Summary.avg_charge_per_case (Hospital.summary u)).
Proof.
  intros Hout Hhd Hp.
  pose proof (unified_record _ _ _ _ _ _ p Hout Hhd) as H.
  rewrite Hp in H. destruct H as (u & Hrec & Hget).
  exists u. split; [assumption|].
  apply hospital_record_Ok in Hrec. destruct Hrec as (s & Hs & ->). simpl.
  split; [reflexivity|]. now apply summarize_spec.
Qed.

(** X8: the figures do not depend on the reference files: two runs over the
    same pricing extract, with whatever facility, procedure and category
    sheets, return together, list the same facilities in the same order and
    the same codes (a set, in no fixed order), and give every facility the
    same procedures and the same summary. *)
Theorem reference_files_leave_figures_alone
    (pricing : list Row.t)
    (fdf fdf' : option (list FacilityRow.t))
    (pdf pdf' : option (list ProcedureRow.t))
    (cdf cdf' : option (list CategoryRow.t)) (out : Output.t) :
  process_and_export_data pricing fdf pdf cdf = Ok out ->
  exists out',
    process_and_export_data pricing fdf' pdf' cdf' = Ok out'
    /\ Dict.keys (Output.hospitals out') = Dict.keys (Output.hospitals out)
    /\ Permutation (Output.procedure_codes out') (Output.procedure_codes out)
    /\ forall p u u',
        Dict.get p (Output.hospitals out) = Some u ->
        Dict.get p (Output.hospitals out') = Some u' ->
        Hospital.procedures u' = Hospital.procedures u
        /\ Hospital.summary u' = Hospital.summary u.
Proof.
  intros Hout.
  destruct (process_Ok _ _ _ _ _ Hout) as (hd & Hhd & Hfmt & Hcodes & _).
  assert (Hall : forallb (fun kv => is_ok (summarize (snd kv))) hd = true).
  { apply forallb_forall. intros [k data] Hin. simpl.
    pose proof (unified_record _ _ _ _ _ _ k Hout Hhd) as H.
    rewrite (DictMore.In_get _ _ _ (load_wf _ _ Hhd) Hin) in H.
    destruct H as (u & Hrec & _). apply hospital_record_Ok in Hrec.
    destruct Hrec as (s & -> & _). reflexivity. }
  destruct (process_returns pricing fdf' pdf' cdf' hd Hhd Hall) as [out' Hout'].
  exists out'. split; [assumption|].
  destruct (process_Ok _ _ _ _ _ Hout') as (hd' & Hhd' & Hfmt' & Hcodes' & _).
  assert (hd' = hd) by congruence. subst hd'.
  split.
  { rewrite (format_hospitals_keys _ _ _ (load_wf _ _ Hhd) Hfmt').
    now rewrite (format_hospitals_keys _ _ _ (load_wf _ _ Hhd) Hfmt). }
  split; [rewrite Hcodes, Hcodes'; apply Permutation_refl|].
  intros p u u' Hu Hu'.
  pose proof (unified_record _ _ _ _ _ _ p Hout Hhd) as H.
  pose proof (unified_record _ _ _ _ _ _ p Hout' Hhd) as H'.
  destruct (Dict.get p hd) as [data|]; [|congruence].
  destruct H as (v & Hrec & Hget). destruct H' as (v' & Hrec' & Hget').
  assert (v = u) by congruence. assert (v' = u') by congruence. subst v v'.
  apply hospital_record_Ok in Hrec, Hrec'.
  destruct Hrec as (s & Hs & ->). destruct Hrec' as (s' & Hs' & ->).
  simpl. split; congruence.
Qed.

(** X9: the procedure_codes list names every code that some row of the extract
    carries, each once, and nothing else. *)
Theorem procedure_codes_are_the_codes_of_the_rows
    (pricing : list Row.t) (fdf : option (list FacilityRow.t))
    (pdf : option (list ProcedureRow.t)) (cdf : option (list CategoryRow.t))
    (out : Output.t) :
  process_and_export_data pricing fdf pdf cdf = Ok out ->
  NoDup (Output.procedure_codes out)
  /\ forall c,
      In c (Output.procedure_codes out) <-> In c (map Row.category pricing).
Proof.
  intros Hout.
  destruct (process_Ok _ _ _ _ _ Hout) as (hd & Hhd & _ & -> & _).
  unfold all_procedure_codes.
  split; [apply fold_set_add_NoDup; constructor|].
  intros c. rewrite fold_set_add_In. simpl.
  rewrite in_flat_map. split.
  - intros [(h & Hh & Hc) | []].
    apply in_map_iff in Hh. destruct Hh as ([p h'] & <- & Hin). simpl in Hc.
    pose proof (DictMore.In_get _ _ _ (load_wf _ _ Hhd) Hin) as Hp.
    pose proof (load_procedure_keys _ _ p Hhd) as Hk.
    unfold entry, Dict.get_default in Hk. rewrite Hp in Hk.
    rewrite Hk, first_seen_In in Hc.
    apply in_map_iff in Hc. destruct Hc as (r & <- & Hr).
    apply filter_In in Hr. apply in_map. tauto.
  - intros Hc. left. apply in_map_iff in Hc. destruct Hc as (r & <- & Hr).
    assert (Hp : In (Row.provnum r) (Dict.keys hd)).
    { rewrite (load_keys _ _ Hhd), first_seen_In. now apply in_map. }
    apply DictMore.get_keys in Hp.
    destruct (Dict.get (Row.provnum r) hd) as [h|] eqn:E; [|congruence].
    exists h. split.
    + apply DictMore.get_In in E.
      change h with (snd (Row.provnum r, h)). now apply in_map.
    + pose proof (load_procedure_keys _ _ (Row.provnum r) Hhd) as Hk.
      unfold entry, Dict.get_default in Hk. rewrite E in Hk.
      rewrite Hk, first_seen_In. apply in_map.
      apply filter_In. split; auto. apply String.eqb_refl.
Qed.

End MergeMore.

(** ** Trimmed text *)

Lemma rstrip_idem s : Str.rstrip (Str.rstrip s) = Str.rstrip s.
Proof.
  induction s as [|c s IH]; simpl; auto.
  destruct (Str.rstrip s) as [|c' r] eqn:E.
  - destruct (Str.is_space c) eqn:Hc; simpl; auto. now rewrite Hc.
  - simpl in *. now rewrite IH.
Qed.

Lemma rstrip_head c s :
  Str.is_space c = false -> exists r, Str.rstrip (String c s) = String c r.
Proof.
  intros Hc. simpl. destruct (Str.rstrip s); rewrite ?Hc; eauto.
Qed.

Lemma lstrip_head s :
  Str.lstrip s = EmptyString
  \/ exists c r, Str.lstrip s = String c r /\ Str.is_space c = false.
Proof.
  induction s as [|c s IH]; simpl; auto.
  destruct (Str.is_space c) eqn:Hc; eauto.
Qed.

(** [s.strip().strip() == s.strip()] *)
Lemma strip_idem s : Str.strip (Str.strip s) = Str.strip s.
Proof.
  unfold Str.strip.
  destruct (lstrip_head s) as [-> | (c & r & -> & Hc)]; [reflexivity|].
  destruct (rstrip_head c r Hc) as [r' E]. rewrite E.
  simpl Str.lstrip. rewrite Hc, <- E. apply rstrip_idem.
Qed.

Definition trimmed (s : string) : Prop := Str.strip s = s.

Section CellText.
Context {B : Builtins}.

Lemma text_trimmed c : trimmed (Cell.text c).
Proof. destruct c; [apply strip_idem | reflexivity]. Qed.

Lemma text_or_empty_trimmed c : trimmed (Cell.text_or_empty c).
Proof.
  unfold Cell.text_or_empty. destruct (Cell.notna c);
    [apply text_trimmed | reflexivity].
Qed.

End CellText.

(** ** The facility sheet, row by row *)

Definition hospital_type_labels : list string :=
  ["Short-Term Acute"; "Psychiatric"; "Rehabilitation";
   "Religious Non-Medical"; "Childrens"; "Critical Access"; "Long Term Care"].

Section FacilityMore.
Context {B : Builtins}.

(** The dictionary of lines 126-134 for one row. *)
Definition facility_info_of (row : FacilityRow.t) : result FacilityInfo.t :=
  beds_total <- beds (FacilityRow.beds_total row) ;;
  Ok {| FacilityInfo.name := Cell.text (FacilityRow.facility_name row);
        FacilityInfo.city := Cell.text_or_empty (FacilityRow.city row);
        FacilityInfo.state := Cell.text_or_empty (FacilityRow.state_code row);
        FacilityInfo.zip_code := Cell.text_or_empty (FacilityRow.zip_code row);
        FacilityInfo.beds_total := beds_total;
        FacilityInfo.hospital_type :=
          hospital_type_label (FacilityRow.category_subtype_of_provider row);
        FacilityInfo.ownership :=
          ownership_label (FacilityRow.type_of_control row) |}.

Definition facility_kept (row : FacilityRow.t) : bool :=
  facility_row_kept (Cell.text (FacilityRow.provnum row))
                    (Cell.text (FacilityRow.facility_name row)).

(** The row is kept and belongs to facility [p]. *)
Definition facility_row_of (p : string) (row : FacilityRow.t) : bool :=
  facility_kept row && String.eqb (Cell.text (FacilityRow.provnum row)) p.

Lemma facility_step_unfold facility_map row :
  facility_step facility_map row
  = if facility_kept row
    then info <- facility_info_of row ;;
         Ok (Dict.set (Cell.text (FacilityRow.provnum row)) info facility_map)
    else Ok facility_map.
Proof.
  unfold facility_step, facility_kept, facility_info_of.
  destruct (facility_row_kept _ _); [|reflexivity].
  destruct (beds (FacilityRow.beds_total row)); reflexivity.
Qed.

(** X10: one kept row whose bed count cannot be read costs the whole facility
    map: the loader returns the empty mapping, whatever the other rows
    hold. *)
Theorem unreadable_bed_count_empties_the_map
    (rows : list FacilityRow.t) (row : FacilityRow.t) (e : pyerr) :
  In row rows ->
  facility_kept row = true ->
  beds (FacilityRow.beds_total row) = Raise e ->
  load_facility_data (Some rows) = Dict.empty.
Proof.
  intros Hin Hkept Hbeds. simpl.
  destruct (foldM_raises facility_step rows row Hin) with (s := @Dict.empty FacilityInfo.t)
    as [e' ->]; [|reflexivity].
  intros m. rewrite facility_step_unfold, Hkept.
  unfold facility_info_of. rewrite Hbeds. simpl. eauto.
Qed.

(** After the loop: the entry of [p] is that of its last kept row. *)
Lemma facility_loop_last rows :
  forall m p,
    foldM facility_step rows Dict.empty = Ok m ->
    match find (facility_row_of p) (rev rows) with
    | Some row =>
        exists info, facility_info_of row = Ok info /\ Dict.get p m = Some info
    | None => Dict.get p m = None
    end.
Proof.
  induction rows as [|r rows IH] using rev_ind; intros m p Hm.
  - now injection Hm as <-.
  - rewrite foldM_snoc in Hm. apply bind_Ok in Hm.
    destruct Hm as (m0 & Hm0 & Hstep). specialize (IH m0 p Hm0).
    rewrite rev_unit. simpl. rewrite facility_step_unfold in Hstep.
    unfold facility_row_of at 1.
    destruct (facility_kept r) eqn:Hk; simpl.
    + apply bind_Ok in Hstep. destruct Hstep as (info & Hinfo & [= <-]).
      destruct (String.eqb (Cell.text (FacilityRow.provnum r)) p) eqn:E.
      * apply String.eqb_eq in E. subst p. exists info. split; auto.
        apply DictFacts.get_set_same.
      * apply String.eqb_neq in E.
        now rewrite DictFacts.get_set_other.
    + now injection Hstep as <-.
Qed.

Lemma hospital_type_get_label c :
  hospital_type_get c = "" \/ In (hospital_type_get c) hospital_type_labels.
Proof.
  unfold hospital_type_get, hospital_type_map, hospital_type_labels. simpl.
  repeat match goal with
         | |- context [if ?b then _ else _] => destruct b
         end; simpl; tauto.
Qed.

Lemma hospital_type_label_listed c :
  hospital_type_label c = "" \/ In (hospital_type_label c) hospital_type_labels.
Proof.
  unfold hospital_type_label. destruct c as [c|]; [|now left].
  destruct (Cell.notna (Some c)); [apply hospital_type_get_label | now left].
Qed.

Lemma ownership_label_listed c :
  ownership_label c = "" \/ In (ownership_label c) (Dict.values ownership_map).
Proof.
  unfold ownership_label. destruct c as [c|]; [|now left].
  destruct (Cell.notna (Some c)); [|now left].
  unfold Dict.get_default.
  destruct (Dict.get _ ownership_map) as [v|] eqn:E; [|now left].
  right. apply DictMore.get_In in E.
  change v with (snd (Str.strip (Cell.to_str c), v)). now apply in_map.
Qed.

Lemma facility_kept_true row :
  facility_kept row = true ->
  Cell.text (FacilityRow.provnum row) <> ""
  /\ Cell.text (FacilityRow.facility_name row) <> ""
  /\ Cell.text (FacilityRow.facility_name row) <> "nan".
Proof.
  unfold facility_kept, facility_row_kept.
  rewrite !andb_true_iff, negb_true_iff. intros [[Hp Hn] Hnan].
  apply String.eqb_neq in Hnan.
  repeat split; auto; intros E; rewrite E in *; discriminate.
Qed.

(** X11: when the facility sheet has several rows for a provider number, the
    last one that has a name decides the entry, whole; a facility with no
    such row has no entry. *)
Theorem facility_last_named_row_wins
    (rows : list FacilityRow.t) (facility_map : Dict.t FacilityInfo.t)
    (p : string) :
  foldM facility_step rows Dict.empty = Ok facility_map ->
  load_facility_data (Some rows) = facility_map
  /\ match find (facility_row_of p) (rev rows) with
     | Some row =>
         exists info,
           facility_info_of row = Ok info
           /\ Dict.get p facility_map = Some info
     | None => Dict.get p facility_map = None
     end.
Proof.
  intros Hm. split; [simpl; now rewrite Hm|]. now apply facility_loop_last.
Qed.

(** X12: every entry of the facility map has a non-empty key and a name that is
    neither empty nor "nan"; key, name, city, state and zip are trimmed;
    the hospital type is one of the seven labels or empty, the ownership
    one of the table's labels or empty. *)
Theorem facility_entries_are_clean
    (df : option (list FacilityRow.t)) (p : string) (info : FacilityInfo.t) :
  Dict.get p (load_facility_data df) = Some info ->
  p <> "" /\ trimmed p
  /\ FacilityInfo.name info <> "" /\ FacilityInfo.name info <> "nan"
  /\ trimmed (FacilityInfo.name info)
  /\ trimmed (FacilityInfo.city info)
  /\ trimmed (FacilityInfo.state info)
  /\ trimmed (FacilityInfo.zip_code info)
  /\ (FacilityInfo.hospital_type info = ""
      \/ In (FacilityInfo.hospital_type info) hospital_type_labels)
  /\ (FacilityInfo.ownership info = ""
      \/ In (FacilityInfo.ownership info) (Dict.values ownership_map)).
Proof.
  destruct df as [rows|]; simpl; [|discriminate].
  destruct (foldM facility_step rows Dict.empty) as [m|e] eqn:Hm;
    [|discriminate].
  intros Hp. pose proof (facility_loop_last rows m p Hm) as H.
  destruct (find (facility_row_of p) (rev rows)) as [row|] eqn:Hfind;
    [|congruence].
  destruct H as (info' & Hinfo & Hget).
  assert (info' = info) by congruence. subst info'.
  apply find_some in Hfind. destruct Hfind as [_ Hrow].
  unfold facility_row_of in Hrow. apply andb_true_iff in Hrow.
  destruct Hrow as [Hkept Hkey]. apply String.eqb_eq in Hkey.
  destruct (facility_kept_true row Hkept) as (Hp1 & Hn1 & Hn2).
  unfold facility_info_of in Hinfo. apply bind_Ok in Hinfo.
  destruct Hinfo as (b & _ & [= <-]). simpl. subst p.
  repeat split; auto using text_trimmed, text_or_empty_trimmed,
    hospital_type_label_listed, ownership_label_listed.
Qed.

End FacilityMore.

(** ** The procedure-name sheet *)

Section ProcedureNamesMore.
Context {B : Builtins}.

(** The row is kept (line 157) and describes the code [code]. *)
Definition describes (code : string) (row : ProcedureRow.t) : bool :=
  procedure_row_kept (Cell.text (ProcedureRow.HCPCS_Code row))
                     (Cell.text (ProcedureRow.Short_Descriptor row))
  && String.eqb (Cell.text (ProcedureRow.HCPCS_Code row)) code.

Lemma procedure_loop_last rows code :
  Dict.get code (fold_left procedure_step rows Dict.empty)
  = option_map (fun row => Cell.text (ProcedureRow.Short_Descriptor row))
               (find (describes code) (rev rows)).
Proof.
  induction rows as [|r rows IH] using rev_ind; [reflexivity|].
  rewrite fold_left_app, rev_unit. simpl.
  unfold procedure_step at 1, describes at 1.
  destruct (procedure_row_kept _ _); simpl; [|exact IH].
  destruct (String.eqb (Cell.text (ProcedureRow.HCPCS_Code r)) code) eqn:E.
  - apply String.eqb_eq in E. subst code. apply DictFacts.get_set_same.
  - apply String.eqb_neq in E. now rewrite DictFacts.get_set_other.
Qed.

(** X13: when the sheet describes a code more than once, the last row with a
    usable code and description gives the name; the lookup of any code is
    decided by that row alone. *)
Theorem procedure_name_of_last_described_row
    (rows : list ProcedureRow.t) (code : string) :
  Dict.get code (load_procedure_names (Some rows))
  = option_map (fun row => Cell.text (ProcedureRow.Short_Descriptor row))
               (find (describes code) (rev rows)).
Proof. apply procedure_loop_last. Qed.

(** X14: the keys of the procedure-name map are trimmed and never empty or
    "nan"; the same holds of its descriptions. *)
Theorem procedure_names_are_clean
    (df : option (list ProcedureRow.t)) (code description : string) :
  Dict.get code (load_procedure_names df) = Some description ->
  code <> "" /\ code <> "nan" /\ trimmed code
  /\ description <> "" /\ description <> "nan" /\ trimmed description.
Proof.
  destruct df as [rows|]; simpl; [|discriminate].
  rewrite procedure_loop_last.
  destruct (find (describes code) (rev rows)) as [row|] eqn:Hfind;
    [|discriminate].
  simpl. intros [= <-]. apply find_some in Hfind. destruct Hfind as [_ Hrow].
  unfold describes in Hrow. apply andb_true_iff in Hrow.
  destruct Hrow as [Hk Hcode]. apply String.eqb_eq in Hcode. subst code.
  apply procedure_row_kept_true in Hk. destruct Hk as (Hc & Hd & Hcn & Hdn).
  repeat split; auto using text_trimmed.
Qed.

End ProcedureNamesMore.

(** ** Order of strings *)

Lemma ascii_compare_Lt_trans a b c :
  Ascii.compare a b = Lt -> Ascii.compare b c = Lt -> Ascii.compare a c = Lt.
Proof.
  unfold Ascii.compare. rewrite !N.compare_lt_iff. lia.
Qed.

Lemma ascii_compare_refl a : Ascii.compare a a = Eq.
Proof. unfold Ascii.compare. apply N.compare_refl. Qed.

Lemma string_compare_refl s : String.compare s s = Eq.
Proof.
  induction s as [|c s IH]; simpl; auto. now rewrite ascii_compare_refl.
Qed.

Lemma string_compare_Lt_trans s1 :
  forall s2 s3,
    String.compare s1 s2 = Lt -> String.compare s2 s3 = Lt ->
    String.compare s1 s3 = Lt.
Proof.
  induction s1 as [|a s1 IH]; intros [|b s2] [|c s3]; simpl; auto;
    try discriminate.
  destruct (Ascii.compare a b) eqn:Eab; try discriminate;
    destruct (Ascii.compare b c) eqn:Ebc; try discriminate; intros H12 H23.
  - apply Ascii.compare_eq_iff in Eab, Ebc. subst.
    rewrite ascii_compare_refl. eauto.
  - apply Ascii.compare_eq_iff in Eab. subst. now rewrite Ebc.
  - apply Ascii.compare_eq_iff in Ebc. subst. now rewrite Eab.
  - now rewrite (ascii_compare_Lt_trans _ _ _ Eab Ebc).
Qed.

Definition string_lt (a b : string) : Prop := String.ltb a b = true.

Lemma string_lt_compare a b : string_lt a b <-> String.compare a b = Lt.
Proof.
  unfold string_lt, String.ltb. destruct (String.compare a b);
    split; congruence.
Qed.

Lemma string_lt_trans a b c : string_lt a b -> string_lt b c -> string_lt a c.
Proof. rewrite !string_lt_compare. apply string_compare_Lt_trans. Qed.

Lemma string_leb_lt a b : String.leb a b = true -> a <> b -> string_lt a b.
Proof.
  unfold String.leb. rewrite string_lt_compare.
  destruct (String.compare a b) eqn:E; try congruence.
  apply String.compare_eq_iff in E. congruence.
Qed.

Lemma string_leb_false a b : String.leb a b = false -> string_lt b a.
Proof.
  unfold String.leb. rewrite string_lt_compare, (String.compare_antisym a b).
  destruct (String.compare b a); simpl; congruence.
Qed.

(** *** [sorted] *)



Lemma insert_sorted_In x y l : In y (insert_sorted x l) <-> y = x \/ In y l.
Proof.
  induction l as [|z l IH]; simpl; [intuition|].
  destruct (String.leb x z); simpl; rewrite ?IH; intuition.
Qed.

Lemma insert_sorted_strict x l :
  StronglySorted string_lt l -> ~ In x l ->
  StronglySorted string_lt (insert_sorted x l).
Proof.
  induction l as [|z l IH]; intros Hs Hx; simpl.
  - repeat constructor.
  - apply StronglySorted_inv in Hs. destruct Hs as [Hs Hz].
    simpl in Hx. destruct (String.leb x z) eqn:E.
    + assert (Hxz : string_lt x z) by (apply string_leb_lt; intuition).
      constructor; [constructor; assumption|].
      constructor; [assumption|].
      rewrite Forall_forall in *. eauto using string_lt_trans.
    + constructor; [apply IH; tauto|].
      rewrite Forall_forall in *. intros y Hy.
      apply insert_sorted_In in Hy. destruct Hy as [-> | Hy]; auto.
      now apply string_leb_false.
Qed.

Lemma sorted_In s y : In y (sorted s) <-> In y s.
Proof.
  unfold sorted. induction s as [|x s IH]; simpl; [tauto|].
  rewrite insert_sorted_In, IH. intuition.
Qed.

Lemma sorted_strict s : NoDup s -> StronglySorted string_lt (sorted s).
Proof.
  unfold sorted. induction 1 as [|x s Hx Hs IH]; simpl; [constructor|].
  apply insert_sorted_strict; auto.
  fold (sorted s). now rewrite sorted_In.
Qed.

(** ** The service-category sheet *)

Lemma upper_char_idem c : Str.upper_char (Str.upper_char c) = Str.upper_char c.
Proof.
  destruct c as [[|] [|] [|] [|] [|] [|] [|] [|]]; vm_compute; reflexivity.
Qed.

(** [s.upper().upper() == s.upper()] *)
Lemma upper_idem s : Str.upper (Str.upper s) = Str.upper s.
Proof.
  induction s as [|c s IH]; simpl; auto. now rewrite upper_char_idem, IH.
Qed.

Section CategoriesMore.
Context {B : Builtins}.

Definition code_of (row : CategoryRow.t) : string :=
  Cell.text (CategoryRow.HCPCS_Code row).

Definition category_of (row : CategoryRow.t) : string :=
  Cell.text (CategoryRow.Service_Category row).

Definition flag_of (row : CategoryRow.t) : string :=
  Str.upper (Cell.text (CategoryRow.CMS_Shoppable row)).

(** Line 185. *)
Definition has_code (row : CategoryRow.t) : bool :=
  Str.truthy (code_of row) && negb (String.eqb (code_of row) "nan").

(** Lines 185-186: the row enters [category_map]. *)
Definition categorised (row : CategoryRow.t) : bool :=
  has_code row
  && (Str.truthy (category_of row)
      && negb (String.eqb (category_of row) "nan")).

(** Lines 185 and 190: the row enters [shoppable_map]. *)
Definition flagged (row : CategoryRow.t) : bool :=
  has_code row
  && (Str.truthy (flag_of row) && negb (String.eqb (flag_of row) "NAN")).

Lemma category_step_parts cm sm cs row :
  category_step (cm, sm, cs) row
  = (if categorised row then Dict.set (code_of row) (category_of row) cm
     else cm,
     if flagged row then Dict.set (code_of row) (flag_of row) sm else sm,
     if categorised row then set_add (category_of row) cs else cs).
Proof.
  unfold category_step, categorised, flagged, has_code, code_of, category_of,
    flag_of.
  destruct (Str.truthy (Cell.text (CategoryRow.HCPCS_Code row))
            && negb (String.eqb (Cell.text (CategoryRow.HCPCS_Code row)) "nan"));
    simpl; [|reflexivity].
  destruct (Str.truthy (Cell.text (CategoryRow.Service_Category row))
            && negb (String.eqb
                       (Cell.text (CategoryRow.Service_Category row)) "nan"));
    reflexivity.
Qed.

Lemma category_loop_parts rows :
  forall cm sm cs,
    fold_left category_step rows (cm, sm, cs)
    = (fold_left
         (fun cm row =>
            if categorised row
            then Dict.set (code_of row) (category_of row) cm else cm)
         rows cm,
       fold_left
         (fun sm row =>
            if flagged row then Dict.set (code_of row) (flag_of row) sm
            else sm)
         rows sm,
       fold_left
         (fun cs row =>
            if categorised row then set_add (category_of row) cs else cs)
         rows cs).
Proof.
  induction rows as [|r rows IH]; intros cm sm cs; [reflexivity|].
  cbn [fold_left]. now rewrite category_step_parts, IH.
Qed.

(** A loop that sets [key row := value row] for the rows that pass [keep]
    leaves each key with the value of the last such row. *)
Lemma set_loop_last {R : Type} (keep : R -> bool) (key value : R -> string)
    (rows : list R) (k : string) :
  Dict.get k
    (fold_left
       (fun m row => if keep row then Dict.set (key row) (value row) m else m)
       rows Dict.empty)
  = option_map value
      (find (fun row => keep row && String.eqb (key row) k) (rev rows)).
Proof.
  induction rows as [|r rows IH] using rev_ind; [reflexivity|].
  rewrite fold_left_app, rev_unit. simpl.
  destruct (keep r); simpl; [|exact IH].
  destruct (String.eqb (key r) k) eqn:E.
  - apply String.eqb_eq in E. subst k. apply DictFacts.get_set_same.
  - apply String.eqb_neq in E. now rewrite DictFacts.get_set_other.
Qed.

Lemma categories_loop rows :
  forall cs y,
    In y (fold_left
            (fun cs row =>
               if categorised row then set_add (category_of row) cs else cs)
            rows cs)
    <-> In y cs
        \/ exists row, In row rows /\ categorised row = true
                       /\ category_of row = y.
Proof.
  induction rows as [|r rows IH]; intros cs y; simpl.
  - split; [tauto | intros [H | (row & [] & _)]; exact H].
  - rewrite IH. destruct (categorised r) eqn:E.
    + rewrite set_add_In. split.
      * intros [[-> | H] | (row & Hin & H)]; eauto 6.
      * intros [H | (row & [-> | Hin] & Hc & Hy)]; eauto 7.
    + split.
      * intros [H | (row & Hin & H)]; eauto 6.
      * intros [H | (row & [-> | Hin] & Hc & Hy)]; eauto 6. congruence.
Qed.

Lemma categories_loop_NoDup rows :
  forall cs,
    NoDup cs ->
    NoDup (fold_left
             (fun cs row =>
                if categorised row then set_add (category_of row) cs else cs)
             rows cs).
Proof.
  induction rows as [|r rows IH]; intros cs Hcs; simpl; auto.
  apply IH. destruct (categorised r); auto using set_add_NoDup.
Qed.

Definition category_map_of (df : option (list CategoryRow.t)) : Dict.t string :=
  fst (fst (load_service_categories df)).

Definition shoppable_map_of (df : option (list CategoryRow.t)) : Dict.t string :=
  snd (fst (load_service_categories df)).

Definition categories_of (df : option (list CategoryRow.t)) : list string :=
  snd (load_service_categories df).

Lemma load_service_categories_parts rows :
  load_service_categories (Some rows)
  = (fold_left
       (fun cm row =>
          if categorised row
          then Dict.set (code_of row) (category_of row) cm else cm)
       rows Dict.empty,
     fold_left
       (fun sm row =>
          if flagged row then Dict.set (code_of row) (flag_of row) sm else sm)
       rows Dict.empty,
     sorted
       (fold_left
          (fun cs row =>
             if categorised row then set_add (category_of row) cs else cs)
          rows [])).
Proof. simpl. now rewrite category_loop_parts. Qed.

(** X15: the list of service categories is strictly increasing in the order of
    strings, hence without repetition, whatever the sheet holds. *)
Theorem service_categories_strictly_sorted (df : option (list CategoryRow.t)) :
  StronglySorted string_lt (categories_of df).
Proof.
  unfold categories_of. destruct df as [rows|]; [|constructor].
  rewrite load_service_categories_parts. simpl.
  apply sorted_strict, categories_loop_NoDup. constructor.
Qed.

(** X16: the listed categories are those of the rows that have a usable code
    and a usable category, no more and no fewer; so every category that
    the category map assigns to a code is listed. *)
Theorem service_categories_list_what_rows_name
    (rows : list CategoryRow.t) :
  (forall c,
      In c (categories_of (Some rows))
      <-> exists row, In row rows /\ categorised row = true
                      /\ category_of row = c)
  /\ forall code c,
      Dict.get code (category_map_of (Some rows)) = Some c ->
      In c (categories_of (Some rows)).
Proof.
  unfold categories_of, category_map_of.
  rewrite load_service_categories_parts. simpl.
  assert (Hiff : forall c,
             In c (sorted
                     (fold_left
                        (fun cs row =>
                           if categorised row
                           then set_add (category_of row) cs else cs)
                        rows []))
             <-> exists row, In row rows /\ categorised row = true
                             /\ category_of row = c).
  { intros c. rewrite sorted_In, categories_loop. simpl. tauto. }
  split; [exact Hiff|].
  intros code c Hget. apply Hiff.
  rewrite (set_loop_last categorised code_of category_of) in Hget.
  destruct (find _ (rev rows)) as [row|] eqn:Hfind; [|discriminate].
  injection Hget as <-. apply find_some in Hfind.
  destruct Hfind as [Hin Hrow]. apply andb_true_iff in Hrow.
  exists row. split; [now apply in_rev | tauto].
Qed.

(** X17: in both maps of the service-category loader a code that occurs on
    several rows keeps the value of the last usable one: the category of
    the last row with a usable category, the flag of the last row with a
    usable flag, each independently of the other column. *)
Theorem category_and_flag_of_last_usable_row
    (rows : list CategoryRow.t) (code : string) :
  Dict.get code (category_map_of (Some rows))
  = option_map category_of
      (find (fun row => categorised row && String.eqb (code_of row) code)
            (rev rows))
  /\ Dict.get code (shoppable_map_of (Some rows))
     = option_map flag_of
         (find (fun row => flagged row && String.eqb (code_of row) code)
               (rev rows)).
Proof.
  unfold category_map_of, shoppable_map_of.
  rewrite load_service_categories_parts. simpl.
  split; apply set_loop_last.
Qed.

Lemma has_code_true row :
  has_code row = true ->
  code_of row <> "" /\ code_of row <> "nan" /\ trimmed (code_of row).
Proof.
  unfold has_code. rewrite andb_true_iff, negb_true_iff.
  intros [Ht Hn]. apply String.eqb_neq in Hn.
  split; [intros E; rewrite E in Ht; discriminate|].
  split; [assumption | apply text_trimmed].
Qed.

(** X18: every shoppable flag is stored in upper case and is neither empty nor
    "NAN"; every stored category is trimmed and neither empty nor "nan";
    the codes of both maps are trimmed and neither empty nor "nan". *)
Theorem category_maps_are_clean
    (df : option (list CategoryRow.t)) (code : string) :
  (forall flag,
      Dict.get code (shoppable_map_of df) = Some flag ->
      Str.upper flag = flag /\ flag <> "" /\ flag <> "NAN"
      /\ code <> "" /\ code <> "nan" /\ trimmed code)
  /\ (forall c,
        Dict.get code (category_map_of df) = Some c ->
        trimmed c /\ c <> "" /\ c <> "nan"
        /\ code <> "" /\ code <> "nan" /\ trimmed code).
Proof.
  unfold category_map_of, shoppable_map_of.
  destruct df as [rows|]; [|split; intros x; discriminate].
  rewrite load_service_categories_parts. simpl. split.
  - intros flag. rewrite (set_loop_last flagged code_of flag_of).
    destruct (find _ (rev rows)) as [row|] eqn:Hfind; [|discriminate].
    intros [= <-]. apply find_some in Hfind. destruct Hfind as [_ Hrow].
    apply andb_true_iff in Hrow. destruct Hrow as [Hf Hc].
    apply String.eqb_eq in Hc. subst code.
    unfold flagged in Hf. rewrite !andb_true_iff, negb_true_iff in Hf.
    destruct Hf as (Hcode & Ht & Hn). apply String.eqb_neq in Hn.
    split; [apply upper_idem|].
    split; [intros E; rewrite E in Ht; discriminate|].
    split; [assumption | now apply has_code_true].
  - intros c. rewrite (set_loop_last categorised code_of category_of).
    destruct (find _ (rev rows)) as [row|] eqn:Hfind; [|discriminate].
    intros [= <-]. apply find_some in Hfind. destruct Hfind as [_ Hrow].
    apply andb_true_iff in Hrow. destruct Hrow as [Hf Hc].
    apply String.eqb_eq in Hc. subst code.
    unfold categorised in Hf. rewrite !andb_true_iff, negb_true_iff in Hf.
    destruct Hf as (Hcode & Ht & Hn). apply String.eqb_neq in Hn.
    split; [apply text_trimmed|].
    split; [intros E; rewrite E in Ht; discriminate|].
    split; [assumption | now apply has_code_true].
Qed.

End CategoriesMore.

(** ** The reference loaders, on success and on failure *)

Section ReferenceLoaders.
Context {B : Builtins}.

(** The loop over the facility sheet completes when every row it keeps has
    a bed count that [int] reads. *)
Lemma facility_loop_returns rows :
  (forall row,
      In row rows -> facility_kept row = true ->
      is_ok (beds (FacilityRow.beds_total row)) = true) ->
  forall acc, exists facility_map, foldM facility_step rows acc = Ok facility_map.
Proof.
  induction rows as [|r rows IH]; intros H acc; simpl; [eauto|].
  rewrite facility_step_unfold.
  destruct (facility_kept r) eqn:Hk.
  - unfold facility_info_of.
    pose proof (H r (or_introl eq_refl) Hk) as Hb.
    destruct (beds (FacilityRow.beds_total r)) as [b|e]; [|discriminate].
    simpl. apply IH. intros row Hin. apply H. now right.
  - simpl. apply IH. intros row Hin. apply H. now right.
Qed.

(** The loop of line 236 raises exactly where a summary does. *)
Lemma format_hospitals_is_ok fd hd :
  is_ok (format_hospitals fd hd)
  = forallb (fun kv => is_ok (summarize (snd kv))) hd.
Proof.
  unfold format_hospitals, Dict.items. generalize (@Dict.empty Hospital.t).
  induction hd as [|[k data] hd IH]; intros acc; simpl; [reflexivity|].
  unfold hospital_record. destruct (summarize data) as [s|e]; simpl.
  - apply IH.
  - reflexivity.
Qed.

(** Whether the run returns is decided by the pricing extract alone. *)
Lemma process_is_ok pricing fdf pdf cdf :
  is_ok (process_and_export_data pricing fdf pdf cdf)
  = match load_hospital_price_data pricing with
    | Ok hd => forallb (fun kv => is_ok (summarize (snd kv))) hd
    | Raise _ => false
    end.
Proof.
  unfold process_and_export_data.
  destruct (load_hospital_price_data pricing) as [hd|e]; simpl; [|reflexivity].
  destruct (load_service_categories cdf) as [[scm sm] sc].
  rewrite <- (format_hospitals_is_ok (load_facility_data fdf) hd).
  destruct (format_hospitals (load_facility_data fdf) hd); reflexivity.
Qed.

Lemma process_categories pricing fdf pdf cdf out :
  process_and_export_data pricing fdf pdf cdf = Ok out ->
  Output.service_category_map out = category_map_of cdf
  /\ Output.shoppable_map out = shoppable_map_of cdf
  /\ Output.service_categories out = categories_of cdf.
Proof.
  unfold process_and_export_data, category_map_of, shoppable_map_of,
    categories_of.
  intros H. apply bind_Ok in H. destruct H as (hd & _ & H).
  destruct (load_service_categories cdf) as [[scm sm] sc].
  apply bind_Ok in H. destruct H as (hs & _ & [= <-]). simpl. auto.
Qed.

(** C7: a sheet is [None] when reading it failed and the rows read
    otherwise. When reading fails each loader returns the empty mapping
    (the service-category loader two empty mappings and the empty list),
    and so does the facility loader when a row it keeps has a bed count
    that [int] rejects, the one place where a loop can raise. When nothing
    fails each loader returns its normal mapping: per provider number the
    dictionary of its last kept row, per code the description, category
    and flag of its last usable row, and the categories named, sorted. No
    failure of a reference file decides whether the run returns, and a run
    that returns carries what each loader gave: the names, the category
    maps and list as returned, and per facility the metadata of the
    facility map or, without an entry, the defaults. *)
Theorem reference_loaders_degrade_to_empty :
  (load_facility_data None = Dict.empty
   /\ load_procedure_names None = Dict.empty
   /\ load_service_categories None = (Dict.empty, Dict.empty, []))
  /\ (forall rows row e,
        In row rows -> facility_kept row = true ->
        beds (FacilityRow.beds_total row) = Raise e ->
        load_facility_data (Some rows) = Dict.empty)
  /\ (forall rows,
        (forall row,
            In row rows -> facility_kept row = true ->
            is_ok (beds (FacilityRow.beds_total row)) = true) ->
        forall p,
          match find (facility_row_of p) (rev rows) with
          | Some row =>
              exists info,
                facility_info_of row = Ok info
                /\ Dict.get p (load_facility_data (Some rows)) = Some info
          | None => Dict.get p (load_facility_data (Some rows)) = None
          end)
  /\ (forall rows code,
        Dict.get code (load_procedure_names (Some rows))
        = option_map
            (fun row => Cell.text (ProcedureRow.Short_Descriptor row))
            (find (describes code) (rev rows)))
  /\ (forall rows code,
        Dict.get code (category_map_of (Some rows))
        = option_map category_of
            (find (fun row => categorised row && String.eqb (code_of row) code)
                  (rev rows))
        /\ Dict.get code (shoppable_map_of (Some rows))
           = option_map flag_of
               (find (fun row => flagged row && String.eqb (code_of row) code)
                     (rev rows)))
  /\ (forall rows,
        StronglySorted string_lt (categories_of (Some rows))
        /\ forall c,
            In c (categories_of (Some rows))
            <-> exists row, In row rows /\ categorised row = true
                            /\ category_of row = c)
  /\ (forall pricing fdf pdf cdf,
        is_ok (process_and_export_data pricing fdf pdf cdf)
        = is_ok (process_and_export_data pricing None None None))
  /\ (forall pricing fdf pdf cdf out,
        process_and_export_data pricing fdf pdf cdf = Ok out ->
        Output.procedure_names out = load_procedure_names pdf
        /\ Output.service_category_map out = category_map_of cdf
        /\ Output.shoppable_map out = shoppable_map_of cdf
        /\ Output.service_categories out = categories_of cdf
        /\ forall p u,
            Dict.get p (Output.hospitals out) = Some u ->
            match Dict.get p (load_facility_data fdf) with
            | Some info => metadata_of info u
            | None => default_metadata p u
            end).
Proof.
  split; [repeat split|].
  split.
  { intros rows row e Hin Hkept Hbeds. simpl.
    destruct (foldM_raises facility_step rows row Hin)
      with (s := @Dict.empty FacilityInfo.t) as [e' ->]; [|reflexivity].
    intros m. rewrite facility_step_unfold, Hkept.
    unfold facility_info_of. rewrite Hbeds. simpl. eauto. }
  split.
  { intros rows Hrows p.
    destruct (facility_loop_returns rows Hrows Dict.empty) as [m Hm].
    pose proof (facility_loop_last rows m p Hm) as Hlast.
    simpl. rewrite Hm. exact Hlast. }
  split; [intros rows code; apply procedure_loop_last|].
  split.
  { intros rows code. unfold category_map_of, shoppable_map_of.
    rewrite load_service_categories_parts. simpl. split; apply set_loop_last. }
  split.
  { intros rows. unfold categories_of.
    rewrite load_service_categories_parts. simpl. split.
    - apply sorted_strict, categories_loop_NoDup. constructor.
    - intros c. rewrite sorted_In, categories_loop. simpl. tauto. }
  split; [intros pricing fdf pdf cdf; now rewrite !process_is_ok|].
  intros pricing fdf pdf cdf out Hout.
  destruct (process_Ok _ _ _ _ _ Hout) as (hd & Hhd & Hfmt & _ & Hnames).
  destruct (process_categories _ _ _ _ _ Hout) as (Hcm & Hsm & Hsc).
  repeat (split; [assumption|]).
  intros p u Hu.
  pose proof (format_hospitals_spec _ _ _ (load_wf _ _ Hhd) Hfmt p) as Hspec.
  destruct (Dict.get p hd) as [data|]; [|congruence].
  destruct Hspec as (u' & Hrec & Hget).
  assert (u' = u) by congruence. subst u'.
  destruct (Dict.get p (load_facility_data fdf)) as [info|] eqn:Hinfo.
  - apply hospital_record_Ok in Hrec. destruct Hrec as (s & _ & ->).
    rewrite Hinfo. unfold metadata_of. simpl. auto 10.
  - now apply (hospital_record_default _ _ _ _ Hinfo Hrec).
Qed.

End ReferenceLoaders.

(** C7 on [SampleSheets.broken_facilities], whose second row has the bed
    count "unknown": the ValueError of [int] empties the whole facility
    map, and the run over [Sample.distinct] returns all the same. *)
Lemma broken_sheet_witness :
  load_facility_data (B := DecimalLiterals.builtins)
    (Some SampleSheets.broken_facilities)
  = Dict.empty
  /\ is_ok (process_and_export_data (B := DecimalLiterals.builtins)
              Sample.distinct (Some SampleSheets.broken_facilities)
              (Some SampleSheets.procedures) None)
     = is_ok (process_and_export_data (B := DecimalLiterals.builtins)
                Sample.distinct None None None).
Proof.
  destruct (reference_loaders_degrade_to_empty (B := DecimalLiterals.builtins))
    as (_ & Hparse & _ & _ & _ & _ & Hrun & _).
  split; [|apply Hrun].
  apply (Hparse SampleSheets.broken_facilities
           (SampleSheets.facility (Some (Cell.Str "003"))
              (Some (Cell.Str "Mercy")) (Some (Cell.Int 2))
              (Some (Cell.Str "2A")) (Some (Cell.Str "unknown")))
           ValueError).
  - right. left. reflexivity.
  - vm_compute. reflexivity.
  - vm_compute. reflexivity.
Defined.

(** The run with the broken facility sheet: the facilities have the
    synthesized names, the procedure names are kept. *)
Example partial_enrichment :
  match process_and_export_data (B := DecimalLiterals.builtins)
          Sample.distinct (Some SampleSheets.broken_facilities)
          (Some SampleSheets.procedures) None with
  | Ok out =>
      map Hospital.name (Dict.values (Output.hospitals out))
      = ["Hospital 001"; "Hospital 002"]
      /\ Output.procedure_names out = [("99213", "Office visit")]
  | Raise _ => False
  end.
Proof. vm_compute. split; reflexivity. Qed.

(** ** The chunks, one by one *)

Lemma ceil_div (n c : nat) :
  (0 < c ->
   (n + c - 1) / c = n / c + (if n mod c =? 0 then 0 else 1))%nat.
Proof.
  intros Hc.
  pose proof (Nat.div_mod_eq n c) as E.
  pose proof (Nat.mod_upper_bound n c) as Hr.
  destruct (Nat.eqb_spec (n mod c) 0) as [Hz | Hnz].
  - symmetry. apply (Nat.div_unique _ _ _ (c - 1)); lia.
  - symmetry. apply (Nat.div_unique _ _ _ (n mod c - 1)); nia.
Qed.

(** The widths of the slices [range(0, n, c)] cuts: full ones, then what
    remains. *)
Lemma slice_widths (n c : nat) :
  (0 < c ->
   map (fun i => Nat.min c (n - i)) (range_step n c)
   = repeat c (n / c) ++ (if n mod c =? 0 then [] else [n mod c]))%nat.
Proof.
  intros Hc. unfold range_step. rewrite ceil_div by assumption.
  pose proof (Nat.div_mod_eq n c) as E.
  pose proof (Nat.mod_upper_bound n c) as Hr.
  rewrite seq_app, !map_app. f_equal.
  - rewrite map_map.
    rewrite (map_ext_in _ (fun _ => c)).
    + now rewrite map_const, length_seq.
    + intros k Hk. apply in_seq in Hk. nia.
  - destruct (Nat.eqb_spec (n mod c) 0) as [Hz | Hnz]; simpl; [reflexivity|].
    f_equal. nia.
Qed.

Lemma NoDup_app_disjoint {A : Type} (l1 l2 : list A) (x : A) :
  NoDup (l1 ++ l2) -> In x l1 -> In x l2 -> False.
Proof.
  induction l1 as [|a l1 IH]; simpl; [tauto|].
  intros Hnd [-> | Hin] H2.
  - inversion Hnd as [|? ? Hnotin _]; subst. apply Hnotin.
    apply in_or_app. now right.
  - inversion Hnd; subst. eauto.
Qed.

Lemma firstn_incl {A : Type} (a b : nat) (l : list A) (x : A) :
  (a <= b)%nat -> In x (firstn a l) -> In x (firstn b l).
Proof.
  intros Hab Hin. replace b with (a + (b - a))%nat by lia.
  rewrite firstn_add. apply in_or_app. now left.
Qed.

Lemma slice_in_prefix {A : Type} (c a : nat) (l : list A) (x : A) :
  In x (firstn c (skipn a l)) -> In x (firstn (a + c) l).
Proof. intros H. rewrite firstn_add. apply in_or_app. now right. Qed.

Lemma slice_in_suffix {A : Type} (c a b : nat) (l : list A) (x : A) :
  (b <= a)%nat -> In x (firstn c (skipn a l)) -> In x (skipn b l).
Proof.
  intros Hba H. replace a with ((a - b) + b)%nat in H by lia.
  rewrite <- skipn_skipn in H.
  pose proof (firstn_skipn c (skipn (a - b) (skipn b l))) as E.
  assert (Hin : In x (skipn (a - b) (skipn b l))).
  { rewrite <- E. apply in_or_app. now left. }
  rewrite <- (firstn_skipn (a - b) (skipn b l)). apply in_or_app. now right.
Qed.

(** Two slices of a list without repetition that share an element start at
    the same place. *)
Lemma slices_disjoint {A : Type} (c i j : nat) (l : list A) (x : A) :
  NoDup l ->
  In x (firstn c (skipn (i * c) l)) -> In x (firstn c (skipn (j * c) l)) ->
  i = j.
Proof.
  intros Hnd Hi Hj.
  destruct (Nat.lt_trichotomy i j) as [Hlt | [Heq | Hgt]]; [|assumption|];
    exfalso; rewrite <- (firstn_skipn (Nat.max i j * c) l) in Hnd.
  - apply (NoDup_app_disjoint _ _ x Hnd).
    + apply (firstn_incl (i * c + c)); [nia | now apply slice_in_prefix].
    + apply (slice_in_suffix c (j * c)); [nia | assumption].
  - apply (NoDup_app_disjoint _ _ x Hnd).
    + apply (firstn_incl (j * c + c)); [nia | now apply slice_in_prefix].
    + apply (slice_in_suffix c (i * c)); [nia | assumption].
Qed.

Fixpoint increasing (l : list string) : bool :=
  match l with
  | a :: (b :: _) as t => String.ltb a b && increasing t
  | _ => true
  end.

Lemma increasing_sorted l : increasing l = true -> StronglySorted string_lt l.
Proof.
  intros H. apply Sorted_StronglySorted.
  - intros a b c. apply string_lt_trans.
  - induction l as [|a l IH]; [constructor|].
    destruct l as [|b l]; [repeat constructor|].
    change (String.ltb a b && increasing (b :: l) = true) in H.
    apply andb_true_iff in H. destruct H as [Hab Hrest].
    constructor; [now apply IH|].
    constructor. exact Hab.
Qed.

Lemma sorted_prefix {A : Type} (R : A -> A -> Prop) (l1 l2 : list A) :
  StronglySorted R (l1 ++ l2) -> StronglySorted R l1.
Proof.
  induction l1 as [|a l1 IH]; simpl; intros H; [constructor|].
  apply StronglySorted_inv in H. destruct H as [Hs Ha].
  constructor; [now apply IH|].
  apply Forall_app in Ha. tauto.
Qed.

Definition chunk_name (k : nat) : string :=
  ("hospitals_" ++ format_03d k ++ ".json")%string.

Lemma first_thousand_names_increase :
  StronglySorted string_lt (map chunk_name (seq 0 1000)).
Proof. apply increasing_sorted. vm_compute. reflexivity. Qed.

Lemma sorted_suffix {A : Type} (R : A -> A -> Prop) (l1 l2 : list A) :
  StronglySorted R (l1 ++ l2) -> StronglySorted R l2.
Proof.
  induction l1 as [|a l1 IH]; simpl; intros H; [assumption|].
  apply StronglySorted_inv in H. now apply IH.
Qed.

Section SplitMore.
Context {V : Type}.
Implicit Types hospitals : Dict.t V.

Lemma chunk_files_spec hospitals :
  Dict.wf hospitals ->
  chunk_files hospitals
  = map (fun k => (chunk_name k,
                   firstn chunk_size (skipn (k * chunk_size) hospitals)))
        (seq 0 ((List.length hospitals + chunk_size - 1) / chunk_size)).
Proof.
  intros Hwf. unfold chunk_files, range_step, Dict.items.
  rewrite map_map. apply map_ext. intros k. f_equal.
  - unfold chunk_filename, chunk_name. rewrite Nat.div_mul; [reflexivity|].
    unfold chunk_size. lia.
  - now apply chunk_at_slice.
Qed.

Lemma chunk_file_wf hospitals f :
  Dict.wf hospitals -> In f (chunk_files hospitals) -> Dict.wf (snd f).
Proof.
  intros Hwf Hin. rewrite chunk_files_spec in Hin by assumption.
  apply in_map_iff in Hin. destruct Hin as [k [<- _]]. cbn [snd].
  now apply slice_distinct.
Qed.

Lemma chunk_file_entry hospitals f k v :
  Dict.wf hospitals -> In f (chunk_files hospitals) ->
  In (k, v) (snd f) -> In (k, v) hospitals.
Proof.
  intros Hwf Hin Hkv. rewrite <- (chunks_concat hospitals Hwf).
  apply in_concat. exists (snd f). split; [now apply in_map | assumption].
Qed.

(** X19: every chunk file but possibly the last holds exactly 1000
    facilities, the last one holds the remainder when the number of
    facilities is not a multiple of 1000; so no file is empty, none holds
    more than 1000 facilities, and a mapping without facilities gives no
    file at all. *)
Theorem chunks_are_full_but_the_last hospitals :
  Dict.wf hospitals ->
  let n := List.length hospitals in
  let files := chunk_files hospitals in
  map (fun f => Dict.len (snd f)) files
  = (repeat chunk_size (n / chunk_size)
     ++ (if n mod chunk_size =? 0 then [] else [n mod chunk_size]))%nat
  /\ Forall (fun f => (1 <= Dict.len (snd f) <= chunk_size)%nat) files
  /\ (files = [] <-> hospitals = []).
Proof.
  intros Hwf n files. subst n files.
  assert (Hc : (0 < chunk_size)%nat) by (unfold chunk_size; lia).
  assert (Hsizes : map (fun f => Dict.len (snd f)) (chunk_files hospitals)
            = (repeat chunk_size (List.length hospitals / chunk_size)
               ++ (if List.length hospitals mod chunk_size =? 0 then []
                   else [List.length hospitals mod chunk_size]))%nat).
  { rewrite chunk_sizes by assumption. now apply slice_widths. }
  split; [exact Hsizes|].
  pose proof (Nat.mod_upper_bound (List.length hospitals) chunk_size) as Hr.
  split.
  - apply Forall_map with (f := fun f => Dict.len (snd f))
                          (P := fun s => (1 <= s <= chunk_size)%nat).
    rewrite Hsizes. apply Forall_app. split.
    + apply Forall_forall. intros s Hs. apply repeat_spec in Hs. lia.
    + destruct (Nat.eqb_spec (List.length hospitals mod chunk_size) 0);
        [apply Forall_nil|].
      apply Forall_cons; [lia | apply Forall_nil].
  - split.
    + intros Hnil. rewrite Hnil in Hsizes. cbn [map] in Hsizes.
      symmetry in Hsizes. apply app_eq_nil in Hsizes.
      destruct Hsizes as [Hfull Hrest].
      destruct (Nat.eqb_spec (List.length hospitals mod chunk_size) 0)
        as [Hz|]; [|discriminate].
      assert (Hq : (List.length hospitals / chunk_size = 0)%nat).
      { destruct (List.length hospitals / chunk_size)%nat; [reflexivity|].
        discriminate. }
      pose proof (Nat.div_mod_eq (List.length hospitals) chunk_size) as E.
      rewrite Hq, Hz in E. apply length_zero_iff_nil. lia.
    + intros ->. reflexivity.
Qed.

(** X20: a facility of the mapping is in a chunk file, with the record it
    has in the mapping; the chunk files hold nothing else; and no provider
    number is in two files. *)
Theorem every_facility_in_exactly_one_chunk hospitals :
  Dict.wf hospitals ->
  let files := chunk_files hospitals in
  (forall k v,
     Dict.get k hospitals = Some v
     <-> exists f, In f files /\ Dict.get k (snd f) = Some v)
  /\ (forall f g k,
        In f files -> In g files ->
        Dict.get k (snd f) <> None -> Dict.get k (snd g) <> None ->
        f = g).
Proof.
  intros Hwf files. subst files. split.
  - intros k v. split.
    + intros Hget. apply DictMore.get_In in Hget.
      rewrite <- (chunks_concat hospitals Hwf) in Hget.
      apply in_concat in Hget. destruct Hget as [chunk [Hchunk Hkv]].
      apply in_map_iff in Hchunk. destruct Hchunk as [f [<- Hf]].
      exists f. split; [assumption|].
      apply DictMore.In_get; [now apply (chunk_file_wf hospitals)|assumption].
    + intros [f [Hf Hget]]. apply DictMore.In_get; [assumption|].
      apply (chunk_file_entry hospitals f); [assumption..|].
      now apply DictMore.get_In.
  - intros f g k Hf Hg Hkf Hkg.
    destruct (Dict.get k (snd f)) as [v|] eqn:Ef; [|congruence].
    destruct (Dict.get k (snd g)) as [w|] eqn:Eg; [|congruence].
    apply DictMore.get_In in Ef, Eg.
    assert (Hv : Dict.get k hospitals = Some v).
    { apply DictMore.In_get; [assumption|].
      now apply (chunk_file_entry hospitals f). }
    assert (Hw : Dict.get k hospitals = Some w).
    { apply DictMore.In_get; [assumption|].
      now apply (chunk_file_entry hospitals g). }
    assert (w = v) by congruence. subst w.
    rewrite chunk_files_spec in Hf, Hg by assumption.
    apply in_map_iff in Hf, Hg.
    destruct Hf as [i [<- _]]. destruct Hg as [j [<- _]].
    cbn [snd] in Ef, Eg.
    assert (i = j).
    { apply (slices_disjoint chunk_size i j hospitals (k, v));
        [|assumption..].
      apply (NoDup_map_inv fst). exact Hwf. }
    now subst.
Qed.

(** X21: the chunk files' names sort, as text, in the order of the chunk
    numbers exactly when there are at most 1000 files, that is at most
    1,000,000 facilities: the number is padded to three digits only, and
    hospitals_1000.json sorts before hospitals_999.json. *)
Theorem chunk_names_sorted_up_to_a_thousand hospitals :
  StronglySorted string_lt (map fst (chunk_files hospitals))
  <-> (List.length (chunk_files hospitals) <= 1000)%nat.
Proof.
  rewrite <- (length_map fst (chunk_files hospitals)).
  rewrite chunk_names. fold chunk_name.
  change (fun k => ("hospitals_" ++ format_03d k ++ ".json")%string)
    with chunk_name.
  rewrite length_map, length_seq.
  set (m := ((List.length hospitals + chunk_size - 1) / chunk_size)%nat).
  clearbody m. split.
  - intros Hs.
    destruct (Nat.le_gt_cases m 1000) as [Hle | Hgt]; [assumption|].
    exfalso.
    replace m with (999 + (2 + (m - 1001)))%nat in Hs by lia.
    rewrite seq_app, map_app in Hs. apply sorted_suffix in Hs.
    rewrite (seq_app 2), map_app in Hs.
    apply sorted_prefix in Hs.
    change (seq (0 + 999) 2) with [999; 1000]%nat in Hs.
    cbn [map] in Hs.
    apply StronglySorted_inv in Hs. destruct Hs as [_ Hhd].
    apply Forall_inv in Hhd. unfold string_lt in Hhd.
    assert (Hno : String.ltb (chunk_name 999) (chunk_name 1000) = false)
      by (vm_compute; reflexivity).
    congruence.
  - intros Hle.
    pose proof first_thousand_names_increase as Hs.
    replace 1000%nat with (m + (1000 - m))%nat in Hs by lia.
    rewrite seq_app, map_app in Hs. now apply sorted_prefix in Hs.
Qed.

End SplitMore.

(** * The file server (src/server.py)

    [copyfile] moves a file to the client buffer by buffer. The file and the
    connection are its environment: the model is given what each call of
    [source.read] and of [outputfile.write] does, and yields what the method
    does in return: how it ends, which buffers the connection took, and the
    lines it prints on stderr (the prints themselves are taken not to
    fail). *)

Module Server.

(** What the two handlers of [copyfile] tell apart in an exception:
    [OSError] with its subclasses ([BrokenPipeError] and
    [ConnectionResetError] among them), the other subclasses of
    [Exception], and what is a [BaseException] only ([KeyboardInterrupt],
    [SystemExit]). *)
Inductive exn_class : Type :=
| OSErrorClass
| ExceptionClass
| BaseExceptionClass.

Record exn : Type := { kind : exn_class; message : string }.

Definition is_OSError (e : exn) : bool :=
  match kind e with OSErrorClass => true | _ => false end.

Definition is_Exception (e : exn) : bool :=
  match kind e with BaseExceptionClass => false | _ => true end.

(** One call [source.read(buffer_size)]. *)
Inductive read_result : Type :=
| Data (buf : list Byte.byte)
| ReadRaises (e : exn).

(** The lines of lines 45, 47, 49 and 51, with the figure or the exception
    printed. *)
Inductive line : Type :=
| Sent (megabytes : Z)
| ConnectionLost (megabytes : Z) (e : exn)
| TransferComplete (megabytes : Z)
| ErrorCopying (e : exn).

Inductive outcome : Type :=
| Returns
| Raises (e : exn).

Record run : Type :=
  { result : outcome;
    written : list (list Byte.byte);
    stderr : list line }.

Definition buffer_size : Z := 256 * 1024.

Section Copyfile.

(** [outputfile.write(buf)], after the buffers the connection has taken
    already: it returns, or it raises. *)
Variable write : list (list Byte.byte) -> list Byte.byte -> option exn.

(** Lines 50-52: an [Exception] is reported and raised again; what is not
    an [Exception] passes the handler. *)
Definition on_exception (e : exn) (written : list (list Byte.byte))
    (stderr : list line) : run :=
  {| result := Raises e;
     written := written;
     stderr := if is_Exception e then stderr ++ [ErrorCopying e]
               else stderr |}.

(** Line 49, after the [break] of line 39. *)
Definition complete (total_sent : Z) (written : list (list Byte.byte))
    (stderr : list line) : run :=
  {| result := Returns;
     written := written;
     stderr := stderr ++ [TransferComplete (total_sent / (1024 * 1024))] |}.

(** Lines 36-48. [source] lists what the successive reads do; once it is
    exhausted the file is at its end and [read] returns [b'']. *)
Fixpoint loop (source : list read_result) (total_sent : Z)
    (written : list (list Byte.byte)) (stderr : list line) : run :=
  match source with
  | [] => complete total_sent written stderr
  | ReadRaises e :: _ => on_exception e written stderr
  | Data [] :: _ => complete total_sent written stderr
  | Data buf :: source =>
      match write written buf with
      | Some e =>
          if is_OSError e then
            {| result := Returns;
               written := written;
               stderr :=
                 stderr ++ [ConnectionLost (total_sent / (1024 * 1024)) e] |}
          else on_exception e written stderr
      | None =>
          let total_sent := total_sent + Z.of_nat (List.length buf) in
          let stderr :=
            if total_sent mod (50 * 1024 * 1024) =? 0
            then stderr ++ [Sent (total_sent / (1024 * 1024))]
            else stderr in
          loop source total_sent (written ++ [buf]) stderr
      end
  end.

(** Lines 30-52. *)
Definition copyfile (source : list read_result) : run :=
  loop source 0 [] [].

End Copyfile.

(** The number of bytes of the buffers. *)
Definition bytes (bufs : list (list Byte.byte)) : Z :=
  sum_Z (map (fun buf => Z.of_nat (List.length buf)) bufs).

(** The last line printed. *)
Definition last_line (r : run) : option line := last (map Some (stderr r)) None.

Lemma bytes_snoc bufs buf :
  bytes (bufs ++ [buf]) = bytes bufs + Z.of_nat (List.length buf).
Proof. unfold bytes. rewrite map_app. cbn [map]. apply sum_Z_snoc. Qed.

Lemma last_snoc {A : Type} (l : list A) (x d : A) : last (l ++ [x]) d = x.
Proof.
  induction l as [|a l IH]; [reflexivity|].
  simpl. destruct (l ++ [x]) eqn:E; [|exact IH].
  now destruct l.
Qed.

Lemma last_line_snoc res w log l :
  last_line {| result := res; written := w; stderr := log ++ [l] |} = Some l.
Proof.
  unfold last_line. cbn [stderr]. rewrite map_app. cbn [map].
  apply last_snoc.
Qed.

Section CopyfileFacts.
Variable write : list (list Byte.byte) -> list Byte.byte -> option exn.

Lemma loop_Data_cons source x buf total_sent w log :
  loop write (Data (x :: buf) :: source) total_sent w log
  = match write w (x :: buf) with
    | Some e =>
        if is_OSError e then
          {| result := Returns;
             written := w;
             stderr := log ++ [ConnectionLost (total_sent / (1024 * 1024)) e] |}
        else on_exception e w log
    | None =>
        loop write source (total_sent + Z.of_nat (List.length (x :: buf)))
          (w ++ [x :: buf])
          (if (total_sent + Z.of_nat (List.length (x :: buf)))
                mod (50 * 1024 * 1024) =? 0
           then log ++ [Sent ((total_sent + Z.of_nat (List.length (x :: buf)))
                              / (1024 * 1024))]
           else log)
    end.
Proof. reflexivity. Qed.

(** What the loop keeps: the buffers taken are the first reads, in order,
    and the running total is their size. *)
Lemma loop_prefix source :
  forall total_sent w log,
    total_sent = bytes w ->
    let r := loop write source total_sent w log in
    (exists more rest,
       written r = w ++ more /\ source = map Data more ++ rest)
    /\ (result r = Returns ->
        last_line r = Some (TransferComplete (bytes (written r) / (1024 * 1024)))
        \/ exists e,
             is_OSError e = true
             /\ last_line r
                = Some (ConnectionLost (bytes (written r) / (1024 * 1024)) e)).
Proof.
  induction source as [|rd source IH]; intros total_sent w log Htotal.
  - cbn [loop]. unfold complete. split.
    + exists [], []. cbn [written]. now rewrite app_nil_r.
    + intros _. left. rewrite last_line_snoc. cbn [written]. now subst.
  - destruct rd as [[|x buf] | e].
    + cbn [loop]. unfold complete. split.
      * exists [], (Data [] :: source). cbn [written]. now rewrite app_nil_r.
      * intros _. left. rewrite last_line_snoc. cbn [written]. now subst.
    + cbv zeta. rewrite loop_Data_cons.
      destruct (write w (x :: buf)) as [e|] eqn:Ew.
      * destruct (is_OSError e) eqn:Eos.
        -- split.
           ++ exists [], (Data (x :: buf) :: source). cbn [written].
              now rewrite app_nil_r.
           ++ intros _. right. exists e. split; [assumption|].
              rewrite last_line_snoc. cbn [written]. now subst.
        -- unfold on_exception. split.
           ++ exists [], (Data (x :: buf) :: source). cbn [written].
              now rewrite app_nil_r.
           ++ cbn [result]. discriminate.
      * specialize (IH (total_sent + Z.of_nat (List.length (x :: buf)))
                       (w ++ [x :: buf])
                       (if (total_sent + Z.of_nat (List.length (x :: buf)))
                             mod (50 * 1024 * 1024) =? 0
                        then log ++ [Sent ((total_sent
                                            + Z.of_nat (List.length (x :: buf)))
                                           / (1024 * 1024))]
                        else log)).
        cbv zeta in IH.
        destruct IH as [[more [rest [Hw Hsrc]]] Hlast].
        { rewrite bytes_snoc. now subst. }
        split; [|exact Hlast].
        exists ((x :: buf) :: more), rest. split.
        -- rewrite Hw, <- app_assoc. reflexivity.
        -- rewrite Hsrc. reflexivity.
    + cbn [loop]. unfold on_exception. split.
      * exists [], (ReadRaises e :: source). cbn [written].
        now rewrite app_nil_r.
      * cbn [result]. discriminate.
Qed.

Lemma loop_raises source :
  forall total_sent w log e,
    result (loop write source total_sent w log) = Raises e ->
    (In (ReadRaises e) source
     \/ (is_OSError e = false /\ exists taken buf, write taken buf = Some e))
    /\ (is_Exception e = true ->
        last_line (loop write source total_sent w log)
        = Some (ErrorCopying e)).
Proof.
  induction source as [|rd source IH]; intros total_sent w log e.
  - cbn. discriminate.
  - destruct rd as [[|x buf] | e'].
    + cbn. discriminate.
    + rewrite loop_Data_cons.
      destruct (write w (x :: buf)) as [e'|] eqn:Ew.
      * destruct (is_OSError e') eqn:Eos; [discriminate|].
        unfold on_exception. cbn [result]. intros [= ->]. split.
        -- right. split; [assumption|]. now exists w, (x :: buf).
        -- intros Hex. rewrite Hex. apply last_line_snoc.
      * intros Hr. apply IH in Hr. destruct Hr as [[Hin | Hw] Hlast].
        -- split; [left; now right | exact Hlast].
        -- split; [now right | exact Hlast].
    + cbn [loop]. unfold on_exception. cbn [result]. intros [= ->]. split.
      * left. now left.
      * intros Hex. rewrite Hex. apply last_line_snoc.
Qed.

Lemma loop_complete bufs :
  (forall taken buf, write taken buf = None) ->
  Forall (fun buf => buf <> []) bufs ->
  forall total_sent w log,
    let r := loop write (map Data bufs) total_sent w log in
    result r = Returns
    /\ written r = w ++ bufs
    /\ last_line r
       = Some (TransferComplete ((total_sent + bytes bufs) / (1024 * 1024))).
Proof.
  intros Hwrite Hbufs.
  induction Hbufs as [|buf bufs Hbuf _ IH]; intros total_sent w log.
  - cbv zeta. cbn [map loop]. unfold complete. cbn [result written].
    rewrite app_nil_r, last_line_snoc. repeat split.
    unfold bytes, sum_Z. cbn [map fold_left]. now rewrite Z.add_0_r.
  - destruct buf as [|x buf]; [congruence|].
    cbv zeta. cbn [map]. rewrite loop_Data_cons, Hwrite.
    match goal with
    | |- context [loop write _ ?t ?w' ?l] =>
        specialize (IH t w' l)
    end.
    cbv zeta in IH. destruct IH as [Hres [Hw Hlast]].
    split; [exact Hres|]. split.
    + rewrite Hw, <- app_assoc. reflexivity.
    + rewrite Hlast. do 3 f_equal.
      unfold bytes. cbn [map]. rewrite !sum_Z_fold_right. cbn [fold_right].
      lia.
Qed.

Lemma whole_megabytes (j : nat) :
  buffer_size * Z.of_nat j / (1024 * 1024) = Z.of_nat j / 4.
Proof.
  change (1024 * 1024) with (buffer_size * 4).
  apply Z.div_mul_cancel_l; discriminate.
Qed.

Lemma progress_due (j : nat) :
  (buffer_size * Z.of_nat j mod (50 * 1024 * 1024) =? 0)
  = (j mod 200 =? 0)%nat.
Proof.
  change (50 * 1024 * 1024) with (buffer_size * 200).
  rewrite Z.mul_mod_distr_l by discriminate.
  change 200 with (Z.of_nat 200). rewrite <- Nat2Z.inj_mod.
  destruct (Nat.eqb_spec (j mod 200) 0) as [E | E].
  - rewrite E. reflexivity.
  - apply Z.eqb_neq. unfold buffer_size. lia.
Qed.

(** With reads that fill the buffer, the progress line is due after every
    200th buffer. *)
Lemma loop_full_buffers bufs :
  (forall taken buf, write taken buf = None) ->
  Forall (fun buf => Z.of_nat (List.length buf) = buffer_size) bufs ->
  forall (i : nat) w log,
    loop write (map Data bufs) (buffer_size * Z.of_nat i) w log
    = {| result := Returns;
         written := w ++ bufs;
         stderr :=
           log
           ++ map (fun j => Sent (Z.of_nat j / 4))
                (filter (fun j => j mod 200 =? 0)%nat
                   (seq (S i) (List.length bufs)))
           ++ [TransferComplete (Z.of_nat (i + List.length bufs) / 4)] |}.
Proof.
  intros Hwrite Hbufs.
  induction Hbufs as [|buf bufs Hbuf _ IH]; intros i w log.
  - cbn [map loop List.length seq filter]. unfold complete.
    rewrite app_nil_r, whole_megabytes, Nat.add_0_r. reflexivity.
  - destruct buf as [|x buf]; [discriminate|].
    cbn [map]. rewrite loop_Data_cons, Hwrite, Hbuf.
    replace (buffer_size * Z.of_nat i + buffer_size)
      with (buffer_size * Z.of_nat (S i)) by lia.
    rewrite progress_due, whole_megabytes, IH.
    cbn [List.length seq filter].
    replace (S i + List.length bufs)%nat with (i + S (List.length bufs))%nat
      by lia.
    f_equal.
    + rewrite <- app_assoc. reflexivity.
    + destruct (S i mod 200 =? 0)%nat.
      * cbn [map]. rewrite <- app_assoc. reflexivity.
      * reflexivity.
Qed.

End CopyfileFacts.

End Server.

(** X22: whatever the file and the connection do, the buffers the
    connection took are the first buffers read, in the order read, none
    left out and none twice; and when [copyfile] returns, the last line it
    printed reports the whole megabytes of exactly these buffers, as a
    complete transfer or as a connection lost on an [OSError]. *)
Theorem copyfile_sends_the_first_reads_in_order
    (write : list (list Byte.byte) -> list Byte.byte -> option Server.exn)
    (source : list Server.read_result) :
  let r := Server.copyfile write source in
  (exists rest, source = map Server.Data (Server.written r) ++ rest)
  /\ (Server.result r = Server.Returns ->
      Server.last_line r
      = Some (Server.TransferComplete
                (Server.bytes (Server.written r) / (1024 * 1024)))
      \/ exists e,
           Server.is_OSError e = true
           /\ Server.last_line r
              = Some (Server.ConnectionLost
                        (Server.bytes (Server.written r) / (1024 * 1024)) e)).
Proof.
  intros r. subst r. unfold Server.copyfile.
  destruct (Server.loop_prefix write source 0 [] [] eq_refl)
    as [[more [rest [Hw Hsrc]]] Hlast].
  split; [|exact Hlast].
  exists rest. rewrite Hw. exact Hsrc.
Qed.

(** X23: [copyfile] raises only what a read raised, or what a write raised
    that is not an [OSError]: a connection lost while writing is never
    raised. What it raises that is an [Exception] it has reported on its
    last line. *)
Theorem copyfile_raises_only_what_it_cannot_handle
    (write : list (list Byte.byte) -> list Byte.byte -> option Server.exn)
    (source : list Server.read_result) (e : Server.exn) :
  Server.result (Server.copyfile write source) = Server.Raises e ->
  (In (Server.ReadRaises e) source
   \/ (Server.is_OSError e = false
       /\ exists taken buf, write taken buf = Some e))
  /\ (Server.is_Exception e = true ->
      Server.last_line (Server.copyfile write source)
      = Some (Server.ErrorCopying e)).
Proof. apply Server.loop_raises. Qed.

(** X24: when no read raises or comes back empty before the end of the file
    and the connection takes every buffer, [copyfile] returns, the
    connection has taken all the buffers of the file in order, and the last
    line reports the whole megabytes of the file. *)
Theorem copyfile_completes_when_nothing_fails
    (write : list (list Byte.byte) -> list Byte.byte -> option Server.exn)
    (bufs : list (list Byte.byte)) :
  (forall taken buf, write taken buf = None) ->
  Forall (fun buf => buf <> []) bufs ->
  let r := Server.copyfile write (map Server.Data bufs) in
  Server.result r = Server.Returns
  /\ Server.written r = bufs
  /\ Server.last_line r
     = Some (Server.TransferComplete (Server.bytes bufs / (1024 * 1024))).
Proof.
  intros Hwrite Hbufs r. subst r. unfold Server.copyfile.
  exact (Server.loop_complete write bufs Hwrite Hbufs 0 [] []).
Qed.

(** X25: when every read fills the buffer of 256 KiB and the connection
    takes every buffer, a progress line is printed after each 200th buffer
    and after no other, with the multiple of 50 MB reached, and the last
    line reports a quarter megabyte per buffer, rounded down. *)
Theorem copyfile_reports_every_fifty_megabytes
    (write : list (list Byte.byte) -> list Byte.byte -> option Server.exn)
    (bufs : list (list Byte.byte)) :
  (forall taken buf, write taken buf = None) ->
  Forall (fun buf => Z.of_nat (List.length buf) = Server.buffer_size) bufs ->
  Server.stderr (Server.copyfile write (map Server.Data bufs))
  = map (fun j => Server.Sent (Z.of_nat j / 4))
      (filter (fun j => j mod 200 =? 0)%nat (seq 1 (List.length bufs)))
    ++ [Server.TransferComplete (Z.of_nat (List.length bufs) / 4)].
Proof.
  intros Hwrite Hbufs. unfold Server.copyfile.
  change 0 with (Server.buffer_size * Z.of_nat 0).
  rewrite (Server.loop_full_buffers write bufs Hwrite Hbufs 0%nat [] []).
  reflexivity.
Qed.

Module SampleTransfer.

(** A connection that takes everything. *)
Definition open_connection (taken : list (list Byte.byte))
    (buf : list Byte.byte) : option Server.exn := None.

(** A connection the client closes after two buffers. *)
Definition closed_after_two (taken : list (list Byte.byte))
    (buf : list Byte.byte) : option Server.exn :=
  if (List.length taken <? 2)%nat then None
  else Some {| Server.kind := Server.OSErrorClass;
               Server.message := "[Errno 32] Broken pipe" |}.

Definition disk_error : Server.exn :=
  {| Server.kind := Server.OSErrorClass;
     Server.message := "[Errno 5] Input/output error" |}.

Definition small_file : list (list Byte.byte) :=
  [[Byte.x7b; Byte.x22]; [Byte.x61; Byte.x22]; [Byte.x7d]].

(** A read of 256 KiB. *)
Definition full_buffer : list Byte.byte :=
  repeat Byte.x20 (Z.to_nat Server.buffer_size).

(** A file of 100 MB. *)
Definition large_file : list (list Byte.byte) := repeat full_buffer 400.

Lemma full_buffer_length :
  Z.of_nat (List.length full_buffer) = Server.buffer_size.
Proof. unfold full_buffer. rewrite repeat_length. now apply Z2Nat.id. Qed.

Lemma large_file_full :
  Forall (fun buf => Z.of_nat (List.length buf) = Server.buffer_size)
    large_file.
Proof.
  apply Forall_forall. intros buf Hin. apply repeat_spec in Hin. subst buf.
  exact full_buffer_length.
Qed.

End SampleTransfer.

(** X22 on a connection closed after two of three buffers. *)
Lemma closed_connection_witness :
  let r := Server.copyfile SampleTransfer.closed_after_two
             (map Server.Data SampleTransfer.small_file) in
  Server.result r = Server.Returns
  /\ Server.written r = [[Byte.x7b; Byte.x22]; [Byte.x61; Byte.x22]]
  /\ ((exists rest,
         map Server.Data SampleTransfer.small_file
         = map Server.Data (Server.written r) ++ rest)
      /\ (Server.result r = Server.Returns ->
          Server.last_line r
          = Some (Server.TransferComplete
                    (Server.bytes (Server.written r) / (1024 * 1024)))
          \/ exists e,
               Server.is_OSError e = true
               /\ Server.last_line r
                  = Some (Server.ConnectionLost
                            (Server.bytes (Server.written r) / (1024 * 1024))
                            e))).
Proof.
  cbv zeta. split; [reflexivity|]. split; [reflexivity|].
  exact (copyfile_sends_the_first_reads_in_order
           SampleTransfer.closed_after_two
           (map Server.Data SampleTransfer.small_file)).
Defined.

(** X23 on a file the disk fails to give after its first buffer. *)
Lemma failing_read_witness :
  Server.result
    (Server.copyfile SampleTransfer.open_connection
       [Server.Data [Byte.x7b]; Server.ReadRaises SampleTransfer.disk_error])
  = Server.Raises SampleTransfer.disk_error
  /\ Server.is_Exception SampleTransfer.disk_error = true
  /\ Server.last_line
       (Server.copyfile SampleTransfer.open_connection
          [Server.Data [Byte.x7b];
           Server.ReadRaises SampleTransfer.disk_error])
     = Some (Server.ErrorCopying SampleTransfer.disk_error).
Proof.
  split; [reflexivity|]. split; [reflexivity|].
  apply (copyfile_raises_only_what_it_cannot_handle
           SampleTransfer.open_connection
           [Server.Data [Byte.x7b];
            Server.ReadRaises SampleTransfer.disk_error]
           SampleTransfer.disk_error);
    reflexivity.
Defined.

(** X24 on a file of three short buffers. *)
Lemma small_file_witness :
  Forall (fun buf => buf <> []) SampleTransfer.small_file
  /\ (let r := Server.copyfile SampleTransfer.open_connection
                 (map Server.Data SampleTransfer.small_file) in
      Server.result r = Server.Returns
      /\ Server.written r = SampleTransfer.small_file
      /\ Server.last_line r
         = Some (Server.TransferComplete
                   (Server.bytes SampleTransfer.small_file / (1024 * 1024)))).
Proof.
  assert (H : Forall (fun buf : list Byte.byte => buf <> [])
                SampleTransfer.small_file)
    by (repeat constructor; discriminate).
  split; [exact H|].
  apply (copyfile_completes_when_nothing_fails
           SampleTransfer.open_connection SampleTransfer.small_file);
    [reflexivity | exact H].
Defined.

(** X25 on a file of 100 MB: two progress lines, then the final line. *)
Lemma large_file_witness :
  Server.stderr
    (Server.copyfile SampleTransfer.open_connection
       (map Server.Data SampleTransfer.large_file))
  = map (fun j => Server.Sent (Z.of_nat j / 4)) [200; 400]%nat
    ++ [Server.TransferComplete (Z.of_nat 400 / 4)].
Proof.
  rewrite (copyfile_reports_every_fifty_megabytes
             SampleTransfer.open_connection SampleTransfer.large_file
             (fun _ _ => eq_refl) SampleTransfer.large_file_full).
  unfold SampleTransfer.large_file. rewrite repeat_length.
  reflexivity.
Defined.

(** * The further properties on sample data *)

#[local] Existing Instance DecimalLiterals.builtins.

Module SampleMore.

(** Facility 001 three times: named, named again with other figures, and
    last without a name. *)
Definition repeated_facilities : list FacilityRow.t :=
  [ SampleSheets.facility (Some (Cell.Str "001"))
      (Some (Cell.Str "General Hospital"))
      (Some (Cell.Float 1)) (Some (Cell.Str "01")) (Some (Cell.Float 120));
    SampleSheets.facility (Some (Cell.Str " 001")) (Some (Cell.Str "General East "))
      (Some (Cell.Int 6)) (Some (Cell.Str "02")) (Some (Cell.Int 130));
    SampleSheets.facility (Some (Cell.Str "001")) (Some (Cell.Float nan))
      (Some (Cell.Int 2)) None (Some (Cell.Int 7)) ].

Definition repeated_map : Dict.t FacilityInfo.t :=
  Eval vm_compute in load_facility_data (Some repeated_facilities).

Definition category (code category shoppable : option Cell.t)
  : CategoryRow.t :=
  {| CategoryRow.HCPCS_Code := code;
     CategoryRow.Service_Category := category;
     CategoryRow.CMS_Shoppable := shoppable |}.

(** 99213 comes twice, the second time without a category; the last row
    has no code. *)
Definition categories : list CategoryRow.t :=
  [ category (Some (Cell.Str "99213")) (Some (Cell.Str "Office Visits"))
      (Some (Cell.Str " y "));
    category (Some (Cell.Str "70450")) (Some (Cell.Str "Imaging"))
      (Some (Cell.Float nan));
    category (Some (Cell.Str "99213")) (Some (Cell.Float nan))
      (Some (Cell.Str "n"));
    category (Some (Cell.Float nan)) (Some (Cell.Str "Surgery"))
      (Some (Cell.Str "Y")) ].

(** A row that converts, then one whose volume is no number. *)
Definition good_row : Row.t := Sample.row "001" "99213" "10" "1000" "600" "700".
Definition bad_row : Row.t := Sample.row "001" "99214" "ten" "1" "1" "1".

End SampleMore.

Example repeated_facility_entry :
  option_map FacilityInfo.name (Dict.get "001" SampleMore.repeated_map)
  = Some "General East"
  /\ option_map FacilityInfo.hospital_type
       (Dict.get "001" SampleMore.repeated_map)
     = Some "Childrens"
  /\ Dict.len SampleMore.repeated_map = 1%nat.
Proof. repeat split; vm_compute; reflexivity. Qed.

Example sample_categories :
  load_service_categories (Some SampleMore.categories)
  = ([("99213", "Office Visits"); ("70450", "Imaging")],
     [("99213", "N")],
     ["Imaging"; "Office Visits"]).
Proof. vm_compute. reflexivity. Qed.

(** X2 on a failing row between rows that convert. *)
Lemma first_failure_witness :
  load_hospital_price_data
    ([SampleMore.good_row] ++ SampleMore.bad_row :: Sample.distinct)
  = Raise ValueError.
Proof.
  apply (extraction_raises_first_failure
           [SampleMore.good_row] SampleMore.bad_row Sample.distinct ValueError);
    run_model.
Defined.

(** X3 on facility 002 of [Sample.distinct]. *)
Lemma facility_alone_witness :
  load_hospital_price_data (of_provnum "002" Sample.distinct)
  = Ok [("002", entry "002" Sample.distinct_data)].
Proof.
  apply (facility_entry_from_its_rows_alone
           Sample.distinct Sample.distinct_data "002"
           (entry "002" Sample.distinct_data));
    run_model.
Defined.

(** X4 on [Sample.duplicated]. *)
Lemma first_seen_order_witness :
  Dict.keys Sample.duplicated_data
  = first_seen (map Row.provnum Sample.duplicated)
  /\ forall p h,
      Dict.get p Sample.duplicated_data = Some h ->
      Dict.keys (HospitalData.procedures h)
      = first_seen (map Row.category (of_provnum p Sample.duplicated)).
Proof.
  apply (extraction_keeps_first_seen_order
           Sample.duplicated Sample.duplicated_data).
  run_model.
Defined.

Lemma sample_run :
  process_and_export_data Sample.distinct (Some SampleSheets.facilities)
    (Some SampleSheets.procedures) None
  = Ok SampleSheets.merged.
Proof. run_model. Qed.

(** X5 on the run over [Sample.distinct]. *)
Lemma unified_hospitals_witness :
  Dict.keys (Output.hospitals SampleSheets.merged)
  = first_seen (map Row.provnum Sample.distinct)
  /\ Dict.wf (Output.hospitals SampleSheets.merged)
  /\ forall p,
      ~ In p (map Row.provnum Sample.distinct) ->
      Dict.get p (Output.hospitals SampleSheets.merged) = None.
Proof.
  exact (unified_hospitals_follow_the_extract
           Sample.distinct (Some SampleSheets.facilities)
           (Some SampleSheets.procedures) None SampleSheets.merged sample_run).
Defined.

(** X6 on facility 001, which the facility sheet describes. *)
Lemma known_facility_witness :
  exists u info,
    Dict.get "001" (Output.hospitals SampleSheets.merged) = Some u
    /\ Dict.get "001" (load_facility_data (Some SampleSheets.facilities))
       = Some info
    /\ Hospital.provnum u = "001" /\ metadata_of info u.
Proof.
  assert (Hu : exists u,
             Dict.get "001" (Output.hospitals SampleSheets.merged) = Some u)
    by (vm_compute; eexists; reflexivity).
  assert (Hinfo : exists info,
             Dict.get "001" (load_facility_data (Some SampleSheets.facilities))
             = Some info)
    by (vm_compute; eexists; reflexivity).
  destruct Hu as [u Hu]. destruct Hinfo as [info Hinfo].
  exists u, info. split; [exact Hu|]. split; [exact Hinfo|].
  exact (known_facility_gets_its_metadata
           Sample.distinct (Some SampleSheets.facilities)
           (Some SampleSheets.procedures) None SampleSheets.merged
           "001" u info sample_run Hu Hinfo).
Defined.

(** X7 on facility 001 of [Sample.distinct]. *)
Lemma summary_witness :
  exists u,
    Dict.get "001" (Output.hospitals SampleSheets.merged) = Some u
    /\ Hospital.procedures u
       = HospitalData.procedures (entry "001" Sample.distinct_data)
    /\ Summary.total_volume (Hospital.summary u)
       = HospitalData.total_volume (entry "001" Sample.distinct_data)
    /\ Summary.total_charges (Hospital.summary u)
       = Py.round2 (HospitalData.total_charges (entry "001" Sample.distinct_data))
    /\ Summary.total_cost (Hospital.summary u)
       = Py.round2 (HospitalData.total_cost (entry "001" Sample.distinct_data))
    /\ Summary.total_paid (Hospital.summary u)
       = Py.round2 (HospitalData.total_paid (entry "001" Sample.distinct_data))
    /\ average_of
         (HospitalData.total_charges (entry "001" Sample.distinct_data))
         (HospitalData.total_volume (entry "001" Sample.distinct_data))
         (Summary.avg_charge_per_case (Hospital.summary u)).
Proof.
  apply (summary_from_accumulated_totals
           Sample.distinct (Some SampleSheets.facilities)
           (Some SampleSheets.procedures) None SampleSheets.merged
           Sample.distinct_data "001" (entry "001" Sample.distinct_data)
           sample_run);
    run_model.
Defined.

(** X8: the run over [Sample.distinct] with its sheets, and with none. *)
Lemma reference_files_witness :
  exists out',
    process_and_export_data Sample.distinct None None None = Ok out'
    /\ Dict.keys (Output.hospitals out')
       = Dict.keys (Output.hospitals SampleSheets.merged)
    /\ Permutation (Output.procedure_codes out')
         (Output.procedure_codes SampleSheets.merged)
    /\ forall p u u',
        Dict.get p (Output.hospitals SampleSheets.merged) = Some u ->
        Dict.get p (Output.hospitals out') = Some u' ->
        Hospital.procedures u' = Hospital.procedures u
        /\ Hospital.summary u' = Hospital.summary u.
Proof.
  exact (reference_files_leave_figures_alone
           Sample.distinct (Some SampleSheets.facilities) None
           (Some SampleSheets.procedures) None None None
           SampleSheets.merged sample_run).
Defined.

(** X9 on the run over [Sample.distinct]. *)
Lemma procedure_codes_witness :
  NoDup (Output.procedure_codes SampleSheets.merged)
  /\ forall c,
      In c (Output.procedure_codes SampleSheets.merged)
      <-> In c (map Row.category Sample.distinct).
Proof.
  exact (procedure_codes_are_the_codes_of_the_rows
           Sample.distinct (Some SampleSheets.facilities)
           (Some SampleSheets.procedures) None SampleSheets.merged sample_run).
Defined.

(** X10 on [SampleSheets.broken_facilities], whose second row has the bed
    count "unknown". *)
Lemma unreadable_bed_count_witness :
  load_facility_data (Some SampleSheets.broken_facilities) = Dict.empty.
Proof.
  apply (unreadable_bed_count_empties_the_map
           SampleSheets.broken_facilities
           (SampleSheets.facility (Some (Cell.Str "003"))
              (Some (Cell.Str "Mercy")) (Some (Cell.Int 2))
              (Some (Cell.Str "2A")) (Some (Cell.Str "unknown")))
           ValueError).
  - right. left. reflexivity.
  - run_model.
  - run_model.
Defined.

(** X11 on [SampleMore.repeated_facilities]. *)
Lemma last_named_row_witness :
  load_facility_data (Some SampleMore.repeated_facilities)
  = SampleMore.repeated_map
  /\ match find (facility_row_of "001")
             (rev SampleMore.repeated_facilities) with
     | Some row =>
         exists info,
           facility_info_of row = Ok info
           /\ Dict.get "001" SampleMore.repeated_map = Some info
     | None => Dict.get "001" SampleMore.repeated_map = None
     end.
Proof.
  apply (facility_last_named_row_wins
           SampleMore.repeated_facilities SampleMore.repeated_map "001").
  run_model.
Defined.

(** X12 on facility 001 of [SampleSheets.facilities]. *)
Lemma clean_facility_witness :
  exists info,
    Dict.get "001" (load_facility_data (Some SampleSheets.facilities))
    = Some info
    /\ "001" <> "" /\ trimmed "001"
    /\ FacilityInfo.name info <> "" /\ FacilityInfo.name info <> "nan"
    /\ trimmed (FacilityInfo.name info)
    /\ trimmed (FacilityInfo.city info)
    /\ trimmed (FacilityInfo.state info)
    /\ trimmed (FacilityInfo.zip_code info)
    /\ (FacilityInfo.hospital_type info = ""
        \/ In (FacilityInfo.hospital_type info) hospital_type_labels)
    /\ (FacilityInfo.ownership info = ""
        \/ In (FacilityInfo.ownership info) (Dict.values ownership_map)).
Proof.
  assert (Hinfo : exists info,
             Dict.get "001" (load_facility_data (Some SampleSheets.facilities))
             = Some info)
    by (vm_compute; eexists; reflexivity).
  destruct Hinfo as [info Hinfo]. exists info. split; [exact Hinfo|].
  exact (facility_entries_are_clean (Some SampleSheets.facilities) "001" info
           Hinfo).
Defined.

(** X14 on code 99213 of [SampleSheets.procedures]. *)
Lemma clean_procedure_name_witness :
  exists description,
    Dict.get "99213" (load_procedure_names (Some SampleSheets.procedures))
    = Some description
    /\ "99213" <> "" /\ "99213" <> "nan" /\ trimmed "99213"
    /\ description <> "" /\ description <> "nan" /\ trimmed description.
Proof.
  assert (Hd : exists description,
             Dict.get "99213"
               (load_procedure_names (Some SampleSheets.procedures))
             = Some description)
    by (vm_compute; eexists; reflexivity).
  destruct Hd as [description Hd]. exists description. split; [exact Hd|].
  exact (procedure_names_are_clean (Some SampleSheets.procedures) "99213"
           description Hd).
Defined.

(** X16 on [SampleMore.categories]. *)
Lemma listed_categories_witness :
  (forall c,
      In c (categories_of (Some SampleMore.categories))
      <-> exists row, In row SampleMore.categories /\ categorised row = true
                      /\ category_of row = c)
  /\ forall code c,
      Dict.get code (category_map_of (Some SampleMore.categories)) = Some c ->
      In c (categories_of (Some SampleMore.categories)).
Proof. exact (service_categories_list_what_rows_name SampleMore.categories). Defined.

(** X18 on code 99213 of [SampleMore.categories]. *)
Lemma clean_category_maps_witness :
  exists flag c,
    Dict.get "99213" (shoppable_map_of (Some SampleMore.categories)) = Some flag
    /\ Dict.get "99213" (category_map_of (Some SampleMore.categories)) = Some c
    /\ (Str.upper flag = flag /\ flag <> "" /\ flag <> "NAN"
        /\ "99213" <> "" /\ "99213" <> "nan" /\ trimmed "99213")
    /\ (trimmed c /\ c <> "" /\ c <> "nan"
        /\ "99213" <> "" /\ "99213" <> "nan" /\ trimmed "99213").
Proof.
  assert (Hf : exists flag,
             Dict.get "99213" (shoppable_map_of (Some SampleMore.categories))
             = Some flag)
    by (vm_compute; eexists; reflexivity).
  assert (Hc : exists c,
             Dict.get "99213" (category_map_of (Some SampleMore.categories))
             = Some c)
    by (vm_compute; eexists; reflexivity).
  destruct Hf as [flag Hf]. destruct Hc as [c Hc].
  exists flag, c. split; [exact Hf|]. split; [exact Hc|].
  destruct (category_maps_are_clean (Some SampleMore.categories) "99213")
    as [Hflags Hcats].
  split; [exact (Hflags flag Hf) | exact (Hcats c Hc)].
Defined.

(** X19 on the 2500 facilities of [SampleChunks.hospitals]. *)
Lemma full_chunks_witness :
  map (fun f => Dict.len (snd f)) (chunk_files SampleChunks.hospitals)
  = (repeat chunk_size (List.length SampleChunks.hospitals / chunk_size)
     ++ (if List.length SampleChunks.hospitals mod chunk_size =? 0 then []
         else [List.length SampleChunks.hospitals mod chunk_size]))%nat
  /\ Forall (fun f => (1 <= Dict.len (snd f) <= chunk_size)%nat)
       (chunk_files SampleChunks.hospitals)
  /\ (chunk_files SampleChunks.hospitals = [] <-> SampleChunks.hospitals = []).
Proof.
  exact (chunks_are_full_but_the_last SampleChunks.hospitals
           SampleChunks.hospitals_wf).
Defined.

(** X20 on the 2500 facilities of [SampleChunks.hospitals]. *)
Lemma one_chunk_witness :
  (forall k v,
     Dict.get k SampleChunks.hospitals = Some v
     <-> exists f, In f (chunk_files SampleChunks.hospitals)
                   /\ Dict.get k (snd f) = Some v)
  /\ (forall f g k,
        In f (chunk_files SampleChunks.hospitals) ->
        In g (chunk_files SampleChunks.hospitals) ->
        Dict.get k (snd f) <> None -> Dict.get k (snd g) <> None ->
        f = g).
Proof.
  exact (every_facility_in_exactly_one_chunk SampleChunks.hospitals
           SampleChunks.hospitals_wf).
Defined.
